(** * A shallow embedding of the EAA stochastic weather generator

    The development follows the Python modules of the repository, one Rocq
    [Module] per Python module:

    - [WGI]   : [EAAWG_Inputs]          (tables and keywords)
    - [WGSL]  : [EAAWG_SpellLength]     (negative binomial spell lengths)
    - [WGPD]  : [EAAWG_PrecipDepth]     (generalized gamma wet-day depths)
    - [EXEV]  : [EAAWG_Events]          (extreme event point processes)
    - [WGHRR] : [EAAWG_HighRealResults] (the daily output buffer)
    - [WGOW]  : [EAAWG_OtherWeather]    (temperature residual process)
    - [WGDS]  : [EAAWG_Dists_Samples]   (monthly sampler bank)
    - [WGmp]  : [EAAWGmp]               (the daily loop of one realization)

    Numbers.  A Python float is modelled by the rational it denotes ([Q]).
    The arithmetic of [calculateUpdate] and [calcCHI0] rounds to binary64
    and a temperature written to the output buffer is narrowed to
    binary32, as in the source.  Elsewhere (sampled depths, event
    magnitudes and offsets, the shift of the mean curves, the
    precipitation column of the buffer) sums and products are exact and
    values are kept as they are.  Where the source guards against NaN or
    infinity the value is an [npfloat], which adds those three special
    values to the rationals.

    Randomness.  A [numpy.random.RandomState] is a seed together with the
    number of variates already requested from it.  What a frozen SciPy
    distribution returns for a given stream is left open: it is a field of
    the class [Variates], over which every definition is parametric. *)

From Stdlib Require Import ZArith QArith Qround Qabs Lia String List.
From stdpp Require Import base option list gmap strings pretty.

Set Default Proof Using "Type".

(** ** Exceptions and the error monad *)

Inductive exn : Type :=
| CreateDistError (msg : string)
| CreateEventError (msg : string)
| KeyError
| IndexError
| TypeError
| ValueError
| FloatingPointError.

Inductive result (A : Type) : Type :=
| Ok (a : A)
| Raise (e : exn).

Arguments Ok {A} a.
Arguments Raise {A} e.

#[export] Instance result_ret : MRet result := fun A a => Ok a.

#[export] Instance result_bind : MBind result := fun A B k r =>
  match r with
  | Ok a => k a
  | Raise e => Raise e
  end.

#[export] Instance result_fmap : FMap result := fun A B f r =>
  match r with
  | Ok a => Ok (f a)
  | Raise e => Raise e
  end.

(** [raises r] : evaluating [r] ends in an exception. *)
Definition raises {A : Type} (r : result A) : Prop := exists e, r = Raise e.

(** [raises_dist r] : [r] ends in a [CreateDistError]. *)
Definition raises_dist {A : Type} (r : result A) : Prop :=
  exists msg, r = Raise (CreateDistError msg).

(** [returns r] : evaluating [r] ends normally. *)
Definition returns {A : Type} (r : result A) : Prop := exists a, r = Ok a.

(** Subscripting a dict: [d[k]] raises [KeyError] on a missing key. *)
Definition getitem `{Countable K} {V : Type} (d : gmap K V) (k : K) : result V :=
  match d !! k with
  | Some v => Ok v
  | None => Raise KeyError
  end.

(** Subscripting a list with a non-negative index. *)
Definition getindex {V : Type} (l : list V) (i : nat) : result V :=
  match l !! i with
  | Some v => Ok v
  | None => Raise IndexError
  end.

(** A [for] loop over a list whose body may raise. *)
Fixpoint for_each {A S : Type} (xs : list A) (body : A -> S -> result S) (s : S)
  : result S :=
  match xs with
  | [] => Ok s
  | x :: xs' => s' ← body x s; for_each xs' body s'
  end.

(** A list comprehension [[f x for x in xs]] whose element may raise. *)
Fixpoint comprehension {A B : Type} (f : A -> result B) (xs : list A)
  : result (list B) :=
  match xs with
  | [] => Ok []
  | x :: xs' => y ← f x; ys ← comprehension f xs'; Ok (y :: ys)
  end.

(** ** Python values, as far as [isinstance] tells them apart *)

Inductive pyval : Type :=
| PyFloat (x : Q)
| PyInt (n : Z)
| PyStr (s : string)
| PyNone.

Definition isinstance_float (v : pyval) : bool :=
  match v with PyFloat _ => true | _ => false end.

Definition isinstance_int (v : pyval) : bool :=
  match v with PyInt _ => true | _ => false end.

(** The numeric value of an operand of a float comparison or difference. *)
Definition as_number (v : pyval) : result Q :=
  match v with
  | PyFloat x => Ok x
  | PyInt n => Ok (inject_Z n)
  | _ => Raise TypeError
  end.

(** ** Comparisons on floats *)

Definition Qleb (x y : Q) : bool := Qle_bool x y.
Definition Qltb (x y : Q) : bool := negb (Qle_bool y x).
Definition Qgtb (x y : Q) : bool := Qltb y x.
Definition Qgeb (x y : Q) : bool := Qleb y x.
Definition Qeqb (x y : Q) : bool := Qeq_bool x y.

(** ** Random streams *)

Record RandomState : Type := mkRandomState {
  rs_seed : Z;
  rs_draws : nat
}.

(** [np.random.RandomState(seed=s)] *)
Definition RandomState_new (s : Z) : RandomState :=
  {| rs_seed := s; rs_draws := 0 |}.

(** The stream after one more variate has been taken from it. *)
Definition advance (rs : RandomState) : RandomState :=
  {| rs_seed := rs_seed rs; rs_draws := S (rs_draws rs) |}.

(** The stream after [n] more variates have been taken from it. *)
Fixpoint advance_by (n : nat) (rs : RandomState) : RandomState :=
  match n with
  | O => rs
  | S n' => advance_by n' (advance rs)
  end.

(** The [n] values an array draw of size [n] takes from a stream: the
    generators fill the array one variate after the other. *)
Definition successive {A : Type} (variate : RandomState -> A) (n : nat)
    (rs : RandomState) : list A :=
  map (fun i => variate (advance_by i rs)) (seq 0 n).

(** Floating-point values that may be NaN or infinite. *)
Inductive npfloat : Type :=
| Finite (x : Q)
| PosInf
| NegInf
| NaN.

Definition isnan (v : npfloat) : bool :=
  match v with NaN => true | _ => false end.

Definition isinf (v : npfloat) : bool :=
  match v with PosInf | NegInf => true | _ => false end.

(** ** Binary floating point *)

(** A binary format: [fmt_prec] bits of precision, and finite values
    below [2 ^ fmt_emax] in magnitude. *)
Record binary_format : Type := mkFormat {
  fmt_prec : Z;
  fmt_emax : Z
}.

(** [np.float32], and [np.float64], which is also the Python [float]. *)
Definition binary32 : binary_format := mkFormat 24 128.
Definition binary64 : binary_format := mkFormat 53 1024.

Definition pow2 (e : Z) : Q :=
  if (0 <=? e)%Z then inject_Z (2 ^ e) else / inject_Z (2 ^ (- e)).

(** The integer nearest to [x], the even one when two are equally near. *)
Definition round_half_even (x : Q) : Z :=
  let f := Qfloor x in
  match (x - inject_Z f ?= 1 # 2)%Q with
  | Lt => f
  | Gt => (f + 1)%Z
  | Eq => if Z.even f then f else (f + 1)%Z
  end.

(** The exponent of the leading bit of [x], for [x] other than zero:
    [2 ^ ilog2 x <= |x| < 2 ^ (ilog2 x + 1)]. *)
Definition ilog2 (x : Q) : Z :=
  let e := (Z.log2 (Z.abs (Qnum x)) - Z.log2 (Zpos (Qden x)))%Z in
  if Qltb (Qabs x) (pow2 e) then (e - 1)%Z else e.

(** The exponent of the last place the format keeps at [x]; it stops
    falling where the subnormal numbers begin. *)
Definition last_place (f : binary_format) (x : Q) : Z :=
  Z.max (ilog2 x - fmt_prec f + 1) (3 - fmt_emax f - fmt_prec f).

(** Rounding to nearest, ties to even, with an unbounded range upward. *)
Definition round_finite (f : binary_format) (x : Q) : Q :=
  if Qeqb x 0 then 0%Q
  else
    let q := last_place f x in
    Qred (inject_Z (round_half_even (x / pow2 q)) * pow2 q).

(** The rounded value is too large for the format. *)
Definition overflows (f : binary_format) (x : Q) : bool :=
  Qleb (pow2 (fmt_emax f)) (Qabs (round_finite f x)).

(** The rounded value is below the normal numbers and is not [x]. *)
Definition underflows (f : binary_format) (x : Q) : bool :=
  Qltb (Qabs (round_finite f x)) (pow2 (2 - fmt_emax f))
  && negb (Qeqb (round_finite f x) x).

(** The value of the format that [x] is rounded to: an infinity when the
    rounded value is out of range. *)
Definition round_to (f : binary_format) (x : Q) : npfloat :=
  if overflows f x then (if Qltb 0 x then PosInf else NegInf)
  else Finite (round_finite f x).

(** The float a decimal literal of the source denotes. *)
Definition literal (x : Q) : npfloat := round_to binary64 x.

(** Storing a float in an array of [dtype=np.float32]. *)
Definition to_float32 (v : npfloat) : npfloat :=
  match v with
  | Finite a => round_to binary32 a
  | _ => v
  end.

(** The result of a binary64 operation whose exact value is [x], while
    [np.seterr(all='raise')] is in force: overflow and underflow raise
    [FloatingPointError]. *)
Definition np_round (x : Q) : result npfloat :=
  if overflows binary64 x || underflows binary64 x
  then Raise FloatingPointError
  else Ok (Finite (round_finite binary64 x)).

(** NumPy arithmetic while [np.seterr(all='raise')] is in force: an
    invalid operation (zero times infinity, infinity minus infinity) raises
    [FloatingPointError], as do overflow and underflow; a NaN operand
    propagates quietly. *)
Definition np_mul (x y : npfloat) : result npfloat :=
  match x, y with
  | NaN, _ | _, NaN => Ok NaN
  | Finite a, Finite b => np_round (a * b)
  | Finite a, PosInf | PosInf, Finite a =>
      if Qeqb a 0 then Raise FloatingPointError
      else Ok (if Qltb 0 a then PosInf else NegInf)
  | Finite a, NegInf | NegInf, Finite a =>
      if Qeqb a 0 then Raise FloatingPointError
      else Ok (if Qltb 0 a then NegInf else PosInf)
  | PosInf, PosInf | NegInf, NegInf => Ok PosInf
  | PosInf, NegInf | NegInf, PosInf => Ok NegInf
  end.

Definition np_add (x y : npfloat) : result npfloat :=
  match x, y with
  | NaN, _ | _, NaN => Ok NaN
  | Finite a, Finite b => np_round (a + b)
  | PosInf, NegInf | NegInf, PosInf => Raise FloatingPointError
  | PosInf, _ | _, PosInf => Ok PosInf
  | NegInf, _ | _, NegInf => Ok NegInf
  end.

(** Arithmetic and comparison of plain Python floats: nothing is raised,
    the sum is rounded to binary64 and becomes an infinity on overflow, an
    invalid operation yields NaN and a comparison with NaN is false. *)
Definition py_add (x y : npfloat) : npfloat :=
  match x, y with
  | NaN, _ | _, NaN => NaN
  | Finite a, Finite b => round_to binary64 (a + b)
  | PosInf, NegInf | NegInf, PosInf => NaN
  | PosInf, _ | _, PosInf => PosInf
  | NegInf, _ | _, NegInf => NegInf
  end.

Definition py_neg (x : npfloat) : npfloat :=
  match x with
  | Finite a => Finite (- a)
  | PosInf => NegInf
  | NegInf => PosInf
  | NaN => NaN
  end.

Definition py_sub (x y : npfloat) : npfloat := py_add x (py_neg y).

Definition py_ltb (x y : npfloat) : bool :=
  match x, y with
  | NaN, _ | _, NaN => false
  | Finite a, Finite b => Qltb a b
  | NegInf, NegInf | PosInf, _ => false
  | NegInf, _ | _, PosInf => true
  | Finite _, NegInf => false
  end.

Definition py_gtb (x y : npfloat) : bool := py_ltb y x.

(** [np.where(cond, a, b)] at one position. *)
Definition np_where {A : Type} (cond : bool) (a b : A) : A :=
  if cond then a else b.

(** [try: r  except: v] where the handler is a plain assignment. *)
Definition try_or {A : Type} (r : result A) (v : A) : A :=
  match r with
  | Ok a => a
  | Raise _ => v
  end.

(** [try: r  except: handler] with a bare [except]. *)
Definition try_except {A : Type} (r handler : result A) : result A :=
  match r with
  | Ok a => Ok a
  | Raise _ => handler
  end.

(** Subscripting an array with an integer that may be negative: a negative
    index counts from the end. *)
Definition getindexZ {V : Type} (l : list V) (i : Z) : result V :=
  if (0 <=? i)%Z then getindex l (Z.to_nat i)
  else if (- Z.of_nat (length l) <=? i)%Z then
    getindex l (Z.to_nat (Z.of_nat (length l) + i))
  else Raise IndexError.

(** [arr[i, j] = v] on a two-dimensional array. *)
Definition setitem2 {V : Type} (arr : list (list V)) (i j : nat) (v : V)
  : result (list (list V)) :=
  row ← getindex arr i;
  if decide (j < length row)%nat then Ok (<[i := <[j := v]> row]> arr)
  else Raise IndexError.

(** [arr[i, j]] *)
Definition getitem2 {V : Type} (arr : list (list V)) (i j : nat) : result V :=
  row ← getindex arr i; getindex row j.

(** The standard variates of the SciPy families the generator uses, before
    location and scale are applied.  Each stream of the program serves one
    distribution only, so a variate is a function of the shape parameters,
    the seed and the number of earlier draws. *)
Class Variates : Type := {
  (** [nbinom(N, P)] : a number of failures *)
  nbinom_variate : Q -> Q -> RandomState -> nat;
  (** [gengamma(a, c)] *)
  gengamma_variate : Q -> Q -> RandomState -> Q;
  (** [poisson(mu)] *)
  poisson_variate : Q -> RandomState -> nat;
  (** [uniform] on the unit interval *)
  uniform_variate : RandomState -> Q;
  (** the standard normal of the white noise term *)
  normal_variate : RandomState -> npfloat
}.

(** ** Dates

    The part of [datetime] and of [pandas.date_range] the daily loop
    relies on: calendar dates in the proleptic Gregorian calendar, their
    ordinal, their day of the year and the day that follows. *)

Record datetime : Type := mkDatetime {
  year : Z;
  month : Z;
  day : Z;
  hour : Z;
  minute : Z
}.

Definition is_leap (y : Z) : bool :=
  ((y mod 4 =? 0) && (negb (y mod 100 =? 0) || (y mod 400 =? 0)))%Z.

Definition days_in_month (y m : Z) : Z :=
  if (m =? 2)%Z then (if is_leap y then 29 else 28)%Z
  else if ((m =? 4) || (m =? 6) || (m =? 9) || (m =? 11))%Z then 30%Z
  else 31%Z.

(** Days of the year [y] that precede the first day of month [m]. *)
Definition days_before_month (y m : Z) : Z :=
  foldr Z.add 0%Z (map (days_in_month y) (seqZ 1 (m - 1))).

Definition days_before_year (y : Z) : Z :=
  (let y' := y - 1 in y' * 365 + y' / 4 - y' / 100 + y' / 400)%Z.

Definition toordinal (d : datetime) : Z :=
  (days_before_year (year d) + days_before_month (year d) (month d) + day d)%Z.

(** [d.timetuple().tm_yday] *)
Definition tm_yday (d : datetime) : Z :=
  (days_before_month (year d) (month d) + day d)%Z.

(** The same time of day, one day later. *)
Definition next_day (d : datetime) : datetime :=
  if (day d <? days_in_month (year d) (month d))%Z then
    mkDatetime (year d) (month d) (day d + 1) (hour d) (minute d)
  else if (month d <? 12)%Z then
    mkDatetime (year d) (month d + 1) 1 (hour d) (minute d)
  else
    mkDatetime (year d + 1) 1 1 (hour d) (minute d).

(** [(end - start).days] : whole days between two time stamps. *)
Definition timedelta_days (start_date end_date : datetime) : Z :=
  (((toordinal end_date * 1440 + hour end_date * 60 + minute end_date)
    - (toordinal start_date * 1440 + hour start_date * 60 + minute start_date))
   / 1440)%Z.

(** [n] consecutive days from [start], as
    [pd.date_range(start, end, freq='D').to_pydatetime().tolist()] lists
    them when [n] is the number of days in the range. *)
Fixpoint date_range (start : datetime) (n : nat) : list datetime :=
  match n with
  | O => []
  | S n' => start :: date_range (next_day start) n'
  end.

(** A calendar date, as every [pd.Timestamp] is. *)
Definition valid_date (d : datetime) : Prop :=
  (1 <= month d <= 12)%Z /\ (1 <= day d <= days_in_month (year d) (month d))%Z.

(** * EAAWG_Inputs *)

Module WGI.

Definition START_DATE : datetime := mkDatetime 2024 1 1 0 0.
Definition END_DATE : datetime := mkDatetime 2060 12 31 23 59.

Inductive wstate : Type := WET_STATE | DRY_STATE.

#[global] Instance wstate_eq_dec : EqDecision wstate.
Proof. solve_decision. Defined.

(** Monthly negative binomial parameters: N, P and location. *)
Definition DRY_SPELL_PARAMS : gmap Z (Q * Q * Q) :=
  list_to_map
    [ (1%Z, (3.915162388655806, 0.2977526333113043, 2.0)%Q);
      (2%Z, (5.312731046936296, 0.1988934314137431, 2.0)%Q);
      (3%Z, (3.603636540370255, 0.3428403644909424, 2.0)%Q);
      (4%Z, (2.704911745656023, 0.3295790193540502, 2.0)%Q);
      (5%Z, (6.953055983608310, 0.3176279916535475, 2.0)%Q);
      (6%Z, (5.058893398911076, 0.3010013234726136, 2.0)%Q);
      (7%Z, (6.095997869386332, 0.3669773538213991, 2.0)%Q);
      (8%Z, (3.177489210319657, 0.5094441058940438, 2.0)%Q);
      (9%Z, (3.735472701463134, 0.2370562126500331, 2.0)%Q);
      (10%Z, (4.606282010303014, 0.2057183456563516, 2.0)%Q);
      (11%Z, (3.000000000000000, 0.1761191459571701, 2.0)%Q);
      (12%Z, (3.756479818110243, 0.4118150622443279, 2.0)%Q) ].

Definition WET_SPELL_PARAMS : gmap Z (Q * Q * Q) :=
  list_to_map
    [ (1%Z, (4.510865915360880, 0.6451501587119356, 1.0)%Q);
      (2%Z, (2.475100135849106, 0.6696768747074860, 1.0)%Q);
      (3%Z, (1.675569413084325, 0.4654584992804364, 1.0)%Q);
      (4%Z, (2.556299700526773, 0.6365853084394536, 1.0)%Q);
      (5%Z, (3.469188391831542, 0.6069615384053114, 1.0)%Q);
      (6%Z, (3.115250111464483, 0.3393072067630571, 1.0)%Q);
      (7%Z, (1.830988852381821, 0.4184422242753315, 1.0)%Q);
      (8%Z, (1.714407941451173, 0.6526271751106262, 1.0)%Q);
      (9%Z, (2.355907294215807, 0.3353929549624517, 1.0)%Q);
      (10%Z, (2.381103082918876, 0.5459329374264738, 1.0)%Q);
      (11%Z, (2.138504952307077, 0.6512751306213146, 1.0)%Q);
      (12%Z, (2.440332865483639, 0.6921787755056502, 1.0)%Q) ].

(** Monthly generalized gamma parameters: a, c, loc and scale. *)
Definition PRE_DEPTH_PARAMS : gmap Z (Q * Q * Q * Q) :=
  list_to_map
    [ (1%Z, (0.7837115409758860, 1.347633111170500, 0.255, 5.610609853852632)%Q);
      (2%Z, (1.062803150829027, 1.341118445314213, 0.255, 6.391470021107692)%Q);
      (3%Z, (1.100735454047688, 1.272354996142382, 0.255, 8.348663906132668)%Q);
      (4%Z, (1.101843127926503, 1.210980653693744, 0.255, 6.991410943221600)%Q);
      (5%Z, (1.176806796894472, 1.534848341733679, 0.255, 7.508790937219044)%Q);
      (6%Z, (1.494046016720638, 1.372390726371365, 0.255, 10.52645546925398)%Q);
      (7%Z, (1.048404563404255, 1.491669130947536, 0.255, 9.731293267451120)%Q);
      (8%Z, (0.8286900863678252, 1.618721168571233, 0.255, 8.629731575543266)%Q);
      (9%Z, (1.101651079078155, 1.426794294882264, 0.255, 10.01386843532882)%Q);
      (10%Z, (1.536794107157059, 1.294664433648325, 0.255, 10.00000000000000)%Q);
      (11%Z, (0.7814800192944810, 1.396406230690366, 0.255, 6.756062486679516)%Q);
      (12%Z, (0.7951754020048494, 1.369403585110688, 0.255, 5.540832599808860)%Q) ].

(** Largest daily depth allowed for each calendar month. *)
Definition MON_MAX_PP : gmap Z Q :=
  list_to_map
    [ (1%Z, 23.5%Q); (2%Z, 22.9%Q); (3%Z, 33.4%Q); (4%Z, 31.2%Q);
      (5%Z, 39.6%Q); (6%Z, 36.3%Q); (7%Z, 38.6%Q); (8%Z, 35.0%Q);
      (9%Z, 46.1%Q); (10%Z, 46.1%Q); (11%Z, 35.7%Q); (12%Z, 24.3%Q) ].

(** Event classes: recurrence in years and the magnitude range in mm. *)
Definition EVENT_DICT : gmap string (pyval * (pyval * pyval)) :=
  list_to_map
    [ ("2-year"%string, (PyInt 2, (PyFloat 96.0, PyFloat 153.7479198867500)));
      ("5-year"%string, (PyInt 5, (PyFloat 141.0, PyFloat 247.6322773540412)));
      ("10-year"%string, (PyInt 10, (PyFloat 179.0, PyFloat 255.7052662952905)));
      ("25-year"%string, (PyInt 25, (PyFloat 236.0, PyFloat 290.9002966072379)));
      ("50-year"%string, (PyInt 50, (PyFloat 285.0, PyFloat 415.4495994011296)));
      ("100-year"%string, (PyInt 100, (PyFloat 343.0, PyFloat 498.1388101352216))) ].

(** [list(EVENT_DICT.keys())] : the keys in insertion order. *)
Definition EVENT_KEYS : list string :=
  [ "2-year"; "5-year"; "10-year"; "25-year"; "50-year"; "100-year" ]%string.

(** A climatology table as read from its pickle: the two columns used. *)
Record DataFrame : Type := mkDataFrame {
  Tmax_C : list Q;
  Tmin_C : list Q
}.

(** The four smoothed day-of-year tables.  They are loaded from files the
    repository does not contain, so they are left open. *)
Class Climatology : Type := {
  OW_WET_AVE : DataFrame;
  OW_DRY_AVE : DataFrame;
  OW_WET_STD : DataFrame;
  OW_DRY_STD : DataFrame
}.

Definition A_DATA_LIST : (Q * Q) * (Q * Q) :=
  ((0.56219295, 0.2050754), (-0.03543818, 0.68296039))%Q.

Definition B_DATA_LIST : (Q * Q) * (Q * Q) :=
  ((0.74093011, 0.0), (0.17681369, 0.72149121))%Q.

Definition AVE_WET_TMAX_ADD : Q := 5.098810943474146.
Definition AVE_DRY_TMAX_ADD : Q := 6.941519835725408.
Definition AVE_WET_TMIN_ADD : Q := 0.8523552116658896.
Definition AVE_DRY_TMIN_ADD : Q := 0.8422783217775328.

End WGI.

(** * EAAWG_SpellLength *)

Module WGSL.
Section SpellLength.
Context `{Variates}.

(** The frozen [scstats.nbinom(N, P, loc=location)] kept by the object. *)
Record NegBinomial : Type := mkNegBinomial {
  name : string;
  nbinom_N : Q;
  nbinom_P : Q;
  nbinom_loc : Q
}.

(** [NegBinomial.__init__].  Freezing a SciPy distribution does not look at
    the values of its parameters, so the four tests below are the only way
    for construction to fail. *)
Definition NegBinomial_init (N P : pyval) (location : Q) (nm : string)
  : result NegBinomial :=
  match N with
  | PyFloat n =>
      match P with
      | PyFloat p =>
          if Qleb n 0.0 || Qgtb n 1000.0 then
            Raise (CreateDistError "N greater than 1000.0 or less than 0.0!!!")
          else if Qleb p 0.0 || Qgeb p 10 then
            Raise (CreateDistError "P greater >= 1.0 or <= 0.0!!!")
          else
            Ok {| name := nm; nbinom_N := n; nbinom_P := p;
                  nbinom_loc := location |}
      | _ => Raise (CreateDistError "P must be a float!!!")
      end
  | _ => Raise (CreateDistError "N must be a float!!!")
  end.

(** Rounding toward zero, as the cast of a float to an integer does. *)
Definition Qtrunc (x : Q) : Z :=
  if Qltb x 0 then Qceiling x else Qfloor x.

(** [self.nbinom.rvs(size=1, random_state=rstate)[0]].  SciPy rejects the
    draw with a [ValueError] when the shape parameters are outside the
    family's domain (N > 0 and 0 < P <= 1); otherwise the variate is
    shifted by the location and cast to an integer. *)
Definition nbinom_rvs (d : NegBinomial) (rstate : RandomState)
  : result (Z * RandomState) :=
  if Qltb 0 (nbinom_N d) && Qltb 0 (nbinom_P d) && Qleb (nbinom_P d) 1 then
    Ok (Qtrunc (inject_Z (Z.of_nat (nbinom_variate (nbinom_N d) (nbinom_P d) rstate))
                + nbinom_loc d),
        advance rstate)
  else Raise ValueError.

(** The parameters are in the domain SciPy samples from. *)
Definition in_domain (d : NegBinomial) : Prop :=
  (0 < nbinom_N d)%Q /\ (0 < nbinom_P d)%Q /\ (nbinom_P d <= 1)%Q.

(** [NegBinomial.ranval1] *)
Definition ranval1 (self : NegBinomial) (rstate : RandomState)
  : result (Z * RandomState) :=
  nbinom_rvs self rstate.

(** [self.nbinom.rvs(size=asize, random_state=rstate)] : the domain test
    of the single draw, a [ValueError] of NumPy for a negative size, and
    otherwise [asize] variates, each shifted and cast like the single one. *)
Definition nbinom_rvs_array (d : NegBinomial) (asize : Z) (rstate : RandomState)
  : result (list Z * RandomState) :=
  if Qltb 0 (nbinom_N d) && Qltb 0 (nbinom_P d) && Qleb (nbinom_P d) 1 then
    if (asize <? 0)%Z then Raise ValueError
    else
      Ok (successive
            (fun rs =>
               Qtrunc (inject_Z (Z.of_nat (nbinom_variate (nbinom_N d) (nbinom_P d) rs))
                       + nbinom_loc d))
            (Z.to_nat asize) rstate,
          advance_by (Z.to_nat asize) rstate)
  else Raise ValueError.

(** [NegBinomial.ranArray] *)
Definition ranArray (self : NegBinomial) (asize : Z) (rstate : RandomState)
  : result (list Z * RandomState) :=
  nbinom_rvs_array self asize rstate.

(** [WetStateSampler] and [DryStateSampler] only hold a random stream. *)
Definition WetStateSampler (wet_state_seed : Z) : RandomState :=
  RandomState_new wet_state_seed.

Definition DryStateSampler (dry_state_seed : Z) : RandomState :=
  RandomState_new dry_state_seed.

End SpellLength.
End WGSL.

(** * EAAWG_PrecipDepth *)

Module WGPD.
Section PrecipDepth.
Context `{Variates}.

(** Wet/dry threshold in millimetres. *)
Definition WD_THRESH : Q := 0.255.

(** The frozen [scstats.gengamma(a, c, loc=loc, scale=scale)]. *)
Record Gamma2PCont : Type := mkGamma2PCont {
  name : string;
  gamma_a : Q;
  gamma_c : Q;
  gamma_loc : Q;
  gamma_scale : Q
}.

(** [Gamma2PCont.__init__] *)
Definition Gamma2PCont_init (a c : pyval) (loc scale : Q) (nm : string)
  : result Gamma2PCont :=
  match a with
  | PyFloat av =>
      match c with
      | PyFloat cv =>
          if Qleb av 0.0 then
            Raise (CreateDistError "a must be greater than zero!!!")
          else if Qeqb cv 0.0 then
            Raise (CreateDistError "c must not be equal to zero!!!")
          else
            Ok {| name := nm; gamma_a := av; gamma_c := cv;
                  gamma_loc := loc; gamma_scale := scale |}
      | _ => Raise (CreateDistError "c must be a float!!!")
      end
  | _ => Raise (CreateDistError "a must be a float!!!")
  end.

(** [self.gamma.rvs(size=1, random_state=rstate)[0]].  SciPy rejects a
    negative scale (and shapes outside a > 0, c <> 0) with a [ValueError],
    returns the location for a zero scale, and otherwise scales and shifts
    the standard variate. *)
Definition gengamma_rvs (d : Gamma2PCont) (rstate : RandomState)
  : result (Q * RandomState) :=
  if Qltb 0 (gamma_a d) && negb (Qeqb (gamma_c d) 0) && Qleb 0 (gamma_scale d) then
    if Qeqb (gamma_scale d) 0 then Ok (gamma_loc d, rstate)
    else Ok ((gengamma_variate (gamma_a d) (gamma_c d) rstate * gamma_scale d
              + gamma_loc d)%Q,
             advance rstate)
  else Raise ValueError.

(** The parameters are in the domain SciPy samples from. *)
Definition in_domain (d : Gamma2PCont) : Prop :=
  (0 < gamma_a d)%Q /\ ~ (gamma_c d == 0)%Q /\ (0 <= gamma_scale d)%Q.

(** [Gamma2PCont.ranval1] *)
Definition ranval1 (self : Gamma2PCont) (rstate : RandomState) (mon : Z)
    (maxes : gmap Z Q) (thresh : Q) : result (Q * RandomState) :=
  '(numd, rstate) ← gengamma_rvs self rstate;
  cap ← getitem maxes mon;
  let numd := if Qgtb numd cap then cap else numd in
  let numd := if Qltb numd thresh then thresh else numd in
  Ok (numd, rstate).

(** [self.gamma.rvs(size=asize, random_state=rstate)] : as the single
    draw, for [asize] values; a zero scale gives the location [asize]
    times without drawing. *)
Definition gengamma_rvs_array (d : Gamma2PCont) (asize : Z) (rstate : RandomState)
  : result (list Q * RandomState) :=
  if Qltb 0 (gamma_a d) && negb (Qeqb (gamma_c d) 0) && Qleb 0 (gamma_scale d) then
    if (asize <? 0)%Z then Raise ValueError
    else if Qeqb (gamma_scale d) 0 then
      Ok (replicate (Z.to_nat asize) (gamma_loc d), rstate)
    else
      Ok (successive
            (fun rs =>
               (gengamma_variate (gamma_a d) (gamma_c d) rs * gamma_scale d
                + gamma_loc d)%Q)
            (Z.to_nat asize) rstate,
          advance_by (Z.to_nat asize) rstate)
  else Raise ValueError.

(** [Gamma2PCont.ranArray] : the two [np.where] clamps act on every
    element. *)
Definition ranArray (self : Gamma2PCont) (asize : Z) (rstate : RandomState)
    (mon : Z) (maxes : gmap Z Q) (thresh : Q) : result (list Q * RandomState) :=
  '(numda, rstate) ← gengamma_rvs_array self asize rstate;
  cap ← getitem maxes mon;
  let numda := map (fun x => np_where (Qgtb x cap) cap x) numda in
  let numda := map (fun x => np_where (Qltb x thresh) thresh x) numda in
  Ok (numda, rstate).


(** [PrecipSampler] holds a random stream; [getSingleVal] draws a uniform
    number from it. *)
Definition PrecipSampler (pd_sample_seed : Z) : RandomState :=
  RandomState_new pd_sample_seed.

Definition getSingleVal (rstate : RandomState) : Q * RandomState :=
  ((uniform_variate rstate * (1.0 - 0.0) + 0.0)%Q, advance rstate).

End PrecipDepth.
End WGPD.

(** * EAAWG_Events *)

Module EXEV.
Section Events.
Context `{Variates}.

(** The frozen [scstats.poisson] and [scstats.uniform] of an event class. *)
Record ExtremeEvent : Type := mkExtremeEvent {
  name : string;
  poisson_mu : Q;
  uniform_loc : Q;
  uniform_scale : Q
}.

(** [ExtremeEvent.__init__].  The source tests [lowMag] twice and never
    [highMag], so the second type test cannot fail once the first has
    passed; [highMag] only has to be comparable with a float. *)
Definition ExtremeEvent_init (aveRecurYrs lowMag highMag : pyval) (nm : string)
  : result ExtremeEvent :=
  match lowMag with
  | PyFloat low =>
      match aveRecurYrs with
      | PyInt yrs =>
          high ← as_number highMag;
          if Qgeb low high then
            Raise (CreateEventError "highMag must be greater than lowMag !!!")
          else if (yrs <? 2)%Z then
            Raise (CreateEventError "aveRecurYrs must be >= 2!!!")
          else
            Ok {| name := nm; poisson_mu := inject_Z yrs;
                  uniform_loc := low; uniform_scale := (high - low)%Q |}
      | _ => Raise (CreateEventError "aveRecurYrs must be an int!!!")
      end
  | _ => Raise (CreateEventError "lowMag must be a float!!!")
  end.

(** [ExtremeEvent.nextEventDays] : Poisson years converted to days. *)
Definition nextEventDays (self : ExtremeEvent) (rstate : RandomState)
  : Q * RandomState :=
  let offsetYrs := poisson_variate (poisson_mu self) rstate in
  ((inject_Z (Z.of_nat offsetYrs) * 365.25)%Q, advance rstate).

(** [ExtremeEvent.nextEventDailyMag] : a magnitude in millimetres. *)
Definition nextEventDailyMag (self : ExtremeEvent) (rstate : RandomState)
  : Q * RandomState :=
  ((uniform_variate rstate * uniform_scale self + uniform_loc self)%Q,
   advance rstate).

Definition EventRecurSampler (evrecur_sample_seed : Z) : RandomState :=
  RandomState_new evrecur_sample_seed.

Definition EventMagSampler (evmag_sample_seed : Z) : RandomState :=
  RandomState_new evmag_sample_seed.

(** The module's global dictionaries.  An entry of [ACT_EVENT_DICT] is the
    event with its recurrence and magnitude samplers; an entry of
    [NEXT_EVENT_DICT] is the next trigger offset in days with the next
    magnitude; [TTRIG_EVENT_TRACK_DICT] logs (time, magnitude) pairs. *)
Record state : Type := mkState {
  ACT_EVENT_DICT : gmap string (ExtremeEvent * RandomState * RandomState);
  TTRIG_EVENT_TRACK_DICT : gmap string (list (datetime * Q));
  NEXT_EVENT_DICT : gmap string (Q * Q)
}.

(** [setAllBegin] *)
Definition setAllBegin : state :=
  {| ACT_EVENT_DICT := ∅; TTRIG_EVENT_TRACK_DICT := ∅; NEXT_EVENT_DICT := ∅ |}.

(** [setEvents] : one event object and two samplers per class, seeded by
    the position of the class in [EVENT_KEYS], counted from one. *)
Definition setEvents (recurSeed magSeed : Z) (s : state) : result state :=
  '(EvTrackDict, _) ←
    for_each WGI.EVENT_KEYS
      (fun evName '(EvTrackDict, evCnt) =>
         '(yrs, (low, high)) ← getitem WGI.EVENT_DICT evName;
         curEvent ← ExtremeEvent_init yrs low high evName;
         let curRecurSampler := EventRecurSampler (recurSeed + evCnt) in
         let curMagSampler := EventMagSampler (magSeed + evCnt) in
         Ok (<[evName := (curEvent, curRecurSampler, curMagSampler)]> EvTrackDict,
             (evCnt + 1)%Z))
      (∅, 1%Z);
  Ok {| ACT_EVENT_DICT := EvTrackDict;
        TTRIG_EVENT_TRACK_DICT := TTRIG_EVENT_TRACK_DICT s;
        NEXT_EVENT_DICT := NEXT_EVENT_DICT s |}.

(** [setTrackers] : the first trigger offset and magnitude of every class,
    and an empty log. *)
Definition setTrackers (s : state) : result state :=
  '(act, toBeTrigDict, trackingDict) ←
    for_each WGI.EVENT_KEYS
      (fun evName '(act, toBeTrigDict, trackingDict) =>
         '(curExEvent, evRecSamp, evMagSamp) ← getitem act evName;
         let '(curTrigTime, evRecSamp) := nextEventDays curExEvent evRecSamp in
         let '(curTrigMag, evMagSamp) := nextEventDailyMag curExEvent evMagSamp in
         Ok (<[evName := (curExEvent, evRecSamp, evMagSamp)]> act,
             <[evName := (curTrigTime, curTrigMag)]> toBeTrigDict,
             <[evName := []]> trackingDict))
      (ACT_EVENT_DICT s, ∅, ∅);
  Ok {| ACT_EVENT_DICT := act;
        TTRIG_EVENT_TRACK_DICT := trackingDict;
        NEXT_EVENT_DICT := toBeTrigDict |}.

(** [updateTriggeredEvent] : log the event that fired and re-arm its class
    from the current elapsed day. *)
Definition updateTriggeredEvent (evCnt : nat) (curTime : datetime)
    (curElapsDays : Z) (s : state) : result state :=
  key ← getindex WGI.EVENT_KEYS evCnt;
  '(curExEvent, evRecSamp, evMagSamp) ← getitem (ACT_EVENT_DICT s) key;
  let '(curTrigTime, evRecSamp) := nextEventDays curExEvent evRecSamp in
  let '(curTrigMag, evMagSamp) := nextEventDailyMag curExEvent evMagSamp in
  trigList ← getitem (TTRIG_EVENT_TRACK_DICT s) key;
  '(_, firedMag) ← getitem (NEXT_EVENT_DICT s) key;
  let nextTrigTime := (inject_Z curElapsDays + curTrigTime)%Q in
  Ok {| ACT_EVENT_DICT :=
          <[key := (curExEvent, evRecSamp, evMagSamp)]> (ACT_EVENT_DICT s);
        TTRIG_EVENT_TRACK_DICT :=
          <[key := trigList ++ [(curTime, firedMag)]]> (TTRIG_EVENT_TRACK_DICT s);
        NEXT_EVENT_DICT :=
          <[key := (nextTrigTime, curTrigMag)]> (NEXT_EVENT_DICT s) |}.

(** Every event class has its entry in the three dictionaries. *)
Definition ready (s : state) : Prop :=
  forall key, key ∈ WGI.EVENT_KEYS ->
    is_Some (ACT_EVENT_DICT s !! key) /\
    is_Some (TTRIG_EVENT_TRACK_DICT s !! key) /\
    is_Some (NEXT_EVENT_DICT s !! key).

End Events.
End EXEV.

(** * EAAWG_HighRealResults *)

Module WGHRR.

Definition TMAX_IND : nat := 0.
Definition TMIN_IND : nat := 1.
Definition PRE_IND : nat := 2.
Definition TOT_VALS : nat := 3.

(** [createSimStructures] : the zeroed [H0_REAL], one row per day. *)
Definition createSimStructures (TotDays : nat) : list (list npfloat) :=
  replicate TotDays (replicate TOT_VALS (Finite 0.0)).

(** [assignDryDep] *)
Definition assignDryDep (tIndex : nat) (H0_REAL : list (list npfloat))
  : result (list (list npfloat)) :=
  setitem2 H0_REAL tIndex PRE_IND (Finite 0.0).

(** [assignWetDep] *)
Definition assignWetDep (tIndex : nat) (pVal : npfloat)
    (H0_REAL : list (list npfloat)) : result (list (list npfloat)) :=
  setitem2 H0_REAL tIndex PRE_IND pVal.

(** [assignTemp] : [H0_REAL] is an array of [dtype=np.float32], so each
    temperature is narrowed as it is stored. *)
Definition assignTemp (tIndex : nat) (MaxT MinT : npfloat)
    (H0_REAL : list (list npfloat)) : result (list (list npfloat)) :=
  H0_REAL ← setitem2 H0_REAL tIndex TMAX_IND (to_float32 MaxT);
  setitem2 H0_REAL tIndex TMIN_IND (to_float32 MinT).

(** The buffer has one row of [TOT_VALS] values for each of [n] days. *)
Definition buffer_shape (n : nat) (H0_REAL : list (list npfloat)) : Prop :=
  length H0_REAL = n /\
  forall i row, H0_REAL !! i = Some row -> length row = TOT_VALS.

End WGHRR.

(** * EAAWG_OtherWeather *)

Module WGOW.
Section OtherWeather.
Context `{Variates} `{WGI.Climatology}.

Definition NUM_OTHER : nat := 2.
Definition NUM_DAYS_YR : nat := 366.
Definition SIGMA_THRESH : Q := 4.0.
Definition MIN_DAILY_DELTA : Q := 4.0.

(** Modelled from the spec: the class [StdNormal] of the module
    [EAAWG_StdNormal], which the sources do not contain.  It is a frozen
    standard normal without state of its own. *)
Definition StdNormal : Type := unit.

(** Modelled from the spec: [StdNormal.ranval1], one white-noise value
    taken from the stream it is handed. *)
Definition StdNormal_ranval1 (self : StdNormal) (rstate : RandomState)
  : npfloat * RandomState :=
  (normal_variate rstate, advance rstate).

(** Modelled from the spec: the class [ErrorTSampler] of the module
    [EAAWG_StdNormal], a random stream seeded at construction like the
    samplers of the other modules. *)
Definition ErrorTSampler (seed : Z) : RandomState := RandomState_new seed.

(** The module's global arrays.  [M0] and [M1] are left out: nothing that
    runs in a realization reads or writes them. *)
Record state : Type := mkState {
  A_DATA : (Q * Q) * (Q * Q);
  B_DATA : (Q * Q) * (Q * Q);
  WET_TMAX_AVE : list Q;
  WET_TMAX_STD : list Q;
  WET_TMIN_AVE : list Q;
  WET_TMIN_STD : list Q;
  DRY_TMAX_AVE : list Q;
  DRY_TMAX_STD : list Q;
  DRY_TMIN_AVE : list Q;
  DRY_TMIN_STD : list Q;
  EPS_STD_NORMAL : list StdNormal;
  EPS_NORM_SAMP : list RandomState;
  EPSI_2 : npfloat * npfloat;
  CHI_M0 : npfloat * npfloat;
  CHI_L1M0 : npfloat * npfloat
}.

(** The module as it stands after import, and after [setAllBegin]. *)
Definition setAllBegin : state :=
  {| A_DATA := ((1, 1), (1, 1))%Q;
     B_DATA := ((1, 1), (1, 1))%Q;
     WET_TMAX_AVE := replicate NUM_DAYS_YR 1%Q;
     WET_TMAX_STD := replicate NUM_DAYS_YR 1%Q;
     WET_TMIN_AVE := replicate NUM_DAYS_YR 1%Q;
     WET_TMIN_STD := replicate NUM_DAYS_YR 1%Q;
     DRY_TMAX_AVE := replicate NUM_DAYS_YR 1%Q;
     DRY_TMAX_STD := replicate NUM_DAYS_YR 1%Q;
     DRY_TMIN_AVE := replicate NUM_DAYS_YR 1%Q;
     DRY_TMIN_STD := replicate NUM_DAYS_YR 1%Q;
     EPS_STD_NORMAL := [];
     EPS_NORM_SAMP := [];
     EPSI_2 := (Finite 1, Finite 1);
     CHI_M0 := (Finite 1, Finite 1);
     CHI_L1M0 := (Finite 1, Finite 1) |}.

(** [arr[:] = np.array(column)] : the column has to fill the whole array,
    or to hold a single value that is repeated all over it. *)
Definition fill (column : list Q) : result (list Q) :=
  if decide (length column = NUM_DAYS_YR) then Ok column
  else match column with
       | [x] => Ok (replicate NUM_DAYS_YR x)
       | _ => Raise ValueError
       end.

(** [constructArrays] *)
Definition constructArrays (s : state) : result state :=
  wTmaxAve ← fill (WGI.Tmax_C WGI.OW_WET_AVE);
  let wTmaxAve := map (fun x => (x + WGI.AVE_WET_TMAX_ADD)%Q) wTmaxAve in
  wTminAve ← fill (WGI.Tmin_C WGI.OW_WET_AVE);
  let wTminAve := map (fun x => (x + WGI.AVE_WET_TMIN_ADD)%Q) wTminAve in
  wTmaxStd ← fill (WGI.Tmax_C WGI.OW_WET_STD);
  wTminStd ← fill (WGI.Tmin_C WGI.OW_WET_STD);
  dTmaxAve ← fill (WGI.Tmax_C WGI.OW_DRY_AVE);
  let dTmaxAve := map (fun x => (x + WGI.AVE_DRY_TMAX_ADD)%Q) dTmaxAve in
  dTminAve ← fill (WGI.Tmin_C WGI.OW_DRY_AVE);
  let dTminAve := map (fun x => (x + WGI.AVE_DRY_TMIN_ADD)%Q) dTminAve in
  dTmaxStd ← fill (WGI.Tmax_C WGI.OW_DRY_STD);
  dTminStd ← fill (WGI.Tmin_C WGI.OW_DRY_STD);
  Ok {| A_DATA := WGI.A_DATA_LIST;
        B_DATA := WGI.B_DATA_LIST;
        WET_TMAX_AVE := wTmaxAve;
        WET_TMAX_STD := wTmaxStd;
        WET_TMIN_AVE := wTminAve;
        WET_TMIN_STD := wTminStd;
        DRY_TMAX_AVE := dTmaxAve;
        DRY_TMAX_STD := dTmaxStd;
        DRY_TMIN_AVE := dTminAve;
        DRY_TMIN_STD := dTminStd;
        EPS_STD_NORMAL := EPS_STD_NORMAL s;
        EPS_NORM_SAMP := EPS_NORM_SAMP s;
        EPSI_2 := EPSI_2 s;
        CHI_M0 := CHI_M0 s;
        CHI_L1M0 := CHI_L1M0 s |}.

Definition set_samplers (s : state) (dists : list StdNormal)
    (samps : list RandomState) : state :=
  {| A_DATA := A_DATA s; B_DATA := B_DATA s;
     WET_TMAX_AVE := WET_TMAX_AVE s; WET_TMAX_STD := WET_TMAX_STD s;
     WET_TMIN_AVE := WET_TMIN_AVE s; WET_TMIN_STD := WET_TMIN_STD s;
     DRY_TMAX_AVE := DRY_TMAX_AVE s; DRY_TMAX_STD := DRY_TMAX_STD s;
     DRY_TMIN_AVE := DRY_TMIN_AVE s; DRY_TMIN_STD := DRY_TMIN_STD s;
     EPS_STD_NORMAL := dists; EPS_NORM_SAMP := samps;
     EPSI_2 := EPSI_2 s; CHI_M0 := CHI_M0 s; CHI_L1M0 := CHI_L1M0 s |}.

Definition set_EPSI_2 (s : state) (e : npfloat * npfloat) : state :=
  {| A_DATA := A_DATA s; B_DATA := B_DATA s;
     WET_TMAX_AVE := WET_TMAX_AVE s; WET_TMAX_STD := WET_TMAX_STD s;
     WET_TMIN_AVE := WET_TMIN_AVE s; WET_TMIN_STD := WET_TMIN_STD s;
     DRY_TMAX_AVE := DRY_TMAX_AVE s; DRY_TMAX_STD := DRY_TMAX_STD s;
     DRY_TMIN_AVE := DRY_TMIN_AVE s; DRY_TMIN_STD := DRY_TMIN_STD s;
     EPS_STD_NORMAL := EPS_STD_NORMAL s; EPS_NORM_SAMP := EPS_NORM_SAMP s;
     EPSI_2 := e; CHI_M0 := CHI_M0 s; CHI_L1M0 := CHI_L1M0 s |}.

Definition set_CHI_M0 (s : state) (c : npfloat * npfloat) : state :=
  {| A_DATA := A_DATA s; B_DATA := B_DATA s;
     WET_TMAX_AVE := WET_TMAX_AVE s; WET_TMAX_STD := WET_TMAX_STD s;
     WET_TMIN_AVE := WET_TMIN_AVE s; WET_TMIN_STD := WET_TMIN_STD s;
     DRY_TMAX_AVE := DRY_TMAX_AVE s; DRY_TMAX_STD := DRY_TMAX_STD s;
     DRY_TMIN_AVE := DRY_TMIN_AVE s; DRY_TMIN_STD := DRY_TMIN_STD s;
     EPS_STD_NORMAL := EPS_STD_NORMAL s; EPS_NORM_SAMP := EPS_NORM_SAMP s;
     EPSI_2 := EPSI_2 s; CHI_M0 := c; CHI_L1M0 := CHI_L1M0 s |}.

Definition set_CHI_L1M0 (s : state) (c : npfloat * npfloat) : state :=
  {| A_DATA := A_DATA s; B_DATA := B_DATA s;
     WET_TMAX_AVE := WET_TMAX_AVE s; WET_TMAX_STD := WET_TMAX_STD s;
     WET_TMIN_AVE := WET_TMIN_AVE s; WET_TMIN_STD := WET_TMIN_STD s;
     DRY_TMAX_AVE := DRY_TMAX_AVE s; DRY_TMAX_STD := DRY_TMAX_STD s;
     DRY_TMIN_AVE := DRY_TMIN_AVE s; DRY_TMIN_STD := DRY_TMIN_STD s;
     EPS_STD_NORMAL := EPS_STD_NORMAL s; EPS_NORM_SAMP := EPS_NORM_SAMP s;
     EPSI_2 := EPSI_2 s; CHI_M0 := CHI_M0 s; CHI_L1M0 := c |}.

(** [setupDistsSamples] : two distributions and two samplers are appended
    to the module's lists, both samplers built from the one seed. *)
Definition setupDistsSamples (seed_std_norm : Z) (s : state) : state :=
  let dists := EPS_STD_NORMAL s ++ [tt] in
  let samps := EPS_NORM_SAMP s ++ [ErrorTSampler seed_std_norm] in
  let dists := dists ++ [tt] in
  let samps := samps ++ [ErrorTSampler seed_std_norm] in
  set_samplers s dists samps.

(** [updateTracker] : a fresh innovation for each channel, drawn through
    the first two entries of the module's lists, with NaN and infinite
    draws replaced by 0.25. *)
Definition updateTracker (s : state) : result state :=
  dist0 ← getindex (EPS_STD_NORMAL s) 0;
  samp0 ← getindex (EPS_NORM_SAMP s) 0;
  let '(e0, samp0) := StdNormal_ranval1 dist0 samp0 in
  let samps := <[0%nat := samp0]> (EPS_NORM_SAMP s) in
  dist1 ← getindex (EPS_STD_NORMAL s) 1;
  samp1 ← getindex samps 1;
  let '(e1, samp1) := StdNormal_ranval1 dist1 samp1 in
  let samps := <[1%nat := samp1]> samps in
  let '(e0, e1) := (np_where (isnan e0) (Finite 0.25) e0,
                    np_where (isnan e1) (Finite 0.25) e1) in
  let '(e0, e1) := (np_where (isinf e0) (Finite 0.25) e0,
                    np_where (isinf e1) (Finite 0.25) e1) in
  Ok (set_EPSI_2 (set_samplers s (EPS_STD_NORMAL s) samps) (e0, e1)).

(** One temperature of [calculateUpdate] before the NaN and infinity
    guards: [chi * std[i] + ave[i]] under [np.seterr(all='raise')], with
    [ave[i]] alone when anything was raised on the way. *)
Definition convert (chi : npfloat) (std ave : list Q) (i : Z) : result npfloat :=
  try_except
    (sd ← getindexZ std i;
     prod ← np_mul chi (Finite sd);
     av ← getindexZ ave i;
     np_add prod (Finite av))
    (av ← getindexZ ave i; Ok (Finite av)).

(** The first part of [calculateUpdate], down to [passMinT]: the pair of
    temperatures of the day before the minimum daily difference is
    enforced. *)
Definition converted_pair (DayOYear : Z) (st : WGI.wstate) (s : state)
  : result (npfloat * npfloat) :=
  '(cMaxT0, cMinT0) ←
    (if decide (st = WGI.WET_STATE) then
       cMaxT0 ← convert (CHI_M0 s).1 (WET_TMAX_STD s) (WET_TMAX_AVE s) (DayOYear - 1);
       cMinT0 ← convert (CHI_M0 s).2 (WET_TMIN_STD s) (WET_TMIN_AVE s) (DayOYear - 1);
       Ok (cMaxT0, cMinT0)
     else
       cMaxT0 ← convert (CHI_M0 s).1 (DRY_TMAX_STD s) (DRY_TMAX_AVE s) (DayOYear - 1);
       cMinT0 ← convert (CHI_M0 s).2 (DRY_TMIN_STD s) (DRY_TMIN_AVE s) (DayOYear - 1);
       Ok (cMaxT0, cMinT0));
  let acMaxT0 := cMaxT0 in
  dryMax ← getindexZ (DRY_TMAX_AVE s) (DayOYear - 1);
  let acMaxT0 := np_where (isnan acMaxT0) (Finite dryMax) acMaxT0 in
  let acMaxT0 := np_where (isinf acMaxT0) (Finite dryMax) acMaxT0 in
  let acMinT0 := cMinT0 in
  dryMin ← getindexZ (DRY_TMIN_AVE s) (DayOYear - 1);
  let acMinT0 := np_where (isnan acMinT0) (Finite dryMin) acMinT0 in
  let acMinT0 := np_where (isinf acMinT0) (Finite dryMin) acMinT0 in
  let passMaxT := acMaxT0 in
  let passMinT := acMinT0 in
  Ok (passMaxT, passMinT).

(** [calculateUpdate] *)
Definition calculateUpdate (curIndex : nat) (DayOYear : Z) (st : WGI.wstate)
    (s : state) (H0_REAL : list (list npfloat)) : result (list (list npfloat)) :=
  '(passMaxT, passMinT) ← converted_pair DayOYear st s;
  let passMaxT :=
    if py_ltb (py_sub passMaxT passMinT) (Finite MIN_DAILY_DELTA)
    then py_add passMinT (Finite MIN_DAILY_DELTA)
    else passMaxT in
  WGHRR.assignTemp curIndex passMaxT passMinT H0_REAL.

(** [rollOverChis] *)
Definition rollOverChis (s : state) : state :=
  set_CHI_L1M0 s (CHI_M0 s).

(** A row vector times a two by two matrix, under
    [np.seterr(all='raise')]. *)
Definition matmul (v : npfloat * npfloat) (m : (Q * Q) * (Q * Q))
  : result (npfloat * npfloat) :=
  let '((m00, m01), (m10, m11)) := m in
  a0 ← np_mul v.1 (Finite m00);
  b0 ← np_mul v.2 (Finite m10);
  c0 ← np_add a0 b0;
  a1 ← np_mul v.1 (Finite m01);
  b1 ← np_mul v.2 (Finite m11);
  c1 ← np_add a1 b1;
  Ok (c0, c1).

(** The guards of [calcCHI0] at one position: NaN and infinity become 1.0,
    then the value is clipped to the sigma threshold on both sides. *)
Definition clip_chi (c : npfloat) : npfloat :=
  let c := np_where (isnan c) (Finite 1.0) c in
  let c := np_where (isinf c) (Finite 1.0) c in
  let c := np_where (py_gtb c (Finite SIGMA_THRESH)) (Finite SIGMA_THRESH) c in
  np_where (py_ltb c (Finite (-1.0 * SIGMA_THRESH)))
           (Finite (-1.0 * SIGMA_THRESH)) c.

(** [calcCHI0] *)
Definition calcCHI0 (s : state) : state :=
  let A_0 := A_DATA s in
  let B_0 := B_DATA s in
  let '(c0, c1) :=
    try_or
      (x ← matmul (CHI_L1M0 s) A_0;
       y ← matmul (EPSI_2 s) B_0;
       c0 ← np_add x.1 y.1;
       c1 ← np_add x.2 y.2;
       Ok (c0, c1))
      (Finite 1.0, Finite 1.0) in
  set_CHI_M0 s (clip_chi c0, clip_chi c1).

(** The module can run a day: every climatology array has its 366
    entries and the two white-noise samplers are in place. *)
Record ready (s : state) : Prop := mkReady {
  rdy_wet_tmax_ave : length (WET_TMAX_AVE s) = NUM_DAYS_YR;
  rdy_wet_tmax_std : length (WET_TMAX_STD s) = NUM_DAYS_YR;
  rdy_wet_tmin_ave : length (WET_TMIN_AVE s) = NUM_DAYS_YR;
  rdy_wet_tmin_std : length (WET_TMIN_STD s) = NUM_DAYS_YR;
  rdy_dry_tmax_ave : length (DRY_TMAX_AVE s) = NUM_DAYS_YR;
  rdy_dry_tmax_std : length (DRY_TMAX_STD s) = NUM_DAYS_YR;
  rdy_dry_tmin_ave : length (DRY_TMIN_AVE s) = NUM_DAYS_YR;
  rdy_dry_tmin_std : length (DRY_TMIN_STD s) = NUM_DAYS_YR;
  rdy_dists : (2 <= length (EPS_STD_NORMAL s))%nat;
  rdy_samps : (2 <= length (EPS_NORM_SAMP s))%nat
}.


(** The states the module can be in: it starts as imported, and a
    realization only acts on it through the functions above. *)
Inductive reachable : state -> Prop :=
| reach_begin : reachable setAllBegin
| reach_construct s s' :
    reachable s -> constructArrays s = Ok s' -> reachable s'
| reach_setup s seed :
    reachable s -> reachable (setupDistsSamples seed s)
| reach_update s s' :
    reachable s -> updateTracker s = Ok s' -> reachable s'
| reach_calc s :
    reachable s -> reachable (calcCHI0 s)
| reach_roll s :
    reachable s -> reachable (rollOverChis s).

End OtherWeather.
End WGOW.

(** * EAAWG_Dists_Samples *)

Module WGDS.
Section DistsSamples.
Context `{Variates}.

(** The module's global dictionaries, keyed by calendar month. *)
Record state : Type := mkState {
  DDRY_SPELL_DISTS : gmap Z WGSL.NegBinomial;
  DWET_SPELL_DISTS : gmap Z WGSL.NegBinomial;
  DP_DEPTH_DISTS : gmap Z WGPD.Gamma2PCont;
  DDRY_SPELL_SAMP : gmap Z RandomState;
  DWET_SPELL_SAMP : gmap Z RandomState;
  DP_DEPTH_SAMP : gmap Z RandomState;
  ST_DRYSPELL : gmap Z Z;
  ST_WETSPELL : gmap Z Z;
  ST_PDEPTH : gmap Z Q
}.

(** [setAllBegin], which is also the module as it stands after import. *)
Definition setAllBegin : state :=
  {| DDRY_SPELL_DISTS := ∅; DWET_SPELL_DISTS := ∅; DP_DEPTH_DISTS := ∅;
     DDRY_SPELL_SAMP := ∅; DWET_SPELL_SAMP := ∅; DP_DEPTH_SAMP := ∅;
     ST_DRYSPELL := ∅; ST_WETSPELL := ∅; ST_PDEPTH := ∅ |}.

(** [list(range(1, 13, 1))] *)
Definition MonthInts : list Z := seqZ 1 12.

Definition set_dry (s : state) (samp : gmap Z RandomState) (st : gmap Z Z) : state :=
  {| DDRY_SPELL_DISTS := DDRY_SPELL_DISTS s; DWET_SPELL_DISTS := DWET_SPELL_DISTS s;
     DP_DEPTH_DISTS := DP_DEPTH_DISTS s;
     DDRY_SPELL_SAMP := samp; DWET_SPELL_SAMP := DWET_SPELL_SAMP s;
     DP_DEPTH_SAMP := DP_DEPTH_SAMP s;
     ST_DRYSPELL := st; ST_WETSPELL := ST_WETSPELL s; ST_PDEPTH := ST_PDEPTH s |}.

Definition set_wet (s : state) (samp : gmap Z RandomState) (st : gmap Z Z) : state :=
  {| DDRY_SPELL_DISTS := DDRY_SPELL_DISTS s; DWET_SPELL_DISTS := DWET_SPELL_DISTS s;
     DP_DEPTH_DISTS := DP_DEPTH_DISTS s;
     DDRY_SPELL_SAMP := DDRY_SPELL_SAMP s; DWET_SPELL_SAMP := samp;
     DP_DEPTH_SAMP := DP_DEPTH_SAMP s;
     ST_DRYSPELL := ST_DRYSPELL s; ST_WETSPELL := st; ST_PDEPTH := ST_PDEPTH s |}.

Definition set_depth (s : state) (samp : gmap Z RandomState) (st : gmap Z Q) : state :=
  {| DDRY_SPELL_DISTS := DDRY_SPELL_DISTS s; DWET_SPELL_DISTS := DWET_SPELL_DISTS s;
     DP_DEPTH_DISTS := DP_DEPTH_DISTS s;
     DDRY_SPELL_SAMP := DDRY_SPELL_SAMP s; DWET_SPELL_SAMP := DWET_SPELL_SAMP s;
     DP_DEPTH_SAMP := samp;
     ST_DRYSPELL := ST_DRYSPELL s; ST_WETSPELL := ST_WETSPELL s; ST_PDEPTH := st |}.

(** [setDistributions] : twelve distributions of each kind, each with a
    sampler of its own; all samplers of a kind get the same seed. *)
Definition setDistributions (pdSampSeed wetSSampSeed drySSampSeed : Z) (s : state)
  : result state :=
  '(DrySYrDict, WetSYrDict, DrySmpDict, WetSmpDict) ←
    for_each MonthInts
      (fun jJ '(DrySYrDict, WetSYrDict, DrySmpDict, WetSmpDict) =>
         '(dN, dP, dLoc) ← getitem WGI.DRY_SPELL_PARAMS jJ;
         drydist ← WGSL.NegBinomial_init (PyFloat dN) (PyFloat dP) dLoc
                     ("Dry spell, Month " +:+ pretty jJ);
         '(wN, wP, wLoc) ← getitem WGI.WET_SPELL_PARAMS jJ;
         wetdist ← WGSL.NegBinomial_init (PyFloat wN) (PyFloat wP) wLoc
                     ("Wet spell, Month " +:+ pretty jJ);
         let drysamp := WGSL.DryStateSampler drySSampSeed in
         let wetsamp := WGSL.WetStateSampler wetSSampSeed in
         Ok (<[jJ := drydist]> DrySYrDict, <[jJ := wetdist]> WetSYrDict,
             <[jJ := drysamp]> DrySmpDict, <[jJ := wetsamp]> WetSmpDict))
      (∅, ∅, ∅, ∅);
  '(PDMonDict, PSMonDict) ←
    for_each MonthInts
      (fun kK '(PDMonDict, PSMonDict) =>
         '(a, c, loc, scale) ← getitem WGI.PRE_DEPTH_PARAMS kK;
         depdist ← WGPD.Gamma2PCont_init (PyFloat a) (PyFloat c) loc scale
                     ("Precip depth, Month " +:+ pretty kK);
         let depsamp := WGPD.PrecipSampler pdSampSeed in
         Ok (<[kK := depdist]> PDMonDict, <[kK := depsamp]> PSMonDict))
      (∅, ∅);
  Ok {| DDRY_SPELL_DISTS := DrySYrDict; DWET_SPELL_DISTS := WetSYrDict;
        DP_DEPTH_DISTS := PDMonDict;
        DDRY_SPELL_SAMP := DrySmpDict; DWET_SPELL_SAMP := WetSmpDict;
        DP_DEPTH_SAMP := PSMonDict;
        ST_DRYSPELL := ST_DRYSPELL s; ST_WETSPELL := ST_WETSPELL s;
        ST_PDEPTH := ST_PDEPTH s |}.

(** The body of the first loop of [sampleAll] for month [jJ]. *)
Definition sample_spells (jJ : Z) (s : state) : result state :=
  dSamp ← getitem (DDRY_SPELL_SAMP s) jJ;
  wSamp ← getitem (DWET_SPELL_SAMP s) jJ;
  ddist ← getitem (DDRY_SPELL_DISTS s) jJ;
  '(dval, dSamp) ← WGSL.ranval1 ddist dSamp;
  let s := set_dry s (<[jJ := dSamp]> (DDRY_SPELL_SAMP s))
                     (<[jJ := dval]> (ST_DRYSPELL s)) in
  wdist ← getitem (DWET_SPELL_DISTS s) jJ;
  '(wval, wSamp) ← WGSL.ranval1 wdist wSamp;
  Ok (set_wet s (<[jJ := wSamp]> (DWET_SPELL_SAMP s))
                (<[jJ := wval]> (ST_WETSPELL s))).

(** The body of the second loop of [sampleAll] for month [kK]: the depth
    of every month is clamped with the cap of the current month [mon]. *)
Definition sample_depth (mon : Z) (kK : Z) (s : state) : result state :=
  pdSamp ← getitem (DP_DEPTH_SAMP s) kK;
  pdist ← getitem (DP_DEPTH_DISTS s) kK;
  '(pval, pdSamp) ← WGPD.ranval1 pdist pdSamp mon WGI.MON_MAX_PP WGPD.WD_THRESH;
  Ok (set_depth s (<[kK := pdSamp]> (DP_DEPTH_SAMP s))
                  (<[kK := pval]> (ST_PDEPTH s))).

(** [sampleAll] *)
Definition sampleAll (mon : Z) (s : state) : result state :=
  s ← for_each MonthInts sample_spells s;
  for_each MonthInts (sample_depth mon) s.

(** [setTrackers] : the same draws as [sampleAll], into fresh tracking
    dictionaries. *)
Definition setTrackers (mon : Z) (s : state) : result state :=
  s ← for_each MonthInts sample_spells (set_wet (set_dry s (DDRY_SPELL_SAMP s) ∅)
                                                (DWET_SPELL_SAMP s) ∅);
  for_each MonthInts (sample_depth mon) (set_depth s (DP_DEPTH_SAMP s) ∅).

(** The bank as the input tables configure it: spell distributions
    located at one day or more and depth distributions with a positive
    scale. *)
Record configured (s : state) : Prop := mkConfigured {
  cfg_dry_loc : forall k d,
    DDRY_SPELL_DISTS s !! k = Some d -> (1 <= WGSL.nbinom_loc d)%Q;
  cfg_wet_loc : forall k d,
    DWET_SPELL_DISTS s !! k = Some d -> (1 <= WGSL.nbinom_loc d)%Q;
  cfg_scale : forall k d,
    DP_DEPTH_DISTS s !! k = Some d -> (0 < WGPD.gamma_scale d)%Q
}.

(** The bank can be sampled: for every calendar month it holds the three
    distributions, with parameters SciPy accepts, and their samplers. *)
Record ready (s : state) : Prop := mkReady {
  rdy_dry : forall m, (1 <= m <= 12)%Z ->
    exists d rs, DDRY_SPELL_DISTS s !! m = Some d /\ WGSL.in_domain d /\
                 DDRY_SPELL_SAMP s !! m = Some rs;
  rdy_wet : forall m, (1 <= m <= 12)%Z ->
    exists d rs, DWET_SPELL_DISTS s !! m = Some d /\ WGSL.in_domain d /\
                 DWET_SPELL_SAMP s !! m = Some rs;
  rdy_depth : forall m, (1 <= m <= 12)%Z ->
    exists d rs, DP_DEPTH_DISTS s !! m = Some d /\ WGPD.in_domain d /\
                 DP_DEPTH_SAMP s !! m = Some rs
}.


(** The tracked values are in range: spells of one day or more, depths
    at or above the wet/dry threshold. *)
Record tracked_in_range (s : state) : Prop := mkTracked {
  trk_dry : forall k v, ST_DRYSPELL s !! k = Some v -> (1 <= v)%Z;
  trk_wet : forall k v, ST_WETSPELL s !! k = Some v -> (1 <= v)%Z;
  trk_depth : forall k v, ST_PDEPTH s !! k = Some v -> (WGPD.WD_THRESH <= v)%Q
}.

(** What the bank holds for month [jJ]: the two spell samplers with the
    two tracked spell lengths, and the depth sampler with the tracked
    depth. *)
Definition spell_entry (s : state) (jJ : Z)
  : option RandomState * option RandomState * option Z * option Z :=
  (DDRY_SPELL_SAMP s !! jJ, DWET_SPELL_SAMP s !! jJ,
   ST_DRYSPELL s !! jJ, ST_WETSPELL s !! jJ).

Definition depth_entry (s : state) (kK : Z) : option RandomState * option Q :=
  (DP_DEPTH_SAMP s !! kK, ST_PDEPTH s !! kK).

(** Between [s] and [s'] exactly one dry and one wet spell length were
    drawn for month [jJ]: the tracked values of [s'] are the results of
    one [ranval1] call each on the streams of [s], and the streams of [s']
    are one variate further. *)
Definition one_spell_draw (jJ : Z) (s s' : state) : Prop :=
  exists ddist dSamp dval wdist wSamp wval,
    DDRY_SPELL_DISTS s !! jJ = Some ddist /\
    DDRY_SPELL_SAMP s !! jJ = Some dSamp /\
    WGSL.ranval1 ddist dSamp = Ok (dval, advance dSamp) /\
    DWET_SPELL_DISTS s !! jJ = Some wdist /\
    DWET_SPELL_SAMP s !! jJ = Some wSamp /\
    WGSL.ranval1 wdist wSamp = Ok (wval, advance wSamp) /\
    spell_entry s' jJ
      = (Some (advance dSamp), Some (advance wSamp), Some dval, Some wval).

(** Between [s] and [s'] exactly one depth was drawn for month [kK], and
    clamped for the current month [mon]. *)
Definition one_depth_draw (mon kK : Z) (s s' : state) : Prop :=
  exists pdist pdSamp pval pdSamp',
    DP_DEPTH_DISTS s !! kK = Some pdist /\
    DP_DEPTH_SAMP s !! kK = Some pdSamp /\
    WGPD.ranval1 pdist pdSamp mon WGI.MON_MAX_PP WGPD.WD_THRESH
      = Ok (pval, pdSamp') /\
    depth_entry s' kK = (Some pdSamp', Some pval).

(** [s'] differs from [s] in spell samplers and tracked spells only. *)
Definition spells_only (s s' : state) : Prop :=
  DDRY_SPELL_DISTS s' = DDRY_SPELL_DISTS s /\
  DWET_SPELL_DISTS s' = DWET_SPELL_DISTS s /\
  DP_DEPTH_DISTS s' = DP_DEPTH_DISTS s /\
  DP_DEPTH_SAMP s' = DP_DEPTH_SAMP s /\
  ST_PDEPTH s' = ST_PDEPTH s.

(** [s'] differs from [s] in depth samplers and tracked depths only. *)
Definition depths_only (s s' : state) : Prop :=
  DDRY_SPELL_DISTS s' = DDRY_SPELL_DISTS s /\
  DWET_SPELL_DISTS s' = DWET_SPELL_DISTS s /\
  DP_DEPTH_DISTS s' = DP_DEPTH_DISTS s /\
  DDRY_SPELL_SAMP s' = DDRY_SPELL_SAMP s /\
  DWET_SPELL_SAMP s' = DWET_SPELL_SAMP s /\
  ST_DRYSPELL s' = ST_DRYSPELL s /\
  ST_WETSPELL s' = ST_WETSPELL s.

End DistsSamples.
End WGDS.

(** * EAAWGmp *)

Module WGmp.
Section Worker.
Context `{Variates} `{WGI.Climatology}.

(** Everything one realization reads and writes: the globals of the four
    modules and the local variables of [WG_Worker_Main] that live across
    iterations of the daily loop. *)
Record state : Type := mkState {
  wgds : WGDS.state;
  wgow : WGOW.state;
  exev : EXEV.state;
  H0_REAL : list (list npfloat);
  h0State : WGI.wstate;
  h0remdur : Z;
  EvTrigTimes : list Q;
  EvTrigMags : list Q;
  eventTriggered : bool;
  eventTrigMag : Q
}.

(** [[ EXEV.NEXT_EVENT_DICT[x][0] for x in WGI.EVENT_KEYS ]] and its
    companion for the magnitudes. *)
Definition next_times (ev : EXEV.state) : result (list Q) :=
  comprehension
    (fun x => tm ← getitem (EXEV.NEXT_EVENT_DICT ev) x; Ok tm.1) WGI.EVENT_KEYS.

Definition next_mags (ev : EXEV.state) : result (list Q) :=
  comprehension
    (fun x => tm ← getitem (EXEV.NEXT_EVENT_DICT ev) x; Ok tm.2) WGI.EVENT_KEYS.

(** The state after the day's spell bookkeeping: the output buffer, the
    weather state and the remaining duration are replaced. *)
Definition set_day (s : state) (H0 : list (list npfloat)) (st : WGI.wstate)
    (dur : Z) : state :=
  {| wgds := wgds s; wgow := wgow s; exev := exev s; H0_REAL := H0;
     h0State := st; h0remdur := dur;
     EvTrigTimes := EvTrigTimes s; EvTrigMags := EvTrigMags s;
     eventTriggered := eventTriggered s; eventTrigMag := eventTrigMag s |}.

(** The state with the event bookkeeping replaced. *)
Definition set_events (s : state) (ev : EXEV.state) (times mags : list Q)
    (trig : bool) (mag : Q) : state :=
  {| wgds := wgds s; wgow := wgow s; exev := ev; H0_REAL := H0_REAL s;
     h0State := h0State s; h0remdur := h0remdur s;
     EvTrigTimes := times; EvTrigMags := mags;
     eventTriggered := trig; eventTrigMag := mag |}.

(** The body of the loop over event classes on a wet day: a class whose
    trigger offset lies before the elapsed day count fires, adds its
    magnitude to the day's event total and is re-armed. *)
Definition check_event (cTime : datetime) (jJ : nat) (eE : nat) (s : state)
  : result state :=
  trig ← getindex (EvTrigTimes s) eE;
  if Qltb trig (inject_Z (Z.of_nat jJ)) then
    mag ← getindex (EvTrigMags s) eE;
    ev ← EXEV.updateTriggeredEvent eE cTime (Z.of_nat jJ) (exev s);
    Ok (set_events s ev (EvTrigTimes s) (EvTrigMags s) true
                   (eventTrigMag s + mag)%Q)
  else Ok s.

(** The wet/dry test of the daily loop, from [if h0State == WGI.WET_STATE]
    down to the last [assignDryDep]: the state may toggle, and the day's
    precipitation is written to the output buffer. *)
Definition check_state (cTime : datetime) (jJ : nat) (curMonth : Z) (s : state)
  : result state :=
  if decide (h0State s = WGI.WET_STATE) then
    if (h0remdur s <=? 0)%Z then
      dur ← getitem (WGDS.ST_DRYSPELL (wgds s)) curMonth;
      H0 ← WGHRR.assignDryDep jJ (H0_REAL s);
      Ok (set_day s H0 WGI.DRY_STATE dur)
    else
      let NumCustomEvents := length WGI.EVENT_KEYS in
      s ← for_each (seq 0 NumCustomEvents) (check_event cTime jJ) s;
      '(pVal, s) ←
        (if eventTriggered s then
           let pVal := eventTrigMag s in
           times ← next_times (exev s);
           mags ← next_mags (exev s);
           Ok (pVal, set_events s (exev s) times mags false 0.0)
         else
           pVal ← getitem (WGDS.ST_PDEPTH (wgds s)) curMonth;
           Ok (pVal, s));
      H0 ← WGHRR.assignWetDep jJ (Finite pVal) (H0_REAL s);
      Ok (set_day s H0 (h0State s) (h0remdur s))
  else
    if (h0remdur s <=? 0)%Z then
      dur ← getitem (WGDS.ST_WETSPELL (wgds s)) curMonth;
      pVal ← getitem (WGDS.ST_PDEPTH (wgds s)) curMonth;
      H0 ← WGHRR.assignWetDep jJ (Finite pVal) (H0_REAL s);
      Ok (set_day s H0 WGI.WET_STATE dur)
    else
      H0 ← WGHRR.assignDryDep jJ (H0_REAL s);
      Ok (set_day s H0 (h0State s) (h0remdur s)).

(** The first two steps of an iteration: every monthly distribution is
    sampled and the white noise is refreshed. *)
Definition sample_day (curMonth : Z) (s : state) : result state :=
  ds ← WGDS.sampleAll curMonth (wgds s);
  ow ← WGOW.updateTracker (wgow s);
  Ok {| wgds := ds; wgow := ow; exev := exev s; H0_REAL := H0_REAL s;
        h0State := h0State s; h0remdur := h0remdur s;
        EvTrigTimes := EvTrigTimes s; EvTrigMags := EvTrigMags s;
        eventTriggered := eventTriggered s; eventTrigMag := eventTrigMag s |}.

(** The last steps of an iteration: the temperatures of the day, the
    decrement of the spell counter and the roll-over of the residuals. *)
Definition finish_day (jJ : nat) (curDayoYr : Z) (s : state) : result state :=
  let ow := WGOW.calcCHI0 (wgow s) in
  H0 ← WGOW.calculateUpdate jJ curDayoYr (h0State s) ow (H0_REAL s);
  Ok {| wgds := wgds s; wgow := WGOW.rollOverChis ow; exev := exev s;
        H0_REAL := H0;
        h0State := h0State s; h0remdur := (h0remdur s - 1)%Z;
        EvTrigTimes := EvTrigTimes s; EvTrigMags := EvTrigMags s;
        eventTriggered := eventTriggered s; eventTrigMag := eventTrigMag s |}.

(** One iteration of the loop [for jJ in range(TOTAL_DAYS)]. *)
Definition day_body (TimesList : list datetime) (jJ : nat) (s : state)
  : result state :=
  cTime ← getindex TimesList jJ;
  let curMonth := month cTime in
  s ← sample_day curMonth s;
  let curDayoYr := tm_yday cTime in
  s ← check_state cTime jJ curMonth s;
  finish_day jJ curDayoYr s.

(** The loop over the days [0 .. TOTAL_DAYS - 1]. *)
Definition daily_loop (TimesList : list datetime) (TOTAL_DAYS : nat) (s : state)
  : result state :=
  for_each (seq 0 TOTAL_DAYS) (day_body TimesList) s.

(** The globals of the imported modules, as a realization finds them. *)
Record modules : Type := mkModules {
  mod_wgds : WGDS.state;
  mod_wgow : WGOW.state;
  mod_exev : EXEV.state
}.

(** The modules right after import, before any realization has run. *)
Definition fresh_modules : modules :=
  {| mod_wgds := WGDS.setAllBegin;
     mod_wgow := WGOW.setAllBegin;
     mod_exev := EXEV.setAllBegin |}.

(** The set-up part of [WG_Worker_Main], everything before the daily
    loop, for a simulation from [start_date] to [end_date]. *)
Definition setup (start_date end_date : datetime)
    (RealNum SNSeed PDSeed WSLSeed DSLSeed EVRecurSeed EVMagSeed : Z)
    (m : modules) : result (list datetime * nat * state) :=
  let pdSampSeed := (PDSeed + RealNum)%Z in
  let sndSampSeed := (SNSeed + RealNum)%Z in
  let wetSSampSeed := (WSLSeed + RealNum)%Z in
  let drySSampSeed := (DSLSeed + RealNum)%Z in
  let evrSSampSeed := (EVRecurSeed + RealNum)%Z in
  let evmSSampSeed := (EVMagSeed + RealNum)%Z in
  let TOTAL_DAYS := (timedelta_days start_date end_date + 1)%Z in
  ow ← WGOW.constructArrays (mod_wgow m);
  ds ← WGDS.setDistributions pdSampSeed wetSSampSeed drySSampSeed (mod_wgds m);
  ds ← WGDS.setTrackers (month start_date) ds;
  let ow := WGOW.setupDistsSamples sndSampSeed ow in
  ow ← WGOW.updateTracker ow;
  ev ← EXEV.setEvents evrSSampSeed evmSSampSeed (mod_exev m);
  ev ← EXEV.setTrackers ev;
  let StarterSamp := WGPD.PrecipSampler (pdSampSeed - 1) in
  let TimesList := date_range start_date (Z.to_nat TOTAL_DAYS) in
  let curMonth := month start_date in
  let '(TestVal, StarterSamp) := WGPD.getSingleVal StarterSamp in
  '(h0State, h0remdur) ←
    (if Qgtb TestVal 0.5 then
       dur ← getitem (WGDS.ST_WETSPELL ds) curMonth; Ok (WGI.WET_STATE, dur)
     else
       dur ← getitem (WGDS.ST_DRYSPELL ds) curMonth; Ok (WGI.DRY_STATE, dur));
  times ← next_times ev;
  mags ← next_mags ev;
  if (TOTAL_DAYS <? 0)%Z then Raise ValueError
  else
    Ok (TimesList, Z.to_nat TOTAL_DAYS,
        {| wgds := ds; wgow := ow; exev := ev;
           H0_REAL := WGHRR.createSimStructures (Z.to_nat TOTAL_DAYS);
           h0State := h0State; h0remdur := h0remdur;
           EvTrigTimes := times; EvTrigMags := mags;
           eventTriggered := false; eventTrigMag := 0.0 |}).

(** One realization from [start_date] to [end_date]: set-up, then the
    daily loop.  The state returned is what the output routines read. *)
Definition realization (start_date end_date : datetime)
    (RealNum SNSeed PDSeed WSLSeed DSLSeed EVRecurSeed EVMagSeed : Z)
    (m : modules) : result state :=
  '(TimesList, TOTAL_DAYS, s) ←
    setup start_date end_date RealNum SNSeed PDSeed WSLSeed DSLSeed
          EVRecurSeed EVMagSeed m;
  daily_loop TimesList TOTAL_DAYS s.

(** [WG_Worker_Main] : the realization over the configured dates; its
    return code is 0 whenever it returns. *)
Definition WG_Worker_Main
    (RealNum SNSeed PDSeed WSLSeed DSLSeed EVRecurSeed EVMagSeed : Z)
    (m : modules) : result (Z * state) :=
  s ← realization WGI.START_DATE WGI.END_DATE RealNum SNSeed PDSeed WSLSeed
        DSLSeed EVRecurSeed EVMagSeed m;
  Ok (0%Z, s).

(** *** Notions used to state what a day of the loop does *)

(** The event class at position [eE] is due on elapsed day [jJ]: its
    trigger offset lies before [jJ]. *)
Definition event_fires (jJ : nat) (times : list Q) (eE : nat) : bool :=
  match times !! eE with
  | Some trig => Qltb trig (inject_Z (Z.of_nat jJ))
  | None => false
  end.

(** Some class among [classes] is due on day [jJ]. *)
Definition any_event (jJ : nat) (times : list Q) (classes : list nat) : bool :=
  existsb (event_fires jJ times) classes.

(** The magnitudes of the classes among [classes] that are due on day
    [jJ], added up in the order of the classes, starting from [acc]. *)
Definition event_total (jJ : nat) (times mags : list Q) (classes : list nat)
    (acc : Q) : Q :=
  foldl (fun acc eE =>
           if event_fires jJ times eE
           then (acc + default 0%Q (mags !! eE))%Q else acc)
        acc classes.

(** The positions of the event classes, [range(NumCustomEvents)]. *)
Definition event_classes : list nat := seq 0 (length WGI.EVENT_KEYS).

(** The state with the sampler bank replaced. *)
Definition with_wgds (s : state) (ds : WGDS.state) : state :=
  {| wgds := ds; wgow := wgow s; exev := exev s; H0_REAL := H0_REAL s;
     h0State := h0State s; h0remdur := h0remdur s;
     EvTrigTimes := EvTrigTimes s; EvTrigMags := EvTrigMags s;
     eventTriggered := eventTriggered s; eventTrigMag := eventTrigMag s |}.



(** Two sampler banks hold the same tracked values for month [mon]. *)
Definition same_tracked (mon : Z) (ds1 ds2 : WGDS.state) : Prop :=
  WGDS.ST_DRYSPELL ds1 !! mon = WGDS.ST_DRYSPELL ds2 !! mon /\
  WGDS.ST_WETSPELL ds1 !! mon = WGDS.ST_WETSPELL ds2 !! mon /\
  WGDS.ST_PDEPTH ds1 !! mon = WGDS.ST_PDEPTH ds2 !! mon.

(** The precipitation recorded for day [jJ]. *)
Definition Precip_mm (s : state) (jJ : nat) : result npfloat :=
  getitem2 (H0_REAL s) jJ WGHRR.PRE_IND.

(** What holds of the state whenever a day of a realization begins: no
    event total is pending, the bank is configured from the input tables
    and its tracked values are in range. *)
Record well_formed (s : state) : Prop := mkWellFormed {
  wf_triggered : eventTriggered s = false;
  wf_total : eventTrigMag s = 0.0%Q;
  wf_configured : WGDS.configured (wgds s);
  wf_tracked : WGDS.tracked_in_range (wgds s)
}.

(** [s0] is the state in which the daily loop of some realization with
    the time index [TimesList] starts. *)
Definition realization_begins (TimesList : list datetime) (s0 : state) : Prop :=
  exists start_date end_date RealNum SNSeed PDSeed WSLSeed DSLSeed
         EVRecurSeed EVMagSeed m TOTAL_DAYS,
    valid_date start_date /\
    setup start_date end_date RealNum SNSeed PDSeed WSLSeed DSLSeed
          EVRecurSeed EVMagSeed m = Ok (TimesList, TOTAL_DAYS, s0).

(** Nothing a day of the loop looks up is missing: the modules are ready,
    the trigger lists cover the event classes, the output buffer has a
    row of three values for every entry of the time index, and the time
    index holds calendar dates. *)
Record ready (TimesList : list datetime) (s : state) : Prop := mkReady {
  rdy_wgds : WGDS.ready (wgds s);
  rdy_wgow : WGOW.ready (wgow s);
  rdy_exev : EXEV.ready (exev s);
  rdy_times : length (EvTrigTimes s) = length WGI.EVENT_KEYS;
  rdy_mags : length (EvTrigMags s) = length WGI.EVENT_KEYS;
  rdy_buffer : WGHRR.buffer_shape (length TimesList) (H0_REAL s);
  rdy_dates : forall i d, TimesList !! i = Some d -> valid_date d
}.

(** The rest of an iteration once the day's values have been sampled. *)
Definition rest_of_day (cTime : datetime) (jJ : nat) (s : state) : result state :=
  s ← check_state cTime jJ (month cTime) s;
  finish_day jJ (tm_yday cTime) s.

(** The spell length the bank tracks for month [mon] and the state [st]
    that is being entered. *)
Definition tracked_spell (st : WGI.wstate) (ds : WGDS.state) (mon : Z) : option Z :=
  match st with
  | WGI.WET_STATE => WGDS.ST_WETSPELL ds !! mon
  | WGI.DRY_STATE => WGDS.ST_DRYSPELL ds !! mon
  end.

End Worker.
End WGmp.

(** * Concrete inputs for running the model *)

(** Variates that do not depend on the stream: every negative binomial
    draw is [kn], every Poisson draw [kp], every gamma draw [xg], every
    uniform draw [xu] and every normal draw [e]. *)
Definition fixed_variates (kn kp : nat) (xg xu : Q) (e : npfloat) : Variates :=
  {| nbinom_variate := fun _ _ _ => kn;
     gengamma_variate := fun _ _ _ => xg;
     poisson_variate := fun _ _ => kp;
     uniform_variate := fun _ => xu;
     normal_variate := fun _ => e |}.

(** A climatology that is flat over the year. *)
Definition flat_climatology (tmax tmin sd : Q) : WGI.Climatology :=
  {| WGI.OW_WET_AVE := WGI.mkDataFrame (replicate 366 tmax) (replicate 366 tmin);
     WGI.OW_DRY_AVE := WGI.mkDataFrame (replicate 366 tmax) (replicate 366 tmin);
     WGI.OW_WET_STD := WGI.mkDataFrame (replicate 366 sd) (replicate 366 sd);
     WGI.OW_DRY_STD := WGI.mkDataFrame (replicate 366 sd) (replicate 366 sd) |}.

(** A short run: three negative binomial failures per spell draw, Poisson
    draws of zero years (every event class is due at once), large gamma
    draws, a uniform draw above one half (the realization starts wet). *)
Definition demo_variates : Variates := fixed_variates 3 0 100 0.75 (Finite 0.5).

Definition demo_climatology : WGI.Climatology := flat_climatology 20 10 2.

(** The January depth distribution and its sampler for realization 1. *)
Definition demo_gamma : WGPD.Gamma2PCont :=
  WGPD.mkGamma2PCont "Precip depth, Month 1"
    0.7837115409758860 1.347633111170500 0.255 5.610609853852632.

(** The event module after [setEvents]. *)
Definition demo_events_configured : EXEV.state :=
  Eval vm_compute in
    try_or (@EXEV.setEvents 62380 73872 EXEV.setAllBegin) EXEV.setAllBegin.

(** The event module after [setEvents] and [setTrackers]. *)
Definition demo_events : EXEV.state :=
  Eval vm_compute in
    try_or (ev ← @EXEV.setEvents 62380 73872 EXEV.setAllBegin;
            @EXEV.setTrackers demo_variates ev)
           EXEV.setAllBegin.

(** The same after the first class has fired on elapsed day 5. *)
Definition demo_events_rearmed : EXEV.state :=
  Eval vm_compute in
    try_or (@EXEV.updateTriggeredEvent demo_variates 0
              (mkDatetime 2024 1 6 0 0) 5 demo_events)
           EXEV.setAllBegin.

(** The temperature module with its white-noise samplers in place. *)
Definition demo_weather : WGOW.state :=
  Eval vm_compute in WGOW.setupDistsSamples 31345 WGOW.setAllBegin.

Definition demo_weather_updated : WGOW.state :=
  Eval vm_compute in
    try_or (@WGOW.updateTracker demo_variates demo_weather) WGOW.setAllBegin.

(** The temperature module on days with a mean maximum of 18.0 and a mean
    minimum of 14.3 degrees, as binary64 numbers, and no residual. *)
Definition mild_weather : WGOW.state :=
  Eval vm_compute in
    {| WGOW.A_DATA := WGI.A_DATA_LIST;
       WGOW.B_DATA := WGI.B_DATA_LIST;
       WGOW.WET_TMAX_AVE := replicate 366 (round_finite binary64 18.0);
       WGOW.WET_TMAX_STD := replicate 366 (round_finite binary64 2.0);
       WGOW.WET_TMIN_AVE := replicate 366 (round_finite binary64 14.3);
       WGOW.WET_TMIN_STD := replicate 366 (round_finite binary64 2.0);
       WGOW.DRY_TMAX_AVE := replicate 366 (round_finite binary64 18.0);
       WGOW.DRY_TMAX_STD := replicate 366 (round_finite binary64 2.0);
       WGOW.DRY_TMIN_AVE := replicate 366 (round_finite binary64 14.3);
       WGOW.DRY_TMIN_STD := replicate 366 (round_finite binary64 2.0);
       WGOW.EPS_STD_NORMAL := [tt; tt];
       WGOW.EPS_NORM_SAMP := [WGOW.ErrorTSampler 31345; WGOW.ErrorTSampler 31345];
       WGOW.EPSI_2 := (Finite 0, Finite 0);
       WGOW.CHI_M0 := (Finite 0, Finite 0);
       WGOW.CHI_L1M0 := (Finite 0, Finite 0) |}.

(** The state before anything is set up. *)
Definition blank_state : WGmp.state :=
  {| WGmp.wgds := WGDS.setAllBegin; WGmp.wgow := WGOW.setAllBegin;
     WGmp.exev := EXEV.setAllBegin; WGmp.H0_REAL := [];
     WGmp.h0State := WGI.DRY_STATE; WGmp.h0remdur := 0;
     WGmp.EvTrigTimes := []; WGmp.EvTrigMags := [];
     WGmp.eventTriggered := false; WGmp.eventTrigMag := 0 |}.

(** A realization over the first days of January 2024 with
    [demo_variates]: it starts wet with a spell of four days, and every
    event class is due from the second day on. *)
Definition demo_start : datetime := mkDatetime 2024 1 1 0 0.
Definition demo_end : datetime := mkDatetime 2024 1 6 23 59.

Definition demo_setup : list datetime * nat * WGmp.state :=
  Eval vm_compute in
    try_or (@WGmp.setup demo_variates demo_climatology demo_start demo_end
              1 31344 21342 41446 51548 62379 73871 WGmp.fresh_modules)
           ([], 0%nat, blank_state).

Definition demo_TimesList : list datetime := Eval vm_compute in demo_setup.1.1.
Definition demo_s0 : WGmp.state := Eval vm_compute in demo_setup.2.

(** The states in which its second and third day begin. *)
Definition demo_day1 : WGmp.state :=
  Eval vm_compute in
    try_or (@WGmp.daily_loop demo_variates demo_TimesList 1 demo_s0) blank_state.

Definition demo_day2 : WGmp.state :=
  Eval vm_compute in
    try_or (@WGmp.day_body demo_variates demo_TimesList 1 demo_day1) blank_state.

(** A second realization with spells as short as the input tables allow
    (one wet day, two dry days); it starts dry. *)
Definition short_variates : Variates := fixed_variates 0 0 100 0.25 (Finite 0.5).

Definition short_setup : list datetime * nat * WGmp.state :=
  Eval vm_compute in
    try_or (@WGmp.setup short_variates demo_climatology demo_start demo_end
              1 31344 21342 41446 51548 62379 73871 WGmp.fresh_modules)
           ([], 0%nat, blank_state).

Definition short_TimesList : list datetime := Eval vm_compute in short_setup.1.1.
Definition short_s0 : WGmp.state := Eval vm_compute in short_setup.2.

(** The states in which its third, fourth and fifth day begin. *)
Definition short_day2 : WGmp.state :=
  Eval vm_compute in
    try_or (@WGmp.daily_loop short_variates short_TimesList 2 short_s0) blank_state.

Definition short_day3 : WGmp.state :=
  Eval vm_compute in
    try_or (@WGmp.day_body short_variates short_TimesList 2 short_day2) blank_state.

Definition short_day4 : WGmp.state :=
  Eval vm_compute in
    try_or (@WGmp.day_body short_variates short_TimesList 3 short_day3) blank_state.







(** * Properties *)

(** ** Comparisons *)

Lemma Qleb_le (x y : Q) : Qleb x y = true <-> (x <= y)%Q.
Proof. apply Qle_bool_iff. Qed.

Lemma Qleb_gt (x y : Q) : Qleb x y = false <-> (y < x)%Q.
Proof.
  unfold Qleb. split; intros Hxy.
  - apply Qnot_le_lt. intros Hle. apply Qle_bool_iff in Hle. congruence.
  - destruct (Qle_bool x y) eqn:E; [|reflexivity].
    apply Qle_bool_iff in E. exfalso. exact (Qlt_not_le _ _ Hxy E).
Qed.

Lemma Qltb_lt (x y : Q) : Qltb x y = true <-> (x < y)%Q.
Proof. unfold Qltb. rewrite negb_true_iff. apply Qleb_gt. Qed.

Lemma Qltb_ge (x y : Q) : Qltb x y = false <-> (y <= x)%Q.
Proof. unfold Qltb. rewrite negb_false_iff. apply Qleb_le. Qed.

Lemma Qeqb_eq (x y : Q) : Qeqb x y = true <-> (x == y)%Q.
Proof. apply Qeq_bool_iff. Qed.

(** Order facts between rationals with literal bounds. *)
Ltac Qorder := unfold Qeq, Qlt, Qle in *; simpl in *; lia.

Lemma raises_not_returns {A : Type} (r : result A) : raises r -> ~ returns r.
Proof. intros [e ->] [a Ha]. discriminate. Qed.

(** ** Construction of the distributions *)


(** C5.  A negative binomial with probability parameter P = 2.0 is
    constructed without any error: the range test of [NegBinomial.__init__]
    compares P with 10, although its message and the class documentation
    speak of 1.  The object then fails with a [ValueError] on its first
    draw. *)
Theorem NegBinomial_init_accepts_P_2 `{Variates} :
  WGSL.NegBinomial_init (PyFloat 1.0) (PyFloat 2.0) 0 "Custom negative binomial"
    = Ok (WGSL.mkNegBinomial "Custom negative binomial" 1.0 2.0 0) /\
  forall rstate,
    WGSL.ranval1 (WGSL.mkNegBinomial "Custom negative binomial" 1.0 2.0 0) rstate
      = Raise ValueError.
Proof. split; [reflexivity | intros rstate; reflexivity]. Qed.

(** C6, as stated, fails: a non-positive scale and a negative shape [c]
    both pass [Gamma2PCont.__init__]. *)
Lemma Gamma2PCont_init_scale_unchecked :
  returns (WGPD.Gamma2PCont_init (PyFloat 1.0) (PyFloat 1.0) 0 (-1.0) "g") /\
  returns (WGPD.Gamma2PCont_init (PyFloat 1.0) (PyFloat 1.0) 0 0 "g") /\
  returns (WGPD.Gamma2PCont_init (PyFloat 1.0) (PyFloat (-1.0)) 0 1.0 "g").
Proof. repeat split; eexists; reflexivity. Qed.

(** C6, amended.  Construction of a gamma depth distribution ends in a
    [CreateDistError] exactly when [a] or [c] is not a float, when [a] is
    not positive, or when [c] is zero; location and scale play no part.
    In particular it fails for [a = -1.0], whatever the other arguments. *)
Theorem Gamma2PCont_init_raises_iff (a c : pyval) (loc scale : Q) (nm : string) :
  (raises (WGPD.Gamma2PCont_init a c loc scale nm) <->
     isinstance_float a = false \/ isinstance_float c = false \/
     (exists av, a = PyFloat av /\ (av <= 0)%Q) \/
     (exists cv, c = PyFloat cv /\ (cv == 0)%Q)) /\
  (raises (WGPD.Gamma2PCont_init a c loc scale nm) ->
     raises_dist (WGPD.Gamma2PCont_init a c loc scale nm)) /\
  raises_dist (WGPD.Gamma2PCont_init (PyFloat (-1.0)) c loc scale nm).
Proof.
  unfold WGPD.Gamma2PCont_init. repeat split.
  - intros [e He]. destruct a as [av| | |]; auto. destruct c as [cv| | |]; auto.
    destruct (Qleb av 0.0) eqn:E1.
    { apply Qleb_le in E1. right; right; left. exists av. split; [reflexivity|Qorder]. }
    destruct (Qeqb cv 0.0) eqn:E2; [|discriminate].
    apply Qeqb_eq in E2. right; right; right. exists cv. split; [reflexivity|Qorder].
  - intros [Ha|[Hc|[(av & -> & Hav)|(cv & -> & Hcv)]]].
    + destruct a; try discriminate; eexists; reflexivity.
    + destruct a; try (eexists; reflexivity).
      destruct c; try discriminate; eexists; reflexivity.
    + assert (E : Qleb av 0.0 = true) by (apply Qleb_le; Qorder).
      rewrite E. destruct c; eexists; reflexivity.
    + assert (E : Qeqb cv 0.0 = true) by (apply Qeqb_eq; Qorder).
      rewrite E. destruct a as [av| | |]; try (eexists; reflexivity).
      destruct (Qleb av 0.0); eexists; reflexivity.
  - intros [e He]. destruct a as [av| | |]; try (eexists; reflexivity).
    destruct c as [cv| | |]; try (eexists; reflexivity).
    destruct (Qleb av 0.0); [eexists; reflexivity|].
    destruct (Qeqb cv 0.0); [eexists; reflexivity|discriminate].
  - destruct c; eexists; reflexivity.
Qed.

(** ** Sampling a wet-day depth *)

Lemma MON_MAX_PP_above_thresh (mon : Z) (cap : Q) :
  WGI.MON_MAX_PP !! mon = Some cap -> (WGPD.WD_THRESH <= cap)%Q.
Proof.
  intros Hcap. apply elem_of_list_to_map_2 in Hcap.
  repeat (apply elem_of_cons in Hcap as [Hcap|Hcap];
          [injection Hcap as -> ->; unfold WGPD.WD_THRESH; Qorder|]).
  inversion Hcap.
Qed.

Lemma MON_MAX_PP_months (mon : Z) :
  (1 <= mon <= 12)%Z -> is_Some (WGI.MON_MAX_PP !! mon).
Proof.
  intros Hmon.
  assert (Hcases : mon ∈ [1; 2; 3; 4; 5; 6; 7; 8; 9; 10; 11; 12]%Z).
  { rewrite !elem_of_cons. lia. }
  repeat (apply elem_of_cons in Hcases as [->|Hcases]; [eexists; reflexivity|]).
  inversion Hcases.
Qed.

(** A single depth is returned whenever SciPy accepts the parameters and
    the month is a calendar month. *)
Lemma Gamma2PCont_ranval1_returns `{Variates}
    (d : WGPD.Gamma2PCont) (rstate : RandomState) (mon : Z) :
  (0 < WGPD.gamma_a d)%Q -> ~ (WGPD.gamma_c d == 0)%Q ->
  (0 <= WGPD.gamma_scale d)%Q -> (1 <= mon <= 12)%Z ->
  returns (WGPD.ranval1 d rstate mon WGI.MON_MAX_PP WGPD.WD_THRESH).
Proof.
  intros Ha Hc Hs Hmon. unfold WGPD.ranval1, WGPD.gengamma_rvs.
  apply Qltb_lt in Ha. apply Qleb_le in Hs.
  assert (Hc' : Qeqb (WGPD.gamma_c d) 0 = false).
  { destruct (Qeqb (WGPD.gamma_c d) 0) eqn:E; [|reflexivity].
    apply Qeqb_eq in E. contradiction. }
  rewrite Ha, Hc', Hs. simpl.
  destruct (MON_MAX_PP_months mon Hmon) as [cap Hcap].
  destruct (Qeqb (WGPD.gamma_scale d) 0); simpl;
    unfold getitem; rewrite Hcap; simpl; eexists; reflexivity.
Qed.

(** C2.  A gamma depth distribution that was constructed without error
    and has a scale SciPy accepts returns a depth for every stream and
    every calendar month; and whenever [Gamma2PCont.ranval1] returns a
    depth for month [mon] (with the module's monthly caps and threshold)
    it lies between the wet/dry threshold and the cap of that month: a
    draw below the threshold comes back as the threshold and a draw above
    the cap comes back as the cap. *)
Theorem Gamma2PCont_ranval1_clamped `{Variates}
    (d : WGPD.Gamma2PCont) (rstate : RandomState) (mon : Z) :
  (forall a c loc scale nm,
     WGPD.Gamma2PCont_init a c loc scale nm = Ok d ->
     (0 <= scale)%Q -> (1 <= mon <= 12)%Z ->
     returns (WGPD.ranval1 d rstate mon WGI.MON_MAX_PP WGPD.WD_THRESH)) /\
  (forall v rstate',
     WGPD.ranval1 d rstate mon WGI.MON_MAX_PP WGPD.WD_THRESH = Ok (v, rstate') ->
     exists x cap,
       WGPD.gengamma_rvs d rstate = Ok (x, rstate') /\
       WGI.MON_MAX_PP !! mon = Some cap /\
       (WGPD.WD_THRESH <= v)%Q /\ (v <= cap)%Q /\
       ((x < WGPD.WD_THRESH)%Q -> v = WGPD.WD_THRESH) /\
       ((cap < x)%Q -> v = cap)).
Proof.
  split.
  { intros a c loc scale nm Hinit Hscale Hmon.
    unfold WGPD.Gamma2PCont_init in Hinit.
    destruct a as [av| | |]; try discriminate.
    destruct c as [cv| | |]; try discriminate.
    destruct (Qleb av 0.0) eqn:Ea; [discriminate|].
    destruct (Qeqb cv 0.0) eqn:Ec; [discriminate|].
    injection Hinit as <-. apply Gamma2PCont_ranval1_returns; simpl; auto.
    - apply Qleb_gt in Ea. Qorder.
    - intros Hc. assert (E : Qeqb cv 0.0 = true) by (apply Qeqb_eq; Qorder).
      congruence. }
  intros v rstate'. unfold WGPD.ranval1. intros Hrun.
  destruct (WGPD.gengamma_rvs d rstate) as [[x rs1]|e] eqn:Hdraw; [|discriminate].
  simpl in Hrun. unfold getitem in Hrun.
  destruct (WGI.MON_MAX_PP !! mon) as [cap|] eqn:Hcap; [|discriminate].
  simpl in Hrun. pose proof (MON_MAX_PP_above_thresh mon cap Hcap) as Hthr.
  exists x, cap. unfold Qgtb in Hrun.
  destruct (Qltb cap x) eqn:E1.
  - apply Qltb_lt in E1.
    assert (E2 : Qltb cap WGPD.WD_THRESH = false) by (apply Qltb_ge; exact Hthr).
    rewrite E2 in Hrun. injection Hrun as <- <-.
    repeat apply conj; try reflexivity; try assumption.
    + apply Qle_refl.
    + intros Hlow. exfalso. apply (Qlt_irrefl cap).
      eapply Qlt_le_trans; [exact E1|].
      eapply Qle_trans; [apply Qlt_le_weak; exact Hlow|exact Hthr].
  - apply Qltb_ge in E1. destruct (Qltb x WGPD.WD_THRESH) eqn:E2.
    + injection Hrun as <- <-. apply Qltb_lt in E2.
      repeat apply conj; try reflexivity; try assumption.
      * apply Qle_refl.
      * intros Hhigh. exfalso. exact (Qlt_not_le _ _ Hhigh E1).
    + injection Hrun as <- <-. apply Qltb_ge in E2.
      repeat apply conj; try reflexivity; try assumption.
      * intros Hlow. exfalso. exact (Qlt_not_le _ _ Hlow E2).
      * intros Hhigh. exfalso. exact (Qlt_not_le _ _ Hhigh E1).
Qed.

(** ** The error monad *)

Lemma rbind_Ok {A B : Type} (r : result A) (k : A -> result B) (b : B) :
  r ≫= k = Ok b -> exists a, r = Ok a /\ k a = Ok b.
Proof. destruct r as [a|e]; simpl; [eauto | discriminate]. Qed.

(** Splits a hypothesis [H : r ≫= k = Ok b] into the two steps. *)
Ltac bind_inv H :=
  let a := fresh "a" in
  let Ha := fresh "Ha" in
  apply rbind_Ok in H as (a & Ha & H).

Lemma getitem_Ok `{Countable K} {V : Type} (d : gmap K V) (k : K) (v : V) :
  getitem d k = Ok v <-> d !! k = Some v.
Proof.
  unfold getitem. destruct (d !! k); split; intros Heq;
    try discriminate; congruence.
Qed.

Lemma getindex_Ok {V : Type} (l : list V) (i : nat) (v : V) :
  getindex l i = Ok v <-> l !! i = Some v.
Proof.
  unfold getindex. destruct (l !! i); split; intros Heq;
    try discriminate; congruence.
Qed.

(** ** The output buffer *)

Lemma setitem2_Ok {V : Type} (arr arr' : list (list V)) (i j : nat) (v : V) :
  setitem2 arr i j v = Ok arr' ->
  exists row, arr !! i = Some row /\ (j < length row)%nat /\
              arr' = <[i := <[j := v]> row]> arr.
Proof.
  unfold setitem2. intros Hset. bind_inv Hset. apply getindex_Ok in Ha.
  destruct (decide (j < length a)%nat); [|discriminate].
  injection Hset as <-. eauto.
Qed.

Lemma setitem2_get_eq {V : Type} (arr arr' : list (list V)) (i j : nat) (v : V) :
  setitem2 arr i j v = Ok arr' -> getitem2 arr' i j = Ok v.
Proof.
  intros (row & Hrow & Hj & ->)%setitem2_Ok. unfold getitem2, getindex.
  rewrite list_lookup_insert_eq by (eapply lookup_lt_Some; eauto). simpl.
  rewrite list_lookup_insert_eq by assumption. reflexivity.
Qed.

Lemma setitem2_get_ne {V : Type} (arr arr' : list (list V)) (i j i' j' : nat) (v : V) :
  setitem2 arr i j v = Ok arr' -> i <> i' \/ j <> j' ->
  getitem2 arr' i' j' = getitem2 arr i' j'.
Proof.
  intros (row & Hrow & Hj & ->)%setitem2_Ok Hne. unfold getitem2, getindex.
  destruct (decide (i = i')) as [<-|Hi].
  - rewrite list_lookup_insert_eq by (eapply lookup_lt_Some; eauto).
    rewrite Hrow. simpl. rewrite list_lookup_insert_ne by tauto. reflexivity.
  - rewrite list_lookup_insert_ne by assumption. reflexivity.
Qed.

Lemma setitem2_length {V : Type} (arr arr' : list (list V)) (i j : nat) (v : V) :
  setitem2 arr i j v = Ok arr' -> length arr' = length arr.
Proof. intros (row & Hrow & Hj & ->)%setitem2_Ok. apply length_insert. Qed.

(** ** Temperatures *)


(** ** White noise *)

(** The first two samplers of the module are in the same state: they were
    built from one seed and have served the same number of draws. *)
Lemma reachable_samplers_agree `{Variates} `{WGI.Climatology} (s : WGOW.state) :
  WGOW.reachable s ->
  WGOW.EPS_NORM_SAMP s !! 0%nat = WGOW.EPS_NORM_SAMP s !! 1%nat.
Proof.
  induction 1 as [|s s' _ IH Hc|s seed _ IH|s s' _ IH Hu|s _ IH|s _ IH];
    try exact IH.
  - reflexivity.
  - unfold WGOW.constructArrays in Hc.
    repeat (bind_inv Hc). injection Hc as <-. exact IH.
  - unfold WGOW.setupDistsSamples. simpl.
    destruct (WGOW.EPS_NORM_SAMP s) as [|r0 [|r1 l]]; simpl in *;
      [reflexivity | discriminate | exact IH].
  - unfold WGOW.updateTracker in Hu.
    bind_inv Hu. bind_inv Hu. apply getindex_Ok in Ha0. simpl in Hu.
    bind_inv Hu. bind_inv Hu. apply getindex_Ok in Ha2. injection Hu as <-.
    simpl. destruct (WGOW.EPS_NORM_SAMP s) as [|r0 [|r1 l]]; simpl in *;
      try discriminate.
    congruence.
  - unfold WGOW.calcCHI0. destruct (try_or _ _) as [c0 c1]. exact IH.
Qed.

(** ** Loops *)

Lemma for_each_app {A S : Type} (xs ys : list A) (body : A -> S -> result S) (s : S) :
  for_each (xs ++ ys) body s = for_each xs body s ≫= for_each ys body.
Proof.
  revert s. induction xs as [|x xs IH]; intros s; simpl; [reflexivity|].
  destruct (body x s) as [s1|e]; simpl; [apply IH | reflexivity].
Qed.

Lemma for_each_invariant {A S : Type} (P : S -> Prop) (xs : list A)
    (body : A -> S -> result S) (s s' : S) :
  (forall x a b, x ∈ xs -> P a -> body x a = Ok b -> P b) ->
  P s -> for_each xs body s = Ok s' -> P s'.
Proof.
  revert s. induction xs as [|x xs IH]; intros s Hbody Hs Hrun; simpl in Hrun.
  - injection Hrun as <-. exact Hs.
  - bind_inv Hrun. apply (IH a); [|eapply Hbody; eauto; left|exact Hrun].
    intros y u v Hy. apply Hbody. right. exact Hy.
Qed.

(** ** The input tables *)

Lemma DRY_SPELL_PARAMS_loc (k : Z) (n p loc : Q) :
  WGI.DRY_SPELL_PARAMS !! k = Some (n, p, loc) -> (1 <= loc)%Q.
Proof.
  intros Hk. apply elem_of_list_to_map_2 in Hk.
  repeat (apply elem_of_cons in Hk as [Hk|Hk]; [injection Hk as _ _ _ ->; Qorder|]).
  inversion Hk.
Qed.

Lemma WET_SPELL_PARAMS_loc (k : Z) (n p loc : Q) :
  WGI.WET_SPELL_PARAMS !! k = Some (n, p, loc) -> (1 <= loc)%Q.
Proof.
  intros Hk. apply elem_of_list_to_map_2 in Hk.
  repeat (apply elem_of_cons in Hk as [Hk|Hk]; [injection Hk as _ _ _ ->; Qorder|]).
  inversion Hk.
Qed.

Lemma PRE_DEPTH_PARAMS_scale (k : Z) (a c loc scale : Q) :
  WGI.PRE_DEPTH_PARAMS !! k = Some (a, c, loc, scale) -> (0 < scale)%Q.
Proof.
  intros Hk. apply elem_of_list_to_map_2 in Hk.
  repeat (apply elem_of_cons in Hk as [Hk|Hk]; [injection Hk as _ _ _ _ ->; Qorder|]).
  inversion Hk.
Qed.

(** ** Single draws *)

Lemma Qtrunc_ge_1 (x : Q) : (1 <= x)%Q -> (1 <= WGSL.Qtrunc x)%Z.
Proof.
  intros Hx. unfold WGSL.Qtrunc.
  assert (E : Qltb x 0 = false) by (apply Qltb_ge; Qorder).
  rewrite E. change 1%Z with (Qfloor 1). apply Qfloor_resp_le. exact Hx.
Qed.

(** A spell length drawn from a distribution located at one or more is at
    least one day, and the draw takes one variate from the stream. *)
Lemma NegBinomial_ranval1_spec `{Variates}
    (d : WGSL.NegBinomial) (rstate rstate' : RandomState) (v : Z) :
  WGSL.ranval1 d rstate = Ok (v, rstate') ->
  rstate' = advance rstate /\ ((1 <= WGSL.nbinom_loc d)%Q -> (1 <= v)%Z).
Proof.
  unfold WGSL.ranval1, WGSL.nbinom_rvs. intros Hrun.
  destruct (_ && _); [|discriminate]. injection Hrun as <- <-.
  split; [reflexivity|]. intros Hloc. apply Qtrunc_ge_1.
  rewrite <- (Qplus_0_l 1). apply Qplus_le_compat; [|exact Hloc].
  change 0%Q with (inject_Z 0). rewrite <- Zle_Qle. lia.
Qed.

(** A depth returned by [Gamma2PCont.ranval1] is never below the
    threshold it was given, and a distribution with a positive scale
    takes one variate from the stream. *)
Lemma Gamma2PCont_ranval1_spec `{Variates}
    (d : WGPD.Gamma2PCont) (rstate rstate' : RandomState) (mon : Z)
    (maxes : gmap Z Q) (thresh v : Q) :
  WGPD.ranval1 d rstate mon maxes thresh = Ok (v, rstate') ->
  (thresh <= v)%Q /\ is_Some (maxes !! mon) /\
  ((0 < WGPD.gamma_scale d)%Q -> rstate' = advance rstate).
Proof.
  unfold WGPD.ranval1. intros Hrun.
  bind_inv Hrun. destruct a as [x rs1]. bind_inv Hrun. apply getitem_Ok in Ha0.
  injection Hrun as <- <-. repeat apply conj.
  - destruct (Qltb _ thresh) eqn:E; [apply Qle_refl|]. apply Qltb_ge in E. exact E.
  - eauto.
  - intros Hscale. unfold WGPD.gengamma_rvs in Ha.
    destruct (_ && _); [|discriminate].
    assert (E : Qeqb (WGPD.gamma_scale d) 0 = false).
    { destruct (Qeqb (WGPD.gamma_scale d) 0) eqn:E; [|reflexivity].
      apply Qeqb_eq in E. rewrite E in Hscale. exfalso. exact (Qlt_irrefl _ Hscale). }
    rewrite E in Ha. injection Ha as _ <-. reflexivity.
Qed.

(** A loop over distinct keys whose body acts on the entry of its own key
    only: afterwards every key of the list has seen the effect [E] of one
    iteration, and every other key is unchanged ([U]). *)
Section Pointwise.
Context {K S : Type} (body : K -> S -> result S) (E U : K -> S -> S -> Prop).
Hypothesis U_refl : forall j s, U j s s.
Hypothesis U_trans : forall j a b c, U j a b -> U j b c -> U j a c.
Hypothesis UE : forall j a b c, U j a b -> E j b c -> E j a c.
Hypothesis EU : forall j a b c, E j a b -> U j b c -> E j a c.
Hypothesis body_at : forall x a b, body x a = Ok b -> E x a b.
Hypothesis body_off : forall x j a b, body x a = Ok b -> j <> x -> U j a b.

Lemma for_each_pointwise (xs : list K) (s s' : S) :
  NoDup xs -> for_each xs body s = Ok s' ->
  (forall j, j ∈ xs -> E j s s') /\ (forall j, j ∉ xs -> U j s s').
Proof using All.
  intros Hnd. revert s. induction Hnd as [|x xs Hx Hnd IH]; intros s Hrun.
  - injection Hrun as <-. split; [intros j Hj; inversion Hj | auto].
  - simpl in Hrun. bind_inv Hrun. destruct (IH a Hrun) as [IHin IHout].
    split; intros j Hj.
    + apply elem_of_cons in Hj as [->|Hj].
      * eapply EU; [eapply body_at; eauto | apply IHout; exact Hx].
      * eapply UE; [eapply body_off; eauto | apply IHin; exact Hj].
        intros ->. contradiction.
    + apply not_elem_of_cons in Hj as [Hjx Hj].
      eapply U_trans; [eapply body_off; eauto | apply IHout; exact Hj].
Qed.
End Pointwise.

(** ** The sampler bank *)

Lemma sample_spells_Ok `{Variates} (jJ : Z) (s s' : WGDS.state) :
  WGDS.sample_spells jJ s = Ok s' ->
  exists ddist dSamp dval wdist wSamp wval,
    WGDS.DDRY_SPELL_DISTS s !! jJ = Some ddist /\
    WGDS.DDRY_SPELL_SAMP s !! jJ = Some dSamp /\
    WGSL.ranval1 ddist dSamp = Ok (dval, advance dSamp) /\
    WGDS.DWET_SPELL_DISTS s !! jJ = Some wdist /\
    WGDS.DWET_SPELL_SAMP s !! jJ = Some wSamp /\
    WGSL.ranval1 wdist wSamp = Ok (wval, advance wSamp) /\
    s' = WGDS.set_wet
           (WGDS.set_dry s (<[jJ := advance dSamp]> (WGDS.DDRY_SPELL_SAMP s))
                           (<[jJ := dval]> (WGDS.ST_DRYSPELL s)))
           (<[jJ := advance wSamp]> (WGDS.DWET_SPELL_SAMP s))
           (<[jJ := wval]> (WGDS.ST_WETSPELL s)).
Proof.
  unfold WGDS.sample_spells. intros Hrun.
  bind_inv Hrun. rename a into dSamp. apply getitem_Ok in Ha.
  bind_inv Hrun. rename a into wSamp. apply getitem_Ok in Ha0.
  bind_inv Hrun. rename a into ddist. apply getitem_Ok in Ha1.
  bind_inv Hrun. destruct a as [dval dSamp']. simpl in Hrun.
  bind_inv Hrun. rename a into wdist. apply getitem_Ok in Ha3.
  bind_inv Hrun. destruct a as [wval wSamp']. injection Hrun as <-.
  destruct (NegBinomial_ranval1_spec _ _ _ _ Ha2) as [-> _].
  destruct (NegBinomial_ranval1_spec _ _ _ _ Ha4) as [-> _].
  exists ddist, dSamp, dval, wdist, wSamp, wval. repeat apply conj; auto.
Qed.

Lemma sample_depth_Ok `{Variates} (mon kK : Z) (s s' : WGDS.state) :
  WGDS.sample_depth mon kK s = Ok s' ->
  exists pdist pdSamp pval pdSamp',
    WGDS.DP_DEPTH_DISTS s !! kK = Some pdist /\
    WGDS.DP_DEPTH_SAMP s !! kK = Some pdSamp /\
    WGPD.ranval1 pdist pdSamp mon WGI.MON_MAX_PP WGPD.WD_THRESH
      = Ok (pval, pdSamp') /\
    s' = WGDS.set_depth s (<[kK := pdSamp']> (WGDS.DP_DEPTH_SAMP s))
                          (<[kK := pval]> (WGDS.ST_PDEPTH s)).
Proof.
  unfold WGDS.sample_depth. intros Hrun.
  bind_inv Hrun. rename a into pdSamp. apply getitem_Ok in Ha.
  bind_inv Hrun. rename a into pdist. apply getitem_Ok in Ha0.
  bind_inv Hrun. destruct a as [pval pdSamp']. injection Hrun as <-.
  exists pdist, pdSamp, pval, pdSamp'. repeat apply conj; auto.
Qed.

Lemma spells_loop_spec `{Variates} (xs : list Z) (s s' : WGDS.state) :
  NoDup xs -> for_each xs WGDS.sample_spells s = Ok s' ->
  (forall j, j ∈ xs -> WGDS.spells_only s s' /\ WGDS.one_spell_draw j s s') /\
  (forall j, j ∉ xs -> WGDS.spells_only s s' /\
                        WGDS.spell_entry s' j = WGDS.spell_entry s j).
Proof.
  apply (for_each_pointwise WGDS.sample_spells
           (fun j a b => WGDS.spells_only a b /\ WGDS.one_spell_draw j a b)
           (fun j a b => WGDS.spells_only a b /\
                         WGDS.spell_entry b j = WGDS.spell_entry a j)).
  - intros j a. unfold WGDS.spells_only. auto 10.
  - intros j a b c [(?&?&?&?&?) Hab] [(?&?&?&?&?) Hbc].
    unfold WGDS.spells_only. repeat apply conj; congruence.
  - intros j a b c [(Hd&Hw&?&?&?) Hab] [(?&?&?&?&?) Hbc].
    split; [unfold WGDS.spells_only; repeat apply conj; congruence|].
    destruct Hbc as (dd & drs & dv & wd & wrs & wv & G1 & G2 & G3 & G4 & G5 & G6 & G7).
    unfold WGDS.spell_entry in Hab. injection Hab as E1 E2 E3 E4.
    exists dd, drs, dv, wd, wrs, wv. repeat apply conj; congruence.
  - intros j a b c [(?&?&?&?&?) Hab] [(?&?&?&?&?) Hbc].
    split; [unfold WGDS.spells_only; repeat apply conj; congruence|].
    destruct Hab as (dd & drs & dv & wd & wrs & wv & G1 & G2 & G3 & G4 & G5 & G6 & G7).
    exists dd, drs, dv, wd, wrs, wv. repeat apply conj; congruence.
  - intros x a b (dd & drs & dv & wd & wrs & wv & G1 & G2 & G3 & G4 & G5 & G6 & ->)%sample_spells_Ok.
    split; [unfold WGDS.spells_only; simpl; auto 10|].
    exists dd, drs, dv, wd, wrs, wv. repeat apply conj; auto.
    unfold WGDS.spell_entry. simpl. rewrite !lookup_insert_eq. reflexivity.
  - intros x j a b (dd & drs & dv & wd & wrs & wv & G1 & G2 & G3 & G4 & G5 & G6 & ->)%sample_spells_Ok Hne.
    split; [unfold WGDS.spells_only; simpl; auto 10|].
    unfold WGDS.spell_entry. simpl. rewrite !lookup_insert_ne by congruence.
    reflexivity.
Qed.

Lemma depths_loop_spec `{Variates} (mon : Z) (xs : list Z) (s s' : WGDS.state) :
  NoDup xs -> for_each xs (WGDS.sample_depth mon) s = Ok s' ->
  (forall j, j ∈ xs -> WGDS.depths_only s s' /\ WGDS.one_depth_draw mon j s s') /\
  (forall j, j ∉ xs -> WGDS.depths_only s s' /\
                        WGDS.depth_entry s' j = WGDS.depth_entry s j).
Proof.
  apply (for_each_pointwise (WGDS.sample_depth mon)
           (fun j a b => WGDS.depths_only a b /\ WGDS.one_depth_draw mon j a b)
           (fun j a b => WGDS.depths_only a b /\
                         WGDS.depth_entry b j = WGDS.depth_entry a j)).
  - intros j a. unfold WGDS.depths_only. auto 10.
  - intros j a b c [(?&?&?&?&?&?&?) Hab] [(?&?&?&?&?&?&?) Hbc].
    unfold WGDS.depths_only. repeat apply conj; congruence.
  - intros j a b c [(?&?&?&?&?&?&?) Hab] [(?&?&?&?&?&?&?) Hbc].
    split; [unfold WGDS.depths_only; repeat apply conj; congruence|].
    destruct Hbc as (pd & prs & pv & prs' & G1 & G2 & G3 & G4).
    unfold WGDS.depth_entry in Hab. injection Hab as E1 E2.
    exists pd, prs, pv, prs'. repeat apply conj; congruence.
  - intros j a b c [(?&?&?&?&?&?&?) Hab] [(?&?&?&?&?&?&?) Hbc].
    split; [unfold WGDS.depths_only; repeat apply conj; congruence|].
    destruct Hab as (pd & prs & pv & prs' & G1 & G2 & G3 & G4).
    exists pd, prs, pv, prs'. repeat apply conj; congruence.
  - intros x a b (pd & prs & pv & prs' & G1 & G2 & G3 & ->)%sample_depth_Ok.
    split; [unfold WGDS.depths_only; simpl; auto 10|].
    exists pd, prs, pv, prs'. repeat apply conj; auto.
    unfold WGDS.depth_entry. simpl. rewrite !lookup_insert_eq. reflexivity.
  - intros x j a b (pd & prs & pv & prs' & G1 & G2 & G3 & ->)%sample_depth_Ok Hne.
    split; [unfold WGDS.depths_only; simpl; auto 10|].
    unfold WGDS.depth_entry. simpl. rewrite !lookup_insert_ne by congruence.
    reflexivity.
Qed.

Lemma MonthInts_NoDup : NoDup WGDS.MonthInts.
Proof. apply NoDup_seqZ. Qed.

Lemma MonthInts_elem (j : Z) : j ∈ WGDS.MonthInts <-> (1 <= j <= 12)%Z.
Proof. unfold WGDS.MonthInts. rewrite elem_of_seqZ. lia. Qed.

(** What [sampleAll] does to the bank: the distributions stay, and for
    every calendar month one dry spell, one wet spell and one depth are
    drawn. *)
Lemma sampleAll_spec `{Variates} (mon : Z) (s s' : WGDS.state) :
  WGDS.sampleAll mon s = Ok s' ->
  WGDS.DDRY_SPELL_DISTS s' = WGDS.DDRY_SPELL_DISTS s /\
  WGDS.DWET_SPELL_DISTS s' = WGDS.DWET_SPELL_DISTS s /\
  WGDS.DP_DEPTH_DISTS s' = WGDS.DP_DEPTH_DISTS s /\
  forall j, j ∈ WGDS.MonthInts ->
    WGDS.one_spell_draw j s s' /\ WGDS.one_depth_draw mon j s s'.
Proof.
  unfold WGDS.sampleAll. intros Hrun. bind_inv Hrun. rename a into s1.
  destruct (spells_loop_spec _ _ _ MonthInts_NoDup Ha) as [Hsp _].
  destruct (depths_loop_spec _ _ _ _ MonthInts_NoDup Hrun) as [Hdp _].
  assert (H1 : (1:Z) ∈ WGDS.MonthInts) by (apply MonthInts_elem; lia).
  destruct (Hsp 1%Z H1) as [(Ea & Eb & Ec & Ed & Ee) _].
  destruct (Hdp 1%Z H1) as [(Fa & Fb & Fc & Fd & Fe & Ff & Fg) _].
  repeat apply conj; try congruence.
  intros j Hj. destruct (Hsp j Hj) as [_ Hs]. destruct (Hdp j Hj) as [_ Hd].
  split.
  - destruct Hs as (dd & drs & dv & wd & wrs & wv & G1 & G2 & G3 & G4 & G5 & G6 & G7).
    exists dd, drs, dv, wd, wrs, wv. repeat apply conj; auto.
    unfold WGDS.spell_entry in *. congruence.
  - destruct Hd as (pd & prs & pv & prs' & G1 & G2 & G3 & G4).
    exists pd, prs, pv, prs'. repeat apply conj; auto; congruence.
Qed.

Lemma NegBinomial_init_loc (N P : pyval) (location : Q) (nm : string)
    (d : WGSL.NegBinomial) :
  WGSL.NegBinomial_init N P location nm = Ok d -> WGSL.nbinom_loc d = location.
Proof.
  unfold WGSL.NegBinomial_init. intros Hd.
  destruct N; try discriminate. destruct P; try discriminate.
  destruct (_ || _); [discriminate|]. destruct (_ || _); [discriminate|].
  injection Hd as <-. reflexivity.
Qed.

Lemma Gamma2PCont_init_scale (a c : pyval) (loc scale : Q) (nm : string)
    (d : WGPD.Gamma2PCont) :
  WGPD.Gamma2PCont_init a c loc scale nm = Ok d -> WGPD.gamma_scale d = scale.
Proof.
  unfold WGPD.Gamma2PCont_init. intros Hd.
  destruct a; try discriminate. destruct c; try discriminate.
  destruct (Qleb _ _); [discriminate|]. destruct (Qeqb _ _); [discriminate|].
  injection Hd as <-. reflexivity.
Qed.

(** [setDistributions] configures the bank from the input tables. *)
Lemma setDistributions_configured `{Variates}
    (pdSampSeed wetSSampSeed drySSampSeed : Z) (s s' : WGDS.state) :
  WGDS.setDistributions pdSampSeed wetSSampSeed drySSampSeed s = Ok s' ->
  WGDS.configured s'.
Proof.
  unfold WGDS.setDistributions. intros Hrun.
  bind_inv Hrun. destruct a as [[[dd wd] ds] ws].
  bind_inv Hrun. destruct a as [pd ps]. injection Hrun as <-.
  assert (Hspell :
    (forall k d, dd !! k = Some d -> (1 <= WGSL.nbinom_loc d)%Q) /\
    (forall k d, wd !! k = Some d -> (1 <= WGSL.nbinom_loc d)%Q)).
  { clear Ha0.
    refine (for_each_invariant
           (fun acc : gmap Z WGSL.NegBinomial * gmap Z WGSL.NegBinomial
                      * gmap Z RandomState * gmap Z RandomState =>
              (forall k d, acc.1.1.1 !! k = Some d -> (1 <= WGSL.nbinom_loc d)%Q) /\
              (forall k d, acc.1.1.2 !! k = Some d -> (1 <= WGSL.nbinom_loc d)%Q))
           _ _ _ (dd, wd, ds, ws) _ _ Ha); clear Ha.
    - intros jJ [[[dd0 wd0] ds0] ws0] [[[dd1 wd1] ds1] ws1] _ [Hdry Hwet] Hbody.
      cbn [fst snd] in *.
      bind_inv Hbody. destruct a as [[dN dP] dLoc]. apply getitem_Ok in Ha.
      bind_inv Hbody. rename a into drydist.
      bind_inv Hbody. destruct a as [[wN wP] wLoc]. apply getitem_Ok in Ha1.
      bind_inv Hbody. rename a into wetdist.
      injection Hbody as <- <- <- <-. split; intros k d; rewrite lookup_insert;
        (case_decide; [intros [= <-] | eauto]).
      + rewrite (NegBinomial_init_loc _ _ _ _ _ Ha0).
        eapply DRY_SPELL_PARAMS_loc; eauto.
      + rewrite (NegBinomial_init_loc _ _ _ _ _ Ha2).
        eapply WET_SPELL_PARAMS_loc; eauto.
    - split; intros k d; cbn [fst snd]; rewrite lookup_empty; discriminate. }
  assert (Hdepth : forall k d, pd !! k = Some d -> (0 < WGPD.gamma_scale d)%Q).
  { clear Ha.
    refine (for_each_invariant
             (fun acc : gmap Z WGPD.Gamma2PCont * gmap Z RandomState =>
                forall k d, acc.1 !! k = Some d -> (0 < WGPD.gamma_scale d)%Q)
             _ _ _ (pd, ps) _ _ Ha0); clear Ha0.
    - intros jJ [pd0 ps0] [pd1 ps1] _ Hacc Hbody. cbn [fst snd] in *.
      bind_inv Hbody. destruct a as [[[a c] loc] scale]. apply getitem_Ok in Ha.
      bind_inv Hbody. injection Hbody as <- <-.
      intros k d. rewrite lookup_insert. case_decide.
      + intros [= <-]. rewrite (Gamma2PCont_init_scale _ _ _ _ _ _ Ha0).
        eapply PRE_DEPTH_PARAMS_scale; eauto.
      + apply Hacc.
    - intros k d. cbn [fst snd]. rewrite lookup_empty. discriminate. }
  destruct Hspell as [Hdry Hwet]. constructor; assumption.
Qed.

Lemma sample_spells_tracked `{Variates} (jJ : Z) (a b : WGDS.state) :
  WGDS.sample_spells jJ a = Ok b ->
  WGDS.configured a -> WGDS.tracked_in_range a ->
  WGDS.configured b /\ WGDS.tracked_in_range b.
Proof.
  intros (dd & drs & dv & wd & wrs & wv & G1 & G2 & G3 & G4 & G5 & G6 & ->)%sample_spells_Ok
         [C1 C2 C3] [T1 T2 T3].
  split; constructor; simpl; auto; intros k v; rewrite lookup_insert;
    (case_decide; [intros [= <-] | eauto]).
  - eapply NegBinomial_ranval1_spec; eauto.
  - eapply NegBinomial_ranval1_spec; eauto.
Qed.

Lemma sample_depth_tracked `{Variates} (mon kK : Z) (a b : WGDS.state) :
  WGDS.sample_depth mon kK a = Ok b ->
  WGDS.configured a -> WGDS.tracked_in_range a ->
  WGDS.configured b /\ WGDS.tracked_in_range b.
Proof.
  intros (pd & prs & pv & prs' & G1 & G2 & G3 & ->)%sample_depth_Ok
         [C1 C2 C3] [T1 T2 T3].
  split; constructor; simpl; auto; intros k v; rewrite lookup_insert;
    (case_decide; [intros [= <-] | eauto]).
  eapply Gamma2PCont_ranval1_spec; eauto.
Qed.

Lemma sampleAll_tracked `{Variates} (mon : Z) (s s' : WGDS.state) :
  WGDS.sampleAll mon s = Ok s' ->
  WGDS.configured s -> WGDS.tracked_in_range s ->
  WGDS.configured s' /\ WGDS.tracked_in_range s'.
Proof.
  unfold WGDS.sampleAll. intros Hrun Hc Ht. bind_inv Hrun.
  apply (for_each_invariant
           (fun x => WGDS.configured x /\ WGDS.tracked_in_range x)) in Ha;
    [|intros x u v _ [? ?] ?; eapply sample_spells_tracked; eauto|auto].
  apply (for_each_invariant
           (fun x => WGDS.configured x /\ WGDS.tracked_in_range x)) in Hrun;
    [exact Hrun|intros x u v _ [? ?] ?; eapply sample_depth_tracked; eauto|auto].
Qed.

Lemma setTrackers_tracked `{Variates} (mon : Z) (s s' : WGDS.state) :
  WGDS.setTrackers mon s = Ok s' ->
  WGDS.configured s ->
  WGDS.configured s' /\ WGDS.tracked_in_range s'.
Proof.
  unfold WGDS.setTrackers. intros Hrun [C1 C2 C3]. bind_inv Hrun.
  apply (for_each_invariant
           (fun x => WGDS.configured x /\
                     (forall k v, WGDS.ST_DRYSPELL x !! k = Some v -> (1 <= v)%Z) /\
                     (forall k v, WGDS.ST_WETSPELL x !! k = Some v -> (1 <= v)%Z)))
    in Ha.
  - destruct Ha as ([D1 D2 D3] & T1 & T2).
    apply (for_each_invariant
             (fun x => WGDS.configured x /\ WGDS.tracked_in_range x)) in Hrun;
      [exact Hrun|intros x u v _ [? ?] ?; eapply sample_depth_tracked; eauto|].
    split; constructor; simpl; auto.
    intros k v. rewrite lookup_empty. discriminate.
  - intros jJ u v _ ([D1 D2 D3] & T1 & T2)
           (dd & drs & dv & wd & wrs & wv & G1 & G2 & G3 & G4 & G5 & G6 & ->)%sample_spells_Ok.
    split; [constructor; simpl; auto|].
    split; simpl; intros k v; rewrite lookup_insert;
      (case_decide; [intros [= <-] | eauto]);
      eapply NegBinomial_ranval1_spec; eauto.
  - split; [constructor; simpl; auto|].
    split; simpl; intros k v; rewrite lookup_empty; discriminate.
Qed.

(** ** Every day of a realization returns *)

(** *** Calendar dates *)

Lemma days_in_month_bounds (y m : Z) : (28 <= days_in_month y m <= 31)%Z.
Proof.
  unfold days_in_month. destruct (m =? 2)%Z; [destruct (is_leap y); lia|].
  destruct (_ || _); lia.
Qed.

Lemma next_day_valid (d : datetime) : valid_date d -> valid_date (next_day d).
Proof.
  intros [Hm Hd]. unfold next_day, valid_date.
  destruct (Z.ltb_spec (day d) (days_in_month (year d) (month d))); simpl.
  - lia.
  - destruct (Z.ltb_spec (month d) 12); simpl.
    + pose proof (days_in_month_bounds (year d) (month d + 1)). lia.
    + pose proof (days_in_month_bounds (year d + 1) 1). lia.
Qed.

Lemma tm_yday_bounds (d : datetime) : valid_date d -> (1 <= tm_yday d <= 366)%Z.
Proof.
  intros [Hm Hd]. unfold tm_yday.
  assert (Hcases : month d ∈ [1; 2; 3; 4; 5; 6; 7; 8; 9; 10; 11; 12]%Z).
  { rewrite !elem_of_cons. lia. }
  revert Hd. generalize (day d), (year d). intros dd y.
  repeat (apply elem_of_cons in Hcases as [->|Hcases];
          [unfold days_before_month, days_in_month; simpl;
           destruct (is_leap y); lia|]).
  inversion Hcases.
Qed.

Lemma date_range_length (start : datetime) (n : nat) :
  length (date_range start n) = n.
Proof. revert start. induction n as [|n IH]; intros start; simpl; auto. Qed.

Lemma date_range_valid (start : datetime) (n i : nat) (d : datetime) :
  valid_date start -> date_range start n !! i = Some d -> valid_date d.
Proof.
  revert start i. induction n as [|n IH]; intros start i Hv Hd; simpl in Hd.
  - discriminate.
  - destruct i as [|i]; simpl in Hd.
    + injection Hd as <-. exact Hv.
    + eapply IH; [apply next_day_valid; exact Hv | exact Hd].
Qed.

(** *** The sampler bank *)

(** Reduces the steps of the error monad, and nothing else. *)
Ltac monad_red := cbn [mbind result_bind fmap result_fmap].

Lemma for_each_returns {A S : Type} (P : S -> Prop) (xs : list A)
    (body : A -> S -> result S) (s : S) :
  (forall x a, x ∈ xs -> P a -> exists b, body x a = Ok b /\ P b) ->
  P s -> exists s', for_each xs body s = Ok s' /\ P s'.
Proof.
  revert s. induction xs as [|x xs IH]; intros s Hbody Hs; simpl.
  - eauto.
  - destruct (Hbody x s) as (s1 & Hs1 & HP1); [left|exact Hs|].
    rewrite Hs1. simpl. apply IH; [|exact HP1].
    intros y a Hy. apply Hbody. right. exact Hy.
Qed.

Lemma comprehension_returns {A B : Type} (f : A -> result B) (xs : list A) :
  (forall x, x ∈ xs -> returns (f x)) ->
  exists ys, comprehension f xs = Ok ys /\ length ys = length xs.
Proof.
  induction xs as [|x xs IH]; intros Hf; simpl.
  - eauto.
  - destruct (Hf x) as [y Hy]; [left|]. rewrite Hy. simpl.
    destruct IH as (ys & Hys & Hlen); [intros z Hz; apply Hf; right; exact Hz|].
    rewrite Hys. simpl. exists (y :: ys). simpl. auto.
Qed.

Lemma nbinom_rvs_in_domain `{Variates} (d : WGSL.NegBinomial) (rstate : RandomState) :
  WGSL.in_domain d -> returns (WGSL.ranval1 d rstate).
Proof.
  intros (HN & HP & HP1). unfold WGSL.ranval1, WGSL.nbinom_rvs.
  apply Qltb_lt in HN, HP. apply Qleb_le in HP1. rewrite HN, HP, HP1. simpl.
  eexists; reflexivity.
Qed.

Lemma gengamma_in_domain `{Variates} (d : WGPD.Gamma2PCont) (rstate : RandomState)
    (mon : Z) :
  WGPD.in_domain d -> (1 <= mon <= 12)%Z ->
  returns (WGPD.ranval1 d rstate mon WGI.MON_MAX_PP WGPD.WD_THRESH).
Proof.
  intros (Ha & Hc & Hs) Hmon. apply Gamma2PCont_ranval1_returns; assumption.
Qed.

Lemma sample_spells_returns `{Variates} (jJ : Z) (s : WGDS.state) :
  (1 <= jJ <= 12)%Z -> WGDS.ready s ->
  exists s', WGDS.sample_spells jJ s = Ok s' /\ WGDS.ready s'.
Proof.
  intros HjJ [Rd Rw Rp].
  destruct (Rd jJ HjJ) as (dd & drs & D1 & D2 & D3).
  destruct (Rw jJ HjJ) as (wd & wrs & W1 & W2 & W3).
  destruct (nbinom_rvs_in_domain dd drs D2) as [[dv drs'] Hd].
  destruct (nbinom_rvs_in_domain wd wrs W2) as [[wv wrs'] Hw].
  unfold WGDS.sample_spells, getitem. rewrite D3, W3, D1. simpl. rewrite Hd. simpl.
  rewrite W1. simpl. rewrite Hw. simpl. eexists. split; [reflexivity|].
  constructor; simpl; intros m Hm.
  - destruct (Rd m Hm) as (d & rs & E1 & E2 & E3).
    exists d. destruct (decide (jJ = m)) as [->|Hne].
    + exists drs'. rewrite lookup_insert_eq. auto.
    + exists rs. rewrite lookup_insert_ne by exact Hne. auto.
  - destruct (Rw m Hm) as (d & rs & E1 & E2 & E3).
    exists d. destruct (decide (jJ = m)) as [->|Hne].
    + exists wrs'. rewrite lookup_insert_eq. auto.
    + exists rs. rewrite lookup_insert_ne by exact Hne. auto.
  - apply Rp. exact Hm.
Qed.

Lemma sample_depth_returns `{Variates} (mon kK : Z) (s : WGDS.state) :
  (1 <= mon <= 12)%Z -> (1 <= kK <= 12)%Z -> WGDS.ready s ->
  exists s', WGDS.sample_depth mon kK s = Ok s' /\ WGDS.ready s'.
Proof.
  intros Hmon HkK [Rd Rw Rp].
  destruct (Rp kK HkK) as (pd & prs & P1 & P2 & P3).
  destruct (gengamma_in_domain pd prs mon P2 Hmon) as [[pv prs'] Hp].
  unfold WGDS.sample_depth, getitem. rewrite P3, P1. simpl. rewrite Hp. simpl.
  eexists. split; [reflexivity|].
  constructor; simpl; intros m Hm; [apply Rd; exact Hm|apply Rw; exact Hm|].
  destruct (Rp m Hm) as (d & rs & E1 & E2 & E3).
  exists d. destruct (decide (kK = m)) as [->|Hne].
  - exists prs'. rewrite lookup_insert_eq. auto.
  - exists rs. rewrite lookup_insert_ne by exact Hne. auto.
Qed.

Lemma sampleAll_returns `{Variates} (mon : Z) (s : WGDS.state) :
  (1 <= mon <= 12)%Z -> WGDS.ready s ->
  exists s', WGDS.sampleAll mon s = Ok s' /\ WGDS.ready s'.
Proof.
  intros Hmon Hs. unfold WGDS.sampleAll.
  destruct (for_each_returns WGDS.ready WGDS.MonthInts WGDS.sample_spells s)
    as (s1 & Hs1 & R1); [|exact Hs|].
  { intros x a Hx Ha. apply sample_spells_returns; [apply MonthInts_elem|]; assumption. }
  rewrite Hs1. monad_red.
  apply (for_each_returns WGDS.ready); [|exact R1].
  intros x a Hx Ha. apply sample_depth_returns; [|apply MonthInts_elem|]; assumption.
Qed.

Lemma ready_set_trackers (s : WGDS.state) (dry wet : gmap Z Z) (depth : gmap Z Q) :
  WGDS.ready s ->
  WGDS.ready (WGDS.set_depth
                (WGDS.set_wet (WGDS.set_dry s (WGDS.DDRY_SPELL_SAMP s) dry)
                              (WGDS.DWET_SPELL_SAMP s) wet)
                (WGDS.DP_DEPTH_SAMP s) depth).
Proof. intros [Rd Rw Rp]. constructor; simpl; assumption. Qed.

Lemma setTrackers_returns `{Variates} (mon : Z) (s : WGDS.state) :
  (1 <= mon <= 12)%Z -> WGDS.ready s ->
  exists s', WGDS.setTrackers mon s = Ok s' /\ WGDS.ready s'.
Proof.
  intros Hmon [Rd Rw Rp]. unfold WGDS.setTrackers.
  destruct (for_each_returns WGDS.ready WGDS.MonthInts WGDS.sample_spells
              (WGDS.set_wet (WGDS.set_dry s (WGDS.DDRY_SPELL_SAMP s) ∅)
                            (WGDS.DWET_SPELL_SAMP s) ∅))
    as (s1 & Hs1 & [Rd1 Rw1 Rp1]); [| |].
  { intros x a Hx Ha. apply sample_spells_returns; [apply MonthInts_elem|]; assumption. }
  { constructor; simpl; assumption. }
  rewrite Hs1. monad_red.
  apply (for_each_returns WGDS.ready).
  - intros x a Hx Ha. apply sample_depth_returns; [|apply MonthInts_elem|]; assumption.
  - constructor; simpl; assumption.
Qed.

Lemma month_cases (m : Z) :
  (1 <= m <= 12)%Z -> m ∈ [1; 2; 3; 4; 5; 6; 7; 8; 9; 10; 11; 12]%Z.
Proof. intros Hm. rewrite !elem_of_cons. lia. Qed.

(** A loop in which every iteration establishes [E] for its own element
    and keeps it for the others establishes it for the whole list. *)
Lemma for_each_establishes {A S : Type} (E : A -> S -> Prop) (xs : list A)
    (body : A -> S -> result S) (s s' : S) :
  (forall x a b, x ∈ xs -> body x a = Ok b -> E x b) ->
  (forall x y a b, x ∈ xs -> body x a = Ok b -> E y a -> E y b) ->
  for_each xs body s = Ok s' -> forall y, y ∈ xs -> E y s'.
Proof.
  revert s. induction xs as [|x xs IH]; intros s Hat Hkeep Hrun y Hy.
  - inversion Hy.
  - simpl in Hrun. bind_inv Hrun. apply elem_of_cons in Hy as [->|Hy].
    + eapply (for_each_invariant (E x)); [|eapply Hat; [left|exact Ha]|exact Hrun].
      intros z u v Hz Hu Hv. eapply (Hkeep z); eauto. right. exact Hz.
    + eapply IH; [| |exact Hrun|exact Hy].
      * intros z u v Hz. apply Hat. right. exact Hz.
      * intros z w u v Hz. apply Hkeep. right. exact Hz.
Qed.

(** The input tables hold parameters that pass the constructors' tests
    and lie in the domain SciPy samples from. *)
Lemma DRY_SPELL_PARAMS_valid (m : Z) :
  (1 <= m <= 12)%Z ->
  exists n p loc, WGI.DRY_SPELL_PARAMS !! m = Some (n, p, loc) /\
    (0 < n)%Q /\ (n <= 1000)%Q /\ (0 < p)%Q /\ (p <= 1)%Q.
Proof.
  intros Hm%month_cases.
  repeat (apply elem_of_cons in Hm as [->|Hm];
          [eexists _, _, _; split; [reflexivity|]; repeat apply conj; Qorder|]).
  inversion Hm.
Qed.

Lemma WET_SPELL_PARAMS_valid (m : Z) :
  (1 <= m <= 12)%Z ->
  exists n p loc, WGI.WET_SPELL_PARAMS !! m = Some (n, p, loc) /\
    (0 < n)%Q /\ (n <= 1000)%Q /\ (0 < p)%Q /\ (p <= 1)%Q.
Proof.
  intros Hm%month_cases.
  repeat (apply elem_of_cons in Hm as [->|Hm];
          [eexists _, _, _; split; [reflexivity|]; repeat apply conj; Qorder|]).
  inversion Hm.
Qed.

Lemma PRE_DEPTH_PARAMS_valid (m : Z) :
  (1 <= m <= 12)%Z ->
  exists a c loc scale, WGI.PRE_DEPTH_PARAMS !! m = Some (a, c, loc, scale) /\
    (0 < a)%Q /\ (0 < c)%Q /\ (0 <= scale)%Q.
Proof.
  intros Hm%month_cases.
  repeat (apply elem_of_cons in Hm as [->|Hm];
          [eexists _, _, _, _; split; [reflexivity|]; repeat apply conj; Qorder|]).
  inversion Hm.
Qed.

Lemma NegBinomial_init_Ok (n p loc : Q) (nm : string) :
  (0 < n)%Q -> (n <= 1000)%Q -> (0 < p)%Q -> (p <= 1)%Q ->
  WGSL.NegBinomial_init (PyFloat n) (PyFloat p) loc nm
    = Ok (WGSL.mkNegBinomial nm n p loc).
Proof.
  intros Hn0 Hn1 Hp0 Hp1. unfold WGSL.NegBinomial_init, Qgtb, Qgeb.
  assert (E1 : Qleb n 0.0 = false) by (apply Qleb_gt; Qorder).
  assert (E2 : Qltb 1000.0 n = false) by (apply Qltb_ge; Qorder).
  assert (E3 : Qleb p 0.0 = false) by (apply Qleb_gt; Qorder).
  assert (E4 : Qleb 10 p = false) by (apply Qleb_gt; Qorder).
  rewrite E1, E2, E3, E4. reflexivity.
Qed.

Lemma Gamma2PCont_init_Ok (a c loc scale : Q) (nm : string) :
  (0 < a)%Q -> (0 < c)%Q ->
  WGPD.Gamma2PCont_init (PyFloat a) (PyFloat c) loc scale nm
    = Ok (WGPD.mkGamma2PCont nm a c loc scale).
Proof.
  intros Ha Hc. unfold WGPD.Gamma2PCont_init.
  assert (E1 : Qleb a 0.0 = false) by (apply Qleb_gt; Qorder).
  assert (E2 : Qeqb c 0.0 = false).
  { destruct (Qeqb c 0.0) eqn:E; [|reflexivity]. apply Qeqb_eq in E. Qorder. }
  rewrite E1, E2. reflexivity.
Qed.

(** The input tables pass every test of the constructors, and what they
    configure can be sampled. *)
Lemma setDistributions_returns (pdSampSeed wetSSampSeed drySSampSeed : Z)
    (s : WGDS.state) :
  exists s', WGDS.setDistributions pdSampSeed wetSSampSeed drySSampSeed s = Ok s' /\
             WGDS.ready s'.
Proof.
  unfold WGDS.setDistributions.
  match goal with
  | |- context [for_each _ ?body (∅, ∅, ∅, ∅)] => set (spells := body)
  end.
  match goal with
  | |- context [for_each _ ?body (∅, ∅)] => set (depths := body)
  end.
  assert (Hspells : forall x acc, x ∈ WGDS.MonthInts ->
            exists acc', spells x acc = Ok acc' /\
              (exists d rs, acc'.1.1.1 !! x = Some d /\ WGSL.in_domain d /\
                            acc'.1.2 !! x = Some rs) /\
              (exists d rs, acc'.1.1.2 !! x = Some d /\ WGSL.in_domain d /\
                            acc'.2 !! x = Some rs) /\
              forall y, y <> x ->
                acc'.1.1.1 !! y = acc.1.1.1 !! y /\ acc'.1.2 !! y = acc.1.2 !! y /\
                acc'.1.1.2 !! y = acc.1.1.2 !! y /\ acc'.2 !! y = acc.2 !! y).
  { intros x [[[dd wd] ds] ws] Hx%MonthInts_elem. subst spells. cbn beta iota.
    destruct (DRY_SPELL_PARAMS_valid x Hx) as (dn & dp & dl & D0 & D1 & D2 & D3 & D4).
    destruct (WET_SPELL_PARAMS_valid x Hx) as (wn & wp & wl & W0 & W1 & W2 & W3 & W4).
    unfold getitem. rewrite D0. monad_red.
    rewrite (NegBinomial_init_Ok dn dp dl _ D1 D2 D3 D4). monad_red.
    rewrite W0. monad_red.
    rewrite (NegBinomial_init_Ok wn wp wl _ W1 W2 W3 W4). monad_red.
    eexists. split; [reflexivity|]. cbn [fst snd]. repeat apply conj.
    - eexists _, _. rewrite !lookup_insert_eq.
      repeat apply conj; try reflexivity; assumption.
    - eexists _, _. rewrite !lookup_insert_eq.
      repeat apply conj; try reflexivity; assumption.
    - intros y Hy. rewrite !lookup_insert_ne by congruence. auto. }
  assert (Hdepths : forall x acc, x ∈ WGDS.MonthInts ->
            exists acc', depths x acc = Ok acc' /\
              (exists d rs, acc'.1 !! x = Some d /\ WGPD.in_domain d /\
                            acc'.2 !! x = Some rs) /\
              forall y, y <> x ->
                acc'.1 !! y = acc.1 !! y /\ acc'.2 !! y = acc.2 !! y).
  { intros x [pd ps] Hx%MonthInts_elem. subst depths. cbn beta iota.
    destruct (PRE_DEPTH_PARAMS_valid x Hx) as (a & c & l & sc & P0 & P1 & P2 & P3).
    unfold getitem. rewrite P0. monad_red.
    rewrite (Gamma2PCont_init_Ok a c l sc _ P1 P2). monad_red.
    eexists. split; [reflexivity|]. cbn [fst snd]. split.
    - eexists _, _. rewrite !lookup_insert_eq.
      repeat apply conj; try reflexivity; simpl; try assumption.
      intros Hc. rewrite Hc in P2. exact (Qlt_irrefl _ P2).
    - intros y Hy. rewrite !lookup_insert_ne by congruence. auto. }
  destruct (for_each_returns (fun _ => True) WGDS.MonthInts spells (∅, ∅, ∅, ∅))
    as (acc1 & Hacc1 & _); [|exact I|].
  { intros x a Hx _. destruct (Hspells x a Hx) as (b & Hb & _). eauto. }
  destruct (for_each_returns (fun _ => True) WGDS.MonthInts depths (∅, ∅))
    as (acc2 & Hacc2 & _); [|exact I|].
  { intros x a Hx _. destruct (Hdepths x a Hx) as (b & Hb & _). eauto. }
  assert (Hall1 : forall y, y ∈ WGDS.MonthInts ->
            (exists d rs, acc1.1.1.1 !! y = Some d /\ WGSL.in_domain d /\
                          acc1.1.2 !! y = Some rs) /\
            (exists d rs, acc1.1.1.2 !! y = Some d /\ WGSL.in_domain d /\
                          acc1.2 !! y = Some rs)).
  { refine (for_each_establishes
      (fun x (acc : gmap Z WGSL.NegBinomial * gmap Z WGSL.NegBinomial
                    * gmap Z RandomState * gmap Z RandomState) =>
         (exists d rs, acc.1.1.1 !! x = Some d /\ WGSL.in_domain d /\
                       acc.1.2 !! x = Some rs) /\
         (exists d rs, acc.1.1.2 !! x = Some d /\ WGSL.in_domain d /\
                       acc.2 !! x = Some rs)) _ _ _ _ _ _ Hacc1).
    - intros x a b Hx Hb. destruct (Hspells x a Hx) as (b' & Hb' & Hd & Hw & _).
      rewrite Hb in Hb'. injection Hb' as <-. split; assumption.
    - intros x y a b Hx Hb Hy. destruct (Hspells x a Hx) as (b' & Hb' & Hd & Hw & Ho).
      rewrite Hb in Hb'. injection Hb' as <-.
      destruct (decide (y = x)) as [->|Hne]; [split; assumption|].
      destruct (Ho y Hne) as (-> & -> & -> & ->). exact Hy. }
  assert (Hall2 : forall y, y ∈ WGDS.MonthInts ->
            exists d rs, acc2.1 !! y = Some d /\ WGPD.in_domain d /\
                         acc2.2 !! y = Some rs).
  { refine (for_each_establishes
      (fun x (acc : gmap Z WGPD.Gamma2PCont * gmap Z RandomState) =>
         exists d rs, acc.1 !! x = Some d /\ WGPD.in_domain d /\
                      acc.2 !! x = Some rs) _ _ _ _ _ _ Hacc2).
    - intros x a b Hx Hb. destruct (Hdepths x a Hx) as (b' & Hb' & Hd & _).
      rewrite Hb in Hb'. injection Hb' as <-. assumption.
    - intros x y a b Hx Hb Hy. destruct (Hdepths x a Hx) as (b' & Hb' & Hd & Ho).
      rewrite Hb in Hb'. injection Hb' as <-.
      destruct (decide (y = x)) as [->|Hne]; [assumption|].
      destruct (Ho y Hne) as (-> & ->). exact Hy. }
  rewrite Hacc1. monad_red. destruct acc1 as [[[dd wd] ds] ws].
  rewrite Hacc2. monad_red. destruct acc2 as [pd ps].
  eexists. split; [reflexivity|]. cbn [fst snd] in Hall1, Hall2.
  split; cbn; intros m Hm%MonthInts_elem.
  - exact (proj1 (Hall1 m Hm)).
  - exact (proj2 (Hall1 m Hm)).
  - exact (Hall2 m Hm).
Qed.

Section Returns.
Context {variates : Variates} {climatology : WGI.Climatology}.

(** *** The event module *)

Lemma updateTriggeredEvent_returns (evCnt : nat) (curTime : datetime)
    (curElapsDays : Z) (s : EXEV.state) :
  (evCnt < length WGI.EVENT_KEYS)%nat -> EXEV.ready s ->
  exists s', EXEV.updateTriggeredEvent evCnt curTime curElapsDays s = Ok s' /\
             EXEV.ready s'.
Proof.
  intros Hcnt Hs. unfold EXEV.updateTriggeredEvent.
  destruct (lookup_lt_is_Some_2 _ _ Hcnt) as [key Hkey].
  unfold getindex. rewrite Hkey. monad_red.
  destruct (Hs key) as ([[[ev rs] ms] Ha] & [tl Ht] & [[tm mg] Hn]).
  { eapply list_elem_of_lookup_2. exact Hkey. }
  unfold getitem. rewrite Ha. monad_red.
  destruct (EXEV.nextEventDays ev rs) as [curTrigTime rs'].
  destruct (EXEV.nextEventDailyMag ev ms) as [curTrigMag ms'].
  rewrite Ht. monad_red. rewrite Hn. monad_red.
  eexists. split; [reflexivity|].
  intros k Hk. destruct (Hs k Hk) as (Ka & Kt & Kn). simpl.
  rewrite !lookup_insert_is_Some. repeat apply conj;
    (destruct (decide (key = k)); [left; assumption|right; split; assumption]).
Qed.

Lemma EXEV_setTrackers_ready (s s' : EXEV.state) :
  EXEV.setTrackers s = Ok s' -> EXEV.ready s'.
Proof.
  unfold EXEV.setTrackers. intros Hrun. bind_inv Hrun.
  destruct a as [[act toBeTrigDict] trackingDict]. injection Hrun as <-.
  intros key Hkey. simpl.
  refine (for_each_establishes
    (fun (k : string)
         (acc : gmap string (EXEV.ExtremeEvent * RandomState * RandomState)
                * gmap string (Q * Q) * gmap string (list (datetime * Q))) =>
       is_Some (acc.1.1 !! k) /\ is_Some (acc.2 !! k) /\ is_Some (acc.1.2 !! k))
    _ _ _ _ _ _ Ha key Hkey).
  - intros x [[a1 a2] a3] b _ Hb. bind_inv Hb. destruct a as [[ev rs] ms].
    destruct (EXEV.nextEventDays ev rs) as [curTrigTime rs'].
    destruct (EXEV.nextEventDailyMag ev ms) as [curTrigMag ms'].
    injection Hb as <-. simpl. rewrite !lookup_insert_eq. eauto.
  - intros x y [[a1 a2] a3] b _ Hb (Y1 & Y2 & Y3). bind_inv Hb.
    destruct a as [[ev rs] ms].
    destruct (EXEV.nextEventDays ev rs) as [curTrigTime rs'].
    destruct (EXEV.nextEventDailyMag ev ms) as [curTrigMag ms'].
    injection Hb as <-. simpl in *. rewrite !lookup_insert_is_Some.
    repeat apply conj;
      (destruct (decide (x = y)); [left; assumption|right; split; assumption]).
Qed.

Lemma next_times_returns (ev : EXEV.state) :
  EXEV.ready ev ->
  exists times, WGmp.next_times ev = Ok times /\
                length times = length WGI.EVENT_KEYS.
Proof.
  intros Hev. apply comprehension_returns. intros x Hx.
  destruct (Hev x Hx) as (_ & _ & [tm Htm]). unfold getitem. rewrite Htm.
  eexists. reflexivity.
Qed.

Lemma next_mags_returns (ev : EXEV.state) :
  EXEV.ready ev ->
  exists mags, WGmp.next_mags ev = Ok mags /\
               length mags = length WGI.EVENT_KEYS.
Proof.
  intros Hev. apply comprehension_returns. intros x Hx.
  destruct (Hev x Hx) as (_ & _ & [tm Htm]). unfold getitem. rewrite Htm.
  eexists. reflexivity.
Qed.

Lemma comprehension_length {A B : Type} (f : A -> result B) (xs : list A)
    (ys : list B) :
  comprehension f xs = Ok ys -> length ys = length xs.
Proof.
  revert ys. induction xs as [|x xs IH]; intros ys Hrun; simpl in Hrun.
  - injection Hrun as <-. reflexivity.
  - bind_inv Hrun. bind_inv Hrun. injection Hrun as <-. simpl.
    f_equal. apply IH. exact Ha0.
Qed.

(** *** The temperature module *)

Lemma fill_length (column filled : list Q) :
  WGOW.fill column = Ok filled -> length filled = WGOW.NUM_DAYS_YR.
Proof.
  unfold WGOW.fill. destruct (decide _) as [Hlen|_].
  - intros [= <-]. exact Hlen.
  - destruct column as [|x [|y column]]; try discriminate.
    intros [= <-]. reflexivity.
Qed.

Lemma constructArrays_lengths (s s' : WGOW.state) :
  WGOW.constructArrays s = Ok s' ->
  length (WGOW.WET_TMAX_AVE s') = WGOW.NUM_DAYS_YR /\
  length (WGOW.WET_TMAX_STD s') = WGOW.NUM_DAYS_YR /\
  length (WGOW.WET_TMIN_AVE s') = WGOW.NUM_DAYS_YR /\
  length (WGOW.WET_TMIN_STD s') = WGOW.NUM_DAYS_YR /\
  length (WGOW.DRY_TMAX_AVE s') = WGOW.NUM_DAYS_YR /\
  length (WGOW.DRY_TMAX_STD s') = WGOW.NUM_DAYS_YR /\
  length (WGOW.DRY_TMIN_AVE s') = WGOW.NUM_DAYS_YR /\
  length (WGOW.DRY_TMIN_STD s') = WGOW.NUM_DAYS_YR.
Proof.
  unfold WGOW.constructArrays. intros Hrun.
  repeat (let a := fresh "col" in let Ha := fresh "Hcol" in
          apply rbind_Ok in Hrun as (a & Ha & Hrun); apply fill_length in Ha).
  injection Hrun as <-. simpl. rewrite !length_map. auto 10.
Qed.

Lemma setupDistsSamples_ready (seed : Z) (s : WGOW.state) :
  length (WGOW.WET_TMAX_AVE s) = WGOW.NUM_DAYS_YR /\
  length (WGOW.WET_TMAX_STD s) = WGOW.NUM_DAYS_YR /\
  length (WGOW.WET_TMIN_AVE s) = WGOW.NUM_DAYS_YR /\
  length (WGOW.WET_TMIN_STD s) = WGOW.NUM_DAYS_YR /\
  length (WGOW.DRY_TMAX_AVE s) = WGOW.NUM_DAYS_YR /\
  length (WGOW.DRY_TMAX_STD s) = WGOW.NUM_DAYS_YR /\
  length (WGOW.DRY_TMIN_AVE s) = WGOW.NUM_DAYS_YR /\
  length (WGOW.DRY_TMIN_STD s) = WGOW.NUM_DAYS_YR ->
  WGOW.ready (WGOW.setupDistsSamples seed s).
Proof.
  intros (L1 & L2 & L3 & L4 & L5 & L6 & L7 & L8).
  constructor; simpl; try assumption; rewrite !length_app; simpl; lia.
Qed.

Lemma updateTracker_returns (s : WGOW.state) :
  WGOW.ready s ->
  exists s', WGOW.updateTracker s = Ok s' /\ WGOW.ready s'.
Proof.
  intros [L1 L2 L3 L4 L5 L6 L7 L8 Ld Ls]. unfold WGOW.updateTracker, getindex.
  destruct (WGOW.EPS_STD_NORMAL s) as [|d0 [|d1 dists]] eqn:Ed;
    simpl in Ld; try lia.
  destruct (WGOW.EPS_NORM_SAMP s) as [|r0 [|r1 samps]] eqn:Es;
    simpl in Ls; try lia.
  simpl. eexists. split; [reflexivity|].
  constructor; simpl; try assumption; lia.
Qed.

Lemma calcCHI0_ready (s : WGOW.state) :
  WGOW.ready s -> WGOW.ready (WGOW.calcCHI0 s).
Proof.
  intros [L1 L2 L3 L4 L5 L6 L7 L8 Ld Ls]. unfold WGOW.calcCHI0.
  destruct (try_or _ _) as [c0 c1]. constructor; simpl; assumption.
Qed.

Lemma rollOverChis_ready (s : WGOW.state) :
  WGOW.ready s -> WGOW.ready (WGOW.rollOverChis s).
Proof.
  intros [L1 L2 L3 L4 L5 L6 L7 L8 Ld Ls]. constructor; simpl; assumption.
Qed.

Lemma getindexZ_returns {V : Type} (l : list V) (i : Z) :
  (0 <= i < Z.of_nat (length l))%Z -> returns (getindexZ l i).
Proof.
  intros Hi. unfold getindexZ, getindex.
  destruct (Z.leb_spec 0 i); [|lia].
  destruct (lookup_lt_is_Some_2 l (Z.to_nat i)) as [v Hv]; [lia|].
  rewrite Hv. eexists. reflexivity.
Qed.

Lemma convert_returns (chi : npfloat) (std ave : list Q) (i : Z) :
  (0 <= i < Z.of_nat (length ave))%Z -> returns (WGOW.convert chi std ave i).
Proof.
  intros Hi. unfold WGOW.convert, try_except.
  destruct (getindexZ_returns ave i Hi) as [av Hav].
  match goal with |- returns (match ?r with _ => _ end) => destruct r as [v|e] end.
  - eexists. reflexivity.
  - rewrite Hav. eexists. reflexivity.
Qed.

Lemma converted_pair_returns (DayOYear : Z) (st : WGI.wstate) (s : WGOW.state) :
  (1 <= DayOYear <= 366)%Z -> WGOW.ready s ->
  returns (WGOW.converted_pair DayOYear st s).
Proof.
  intros Hday [L1 L2 L3 L4 L5 L6 L7 L8 Ld Ls]. unfold WGOW.NUM_DAYS_YR in *.
  unfold WGOW.converted_pair.
  assert (Hpair : exists p,
    (if decide (st = WGI.WET_STATE) then
       cMaxT0 ← WGOW.convert (WGOW.CHI_M0 s).1 (WGOW.WET_TMAX_STD s)
                  (WGOW.WET_TMAX_AVE s) (DayOYear - 1);
       cMinT0 ← WGOW.convert (WGOW.CHI_M0 s).2 (WGOW.WET_TMIN_STD s)
                  (WGOW.WET_TMIN_AVE s) (DayOYear - 1);
       Ok (cMaxT0, cMinT0)
     else
       cMaxT0 ← WGOW.convert (WGOW.CHI_M0 s).1 (WGOW.DRY_TMAX_STD s)
                  (WGOW.DRY_TMAX_AVE s) (DayOYear - 1);
       cMinT0 ← WGOW.convert (WGOW.CHI_M0 s).2 (WGOW.DRY_TMIN_STD s)
                  (WGOW.DRY_TMIN_AVE s) (DayOYear - 1);
       Ok (cMaxT0, cMinT0)) = Ok p).
  { destruct (decide _).
    - destruct (convert_returns (WGOW.CHI_M0 s).1 (WGOW.WET_TMAX_STD s)
                  (WGOW.WET_TMAX_AVE s) (DayOYear - 1)) as [x Hx]; [lia|].
      destruct (convert_returns (WGOW.CHI_M0 s).2 (WGOW.WET_TMIN_STD s)
                  (WGOW.WET_TMIN_AVE s) (DayOYear - 1)) as [y Hy]; [lia|].
      rewrite Hx. monad_red. rewrite Hy. monad_red. eauto.
    - destruct (convert_returns (WGOW.CHI_M0 s).1 (WGOW.DRY_TMAX_STD s)
                  (WGOW.DRY_TMAX_AVE s) (DayOYear - 1)) as [x Hx]; [lia|].
      destruct (convert_returns (WGOW.CHI_M0 s).2 (WGOW.DRY_TMIN_STD s)
                  (WGOW.DRY_TMIN_AVE s) (DayOYear - 1)) as [y Hy]; [lia|].
      rewrite Hx. monad_red. rewrite Hy. monad_red. eauto. }
  destruct Hpair as [[cMaxT0 cMinT0] ->]. monad_red.
  destruct (getindexZ_returns (WGOW.DRY_TMAX_AVE s) (DayOYear - 1)) as [x ->]; [lia|].
  monad_red.
  destruct (getindexZ_returns (WGOW.DRY_TMIN_AVE s) (DayOYear - 1)) as [y ->]; [lia|].
  monad_red. eexists. reflexivity.
Qed.

(** *** The output buffer *)

Lemma setitem2_returns (n i j : nat) (v : npfloat) (H0 : list (list npfloat)) :
  WGHRR.buffer_shape n H0 -> (i < n)%nat -> (j < WGHRR.TOT_VALS)%nat ->
  exists H0', setitem2 H0 i j v = Ok H0' /\ WGHRR.buffer_shape n H0'.
Proof.
  intros [Hrows Hcols] Hi Hj. unfold setitem2, getindex.
  destruct (lookup_lt_is_Some_2 H0 i) as [row Hrow]; [lia|].
  rewrite Hrow. monad_red. rewrite (Hcols i row Hrow).
  destruct (decide _) as [_|Hn]; [|contradiction].
  eexists. split; [reflexivity|]. split.
  - rewrite length_insert. exact Hrows.
  - intros k r Hk. destruct (decide (i = k)) as [->|Hne].
    + rewrite list_lookup_insert_eq in Hk by lia. injection Hk as <-.
      rewrite length_insert. eauto.
    + rewrite list_lookup_insert_ne in Hk by exact Hne. eauto.
Qed.

Lemma createSimStructures_shape (n : nat) :
  WGHRR.buffer_shape n (WGHRR.createSimStructures n).
Proof.
  unfold WGHRR.createSimStructures. split.
  - apply length_replicate.
  - intros i row [-> _]%lookup_replicate. apply length_replicate.
Qed.

Lemma calculateUpdate_returns (n curIndex : nat) (DayOYear : Z) (st : WGI.wstate)
    (s : WGOW.state) (H0 : list (list npfloat)) :
  (1 <= DayOYear <= 366)%Z -> WGOW.ready s -> WGHRR.buffer_shape n H0 ->
  (curIndex < n)%nat ->
  exists H0', WGOW.calculateUpdate curIndex DayOYear st s H0 = Ok H0' /\
              WGHRR.buffer_shape n H0'.
Proof.
  intros Hday Hs Hshape Hi. unfold WGOW.calculateUpdate, WGHRR.assignTemp.
  destruct (converted_pair_returns DayOYear st s Hday Hs) as [[passMaxT passMinT] ->].
  monad_red.
  match goal with
  | |- context [setitem2 H0 curIndex WGHRR.TMAX_IND ?v] =>
      destruct (setitem2_returns n curIndex WGHRR.TMAX_IND v H0 Hshape Hi)
        as (H1 & -> & Hshape1); [unfold WGHRR.TMAX_IND, WGHRR.TOT_VALS; lia|]
  end.
  monad_red.
  apply setitem2_returns; [exact Hshape1|exact Hi|].
  unfold WGHRR.TMIN_IND, WGHRR.TOT_VALS. lia.
Qed.

(** *** The daily loop *)

Lemma check_event_returns (TimesList : list datetime) (cTime : datetime)
    (jJ eE : nat) (s : WGmp.state) :
  (eE < length WGI.EVENT_KEYS)%nat -> WGmp.ready TimesList s ->
  exists s', WGmp.check_event cTime jJ eE s = Ok s' /\
             WGmp.ready TimesList s' /\ WGmp.wgds s' = WGmp.wgds s.
Proof.
  intros HeE [Rds Row Rev Rt Rm Rb Rd]. unfold WGmp.check_event, getindex.
  destruct (lookup_lt_is_Some_2 (WGmp.EvTrigTimes s) eE) as [trig ->]; [lia|].
  monad_red. destruct (Qltb trig _).
  - destruct (lookup_lt_is_Some_2 (WGmp.EvTrigMags s) eE) as [mag ->]; [lia|].
    monad_red.
    destruct (updateTriggeredEvent_returns eE cTime (Z.of_nat jJ) (WGmp.exev s)
                HeE Rev) as (ev & -> & Rev').
    monad_red. eexists. split; [reflexivity|]. split; [|reflexivity].
    constructor; simpl; assumption.
  - eexists. split; [reflexivity|]. split; [|reflexivity].
    constructor; assumption.
Qed.

Lemma check_events_returns (TimesList : list datetime) (cTime : datetime)
    (jJ : nat) (s : WGmp.state) :
  WGmp.ready TimesList s ->
  exists s', for_each WGmp.event_classes (WGmp.check_event cTime jJ) s = Ok s' /\
             WGmp.ready TimesList s' /\ WGmp.wgds s' = WGmp.wgds s.
Proof.
  intros Hs.
  apply (for_each_returns
           (fun x => WGmp.ready TimesList x /\ WGmp.wgds x = WGmp.wgds s));
    [|split; [exact Hs|reflexivity]].
  intros eE a HeE [Ha Hds]. unfold WGmp.event_classes in HeE.
  apply elem_of_seq in HeE.
  destruct (check_event_returns TimesList cTime jJ eE a) as (b & Hb & Rb & Eb);
    [lia|exact Ha|].
  exists b. split; [exact Hb|]. split; [exact Rb|]. congruence.
Qed.

Lemma set_day_ready (TimesList : list datetime) (s : WGmp.state)
    (H0 : list (list npfloat)) (st : WGI.wstate) (dur : Z) :
  WGmp.ready TimesList s -> WGHRR.buffer_shape (length TimesList) H0 ->
  WGmp.ready TimesList (WGmp.set_day s H0 st dur).
Proof. intros [Rds Row Rev Rt Rm Rb Rd] Hshape. constructor; simpl; assumption. Qed.

Lemma check_state_returns (TimesList : list datetime) (cTime : datetime)
    (jJ : nat) (curMonth : Z) (s : WGmp.state) :
  WGmp.ready TimesList s -> (jJ < length TimesList)%nat ->
  is_Some (WGDS.ST_DRYSPELL (WGmp.wgds s) !! curMonth) ->
  is_Some (WGDS.ST_WETSPELL (WGmp.wgds s) !! curMonth) ->
  is_Some (WGDS.ST_PDEPTH (WGmp.wgds s) !! curMonth) ->
  exists s', WGmp.check_state cTime jJ curMonth s = Ok s' /\
             WGmp.ready TimesList s'.
Proof.
  intros Hs HjJ [dry Hdry] [wet Hwet] [dep Hdep].
  assert (Hpre : (WGHRR.PRE_IND < WGHRR.TOT_VALS)%nat)
    by (unfold WGHRR.PRE_IND, WGHRR.TOT_VALS; lia).
  unfold WGmp.check_state, WGHRR.assignDryDep, WGHRR.assignWetDep, getitem.
  change (seq 0 (length WGI.EVENT_KEYS)) with WGmp.event_classes.
  destruct (decide _) as [_|_]; destruct (_ <=? _)%Z.
  - rewrite Hdry. monad_red.
    destruct (setitem2_returns (length TimesList) jJ WGHRR.PRE_IND (Finite 0.0)
                (WGmp.H0_REAL s)) as (H0 & -> & Hshape);
      [apply (WGmp.rdy_buffer _ _ Hs)|exact HjJ|exact Hpre|].
    monad_red. eexists. split; [reflexivity|]. apply set_day_ready; assumption.
  - destruct (check_events_returns TimesList cTime jJ s Hs) as (s1 & -> & R1 & E1).
    monad_red. destruct (WGmp.eventTriggered s1).
    + destruct (next_times_returns (WGmp.exev s1)) as (times & -> & Lt);
        [apply (WGmp.rdy_exev _ _ R1)|].
      monad_red.
      destruct (next_mags_returns (WGmp.exev s1)) as (mags & -> & Lm);
        [apply (WGmp.rdy_exev _ _ R1)|].
      monad_red. cbn [WGmp.H0_REAL WGmp.set_events].
      destruct (setitem2_returns (length TimesList) jJ WGHRR.PRE_IND
                  (Finite (WGmp.eventTrigMag s1)) (WGmp.H0_REAL s1))
        as (H0 & -> & Hshape);
        [apply (WGmp.rdy_buffer _ _ R1)|exact HjJ|exact Hpre|].
      monad_red. eexists. split; [reflexivity|].
      apply set_day_ready; [|exact Hshape].
      destruct R1 as [Rds Row Rev Rt Rm Rb Rd]. constructor; simpl; assumption.
    + rewrite E1, Hdep. monad_red.
      destruct (setitem2_returns (length TimesList) jJ WGHRR.PRE_IND
                  (Finite dep) (WGmp.H0_REAL s1))
        as (H0 & -> & Hshape);
        [apply (WGmp.rdy_buffer _ _ R1)|exact HjJ|exact Hpre|].
      monad_red. eexists. split; [reflexivity|].
      apply set_day_ready; assumption.
  - rewrite Hwet. monad_red. rewrite Hdep. monad_red.
    destruct (setitem2_returns (length TimesList) jJ WGHRR.PRE_IND (Finite dep)
                (WGmp.H0_REAL s)) as (H0 & -> & Hshape);
      [apply (WGmp.rdy_buffer _ _ Hs)|exact HjJ|exact Hpre|].
    monad_red. eexists. split; [reflexivity|]. apply set_day_ready; assumption.
  - destruct (setitem2_returns (length TimesList) jJ WGHRR.PRE_IND (Finite 0.0)
                (WGmp.H0_REAL s)) as (H0 & -> & Hshape);
      [apply (WGmp.rdy_buffer _ _ Hs)|exact HjJ|exact Hpre|].
    monad_red. eexists. split; [reflexivity|]. apply set_day_ready; assumption.
Qed.

Lemma sample_day_returns (TimesList : list datetime) (curMonth : Z)
    (s : WGmp.state) :
  (1 <= curMonth <= 12)%Z -> WGmp.ready TimesList s ->
  exists s', WGmp.sample_day curMonth s = Ok s' /\ WGmp.ready TimesList s' /\
    is_Some (WGDS.ST_DRYSPELL (WGmp.wgds s') !! curMonth) /\
    is_Some (WGDS.ST_WETSPELL (WGmp.wgds s') !! curMonth) /\
    is_Some (WGDS.ST_PDEPTH (WGmp.wgds s') !! curMonth).
Proof.
  intros Hmon [Rds Row Rev Rt Rm Rb Rd]. unfold WGmp.sample_day.
  destruct (sampleAll_returns curMonth (WGmp.wgds s) Hmon Rds) as (ds & Hds & Rds').
  destruct (updateTracker_returns (WGmp.wgow s) Row) as (ow & How & Row').
  rewrite Hds. monad_red. rewrite How. monad_red.
  eexists. split; [reflexivity|]. split; [constructor; simpl; assumption|]. simpl.
  destruct (sampleAll_spec _ _ _ Hds) as (_ & _ & _ & Hdraws).
  destruct (Hdraws curMonth) as [Hsp Hdp]; [apply MonthInts_elem; exact Hmon|].
  destruct Hsp as (dd & drs & dv & wd & wrs & wv & _ & _ & _ & _ & _ & _ & Hentry).
  destruct Hdp as (pd & prs & pv & prs' & _ & _ & _ & Hdepth).
  unfold WGDS.spell_entry in Hentry. unfold WGDS.depth_entry in Hdepth.
  injection Hentry as _ _ -> ->. injection Hdepth as _ ->. eauto.
Qed.

Lemma finish_day_returns (TimesList : list datetime) (jJ : nat) (curDayoYr : Z)
    (s : WGmp.state) :
  (1 <= curDayoYr <= 366)%Z -> (jJ < length TimesList)%nat ->
  WGmp.ready TimesList s ->
  exists s', WGmp.finish_day jJ curDayoYr s = Ok s' /\ WGmp.ready TimesList s'.
Proof.
  intros Hday HjJ [Rds Row Rev Rt Rm Rb Rd]. unfold WGmp.finish_day.
  destruct (calculateUpdate_returns (length TimesList) jJ curDayoYr
              (WGmp.h0State s) (WGOW.calcCHI0 (WGmp.wgow s)) (WGmp.H0_REAL s)
              Hday (calcCHI0_ready _ Row) Rb HjJ) as (H0 & HH0 & Hshape).
  cbv zeta. rewrite HH0. monad_red. eexists. split; [reflexivity|].
  constructor; simpl; try assumption.
  apply rollOverChis_ready, calcCHI0_ready. exact Row.
Qed.

(** A day of the loop returns whenever nothing it looks up is missing,
    and nothing is missing for the next day either. *)
Lemma day_body_returns (TimesList : list datetime) (jJ : nat) (s : WGmp.state) :
  WGmp.ready TimesList s -> (jJ < length TimesList)%nat ->
  exists s', WGmp.day_body TimesList jJ s = Ok s' /\ WGmp.ready TimesList s'.
Proof.
  intros Hs HjJ. unfold WGmp.day_body, getindex.
  destruct (lookup_lt_is_Some_2 TimesList jJ HjJ) as [cTime HcTime].
  rewrite HcTime. monad_red.
  pose proof (WGmp.rdy_dates _ _ Hs jJ cTime HcTime) as Hvalid.
  destruct (sample_day_returns TimesList (month cTime) s (proj1 Hvalid) Hs)
    as (s1 & -> & R1 & Tdry & Twet & Tdep).
  monad_red.
  destruct (check_state_returns TimesList cTime jJ (month cTime) s1 R1 HjJ
              Tdry Twet Tdep) as (s2 & -> & R2).
  monad_red.
  apply finish_day_returns; [apply tm_yday_bounds; exact Hvalid|exact HjJ|exact R2].
Qed.

(** The loop returns for any number of days the time index covers. *)
Lemma daily_loop_returns (TimesList : list datetime) (n : nat) (s0 : WGmp.state) :
  WGmp.ready TimesList s0 -> (n <= length TimesList)%nat ->
  exists s, WGmp.daily_loop TimesList n s0 = Ok s /\ WGmp.ready TimesList s.
Proof.
  intros Hs0 Hn. unfold WGmp.daily_loop.
  apply (for_each_returns (WGmp.ready TimesList)); [|exact Hs0].
  intros jJ a HjJ%elem_of_seq Ha. apply day_body_returns; [exact Ha|lia].
Qed.

(** A set-up that returns leaves nothing missing, and its time index has
    one entry per simulated day. *)
Lemma setup_ready (TimesList : list datetime) (s0 : WGmp.state)
    (start_date end_date : datetime)
    (RealNum SNSeed PDSeed WSLSeed DSLSeed EVRecurSeed EVMagSeed : Z)
    (m : WGmp.modules) (TOTAL_DAYS : nat) :
  valid_date start_date ->
  WGmp.setup start_date end_date RealNum SNSeed PDSeed WSLSeed DSLSeed
             EVRecurSeed EVMagSeed m = Ok (TimesList, TOTAL_DAYS, s0) ->
  WGmp.ready TimesList s0 /\ length TimesList = TOTAL_DAYS.
Proof.
  intros Hvalid Hrun. unfold WGmp.setup in Hrun.
  bind_inv Hrun. rename a into ow, Ha into Hcon.
  bind_inv Hrun. rename a into ds0, Ha into Hdists.
  bind_inv Hrun. rename a into ds, Ha into Htrack.
  bind_inv Hrun. rename a into ow', Ha into Hupd.
  bind_inv Hrun. rename a into ev0, Ha into Hev0.
  bind_inv Hrun. rename a into ev, Ha into Hev.
  destruct (WGPD.getSingleVal _) as [TestVal StarterSamp].
  bind_inv Hrun. destruct a as [st dur]. clear Ha.
  bind_inv Hrun. rename a into times, Ha into Htimes.
  bind_inv Hrun. rename a into mags, Ha into Hmags.
  destruct (_ <? 0)%Z; [discriminate|].
  injection Hrun as <- <- <-.
  split; [|apply date_range_length].
  destruct (setDistributions_returns (PDSeed + RealNum) (WSLSeed + RealNum)
              (DSLSeed + RealNum) (WGmp.mod_wgds m)) as (ds0' & Hds0' & Rds0).
  rewrite Hdists in Hds0'. injection Hds0' as <-.
  destruct (setTrackers_returns (month start_date) ds0 (proj1 Hvalid) Rds0)
    as (ds' & Hds' & Rds).
  rewrite Htrack in Hds'. injection Hds' as <-.
  destruct (updateTracker_returns
              (WGOW.setupDistsSamples (SNSeed + RealNum) ow)) as (ow2 & How2 & Row).
  { apply setupDistsSamples_ready. eapply constructArrays_lengths. exact Hcon. }
  rewrite Hupd in How2. injection How2 as <-.
  constructor; simpl.
  - exact Rds.
  - exact Row.
  - eapply EXEV_setTrackers_ready. exact Hev.
  - exact (comprehension_length _ _ _ Htimes).
  - exact (comprehension_length _ _ _ Hmags).
  - rewrite date_range_length. apply createSimStructures_shape.
  - intros i d. apply date_range_valid. exact Hvalid.
Qed.

(** Every day of a realization returns: once the set-up has returned, so
    does the daily loop, for every number of days up to the length of the
    simulation. *)
Lemma realization_days_return (TimesList : list datetime) (s0 : WGmp.state)
    (n : nat) :
  WGmp.realization_begins TimesList s0 -> (n <= length TimesList)%nat ->
  exists s, WGmp.daily_loop TimesList n s0 = Ok s /\ WGmp.ready TimesList s.
Proof.
  intros (start_date & end_date & RealNum & SNSeed & PDSeed & WSLSeed & DSLSeed
          & EVRecurSeed & EVMagSeed & m & TOTAL_DAYS & Hvalid & Hrun) Hn.
  destruct (setup_ready _ _ _ _ _ _ _ _ _ _ _ _ _ Hvalid Hrun) as [Hs0 _].
  apply daily_loop_returns; assumption.
Qed.

(** Day [t] of a realization returns. *)
Lemma day_returns (TimesList : list datetime) (s0 : WGmp.state) (t : nat)
    (cTime : datetime) (st : WGmp.state) :
  WGmp.realization_begins TimesList s0 ->
  WGmp.daily_loop TimesList t s0 = Ok st ->
  TimesList !! t = Some cTime ->
  exists st', WGmp.day_body TimesList t st = Ok st'.
Proof.
  intros Hbegin Hst Ht. apply lookup_lt_Some in Ht.
  destruct (realization_days_return TimesList s0 t Hbegin) as (s & Hs & Rs); [lia|].
  rewrite Hst in Hs. injection Hs as <-.
  destruct (day_body_returns TimesList t st Rs Ht) as (st' & Hday & _). eauto.
Qed.

End Returns.

(** ** Re-arming an event class *)

(** C9.  [updateTriggeredEvent] returns for every event class once the
    event module is set up, and when it returns for the class at position
    [evCnt] on elapsed day [d], the trigger offset it stores for that class
    is [d] plus an interarrival time freshly taken from the class's
    recurrence sampler, a Poisson number of years times 365.25 days; the
    interarrival is not negative, so the new offset is at least [d]. *)
Theorem updateTriggeredEvent_rearms `{Variates}
    (evCnt : nat) (curTime : datetime) (d : Z) (s : EXEV.state) :
  (EXEV.ready s -> (evCnt < length WGI.EVENT_KEYS)%nat ->
     returns (EXEV.updateTriggeredEvent evCnt curTime d s)) /\
  forall s', EXEV.updateTriggeredEvent evCnt curTime d s = Ok s' ->
  exists key ev recSamp magSamp,
    WGI.EVENT_KEYS !! evCnt = Some key /\
    EXEV.ACT_EVENT_DICT s !! key = Some (ev, recSamp, magSamp) /\
    EXEV.ACT_EVENT_DICT s' !! key = Some (ev, advance recSamp, advance magSamp) /\
    let years := poisson_variate (EXEV.poisson_mu ev) recSamp in
    let interarrival := (inject_Z (Z.of_nat years) * 365.25)%Q in
    (0 <= interarrival)%Q /\
    fst <$> EXEV.NEXT_EVENT_DICT s' !! key = Some (inject_Z d + interarrival)%Q /\
    (inject_Z d <= inject_Z d + interarrival)%Q.
Proof.
  split.
  { intros Hs Hcnt.
    destruct (updateTriggeredEvent_returns evCnt curTime d s Hcnt Hs) as (s' & Hs' & _).
    exists s'. exact Hs'. }
  unfold EXEV.updateTriggeredEvent. intros s' Hrun.
  bind_inv Hrun. apply getindex_Ok in Ha. rename a into key.
  bind_inv Hrun. destruct a as [[ev recSamp] magSamp]. apply getitem_Ok in Ha0.
  simpl in Hrun. bind_inv Hrun. bind_inv Hrun. destruct a0 as [oldTime firedMag].
  injection Hrun as <-. simpl.
  exists key, ev, recSamp, magSamp.
  assert (Hpos : (0 <= inject_Z (Z.of_nat (poisson_variate (EXEV.poisson_mu ev) recSamp))
                       * 365.25)%Q).
  { apply Qmult_le_0_compat; [|Qorder].
    change 0%Q with (inject_Z 0). rewrite <- Zle_Qle. lia. }
  repeat apply conj; try assumption.
  - apply lookup_insert_eq.
  - rewrite lookup_insert_eq. reflexivity.
  - rewrite <- (Qplus_0_r (inject_Z d)) at 1.
    apply Qplus_le_r. exact Hpos.
Qed.

(** ** The white noise of the two channels *)

(** C10.  [setupDistsSamples] builds both white-noise samplers from the
    one seed it is given, and in every state the module can reach, a call
    of [updateTracker], which returns once the samplers are in place,
    finds the two samplers in the same state and leaves the same value in
    both channels of [EPSI_2]. *)
Theorem updateTracker_channels_equal `{Variates} `{WGI.Climatology}
    (s : WGOW.state) :
  WGOW.reachable s ->
  (forall seed s0,
     drop (length (WGOW.EPS_NORM_SAMP s0))
          (WGOW.EPS_NORM_SAMP (WGOW.setupDistsSamples seed s0))
       = [WGOW.ErrorTSampler seed; WGOW.ErrorTSampler seed]) /\
  (WGOW.ready s -> returns (WGOW.updateTracker s)) /\
  forall s', WGOW.updateTracker s = Ok s' ->
    (exists rstate,
       WGOW.EPS_NORM_SAMP s !! 0%nat = Some rstate /\
       WGOW.EPS_NORM_SAMP s !! 1%nat = Some rstate) /\
    (WGOW.EPSI_2 s').1 = (WGOW.EPSI_2 s').2.
Proof.
  intros Hreach. pose proof (reachable_samplers_agree s Hreach) as Hagree.
  split.
  { intros seed s0. unfold WGOW.setupDistsSamples. simpl.
    rewrite <- app_assoc. rewrite drop_app_length. reflexivity. }
  split.
  { intros Hs. destruct (updateTracker_returns s Hs) as (s' & Hs' & _).
    exists s'. exact Hs'. }
  intros s' Hu.
  unfold WGOW.updateTracker in Hu.
  bind_inv Hu. bind_inv Hu. apply getindex_Ok in Ha0. simpl in Hu.
  bind_inv Hu. bind_inv Hu. apply getindex_Ok in Ha2. injection Hu as <-.
  simpl. destruct (WGOW.EPS_NORM_SAMP s) as [|r0 [|r1 l]]; simpl in *;
    try discriminate.
  injection Hagree as <-. injection Ha0 as <-. injection Ha2 as <-.
  split; [eauto|reflexivity].
Qed.

(** ** One day of the loop *)

Section DailyLoop.
Context {variates : Variates} {climatology : WGI.Climatology}.

(** Reduces the projections of updated states and the steps of the error
    monad, and nothing else. *)
Ltac state_red :=
  cbn [WGmp.wgds WGmp.wgow WGmp.exev WGmp.H0_REAL WGmp.h0State WGmp.h0remdur
       WGmp.EvTrigTimes WGmp.EvTrigMags WGmp.eventTriggered WGmp.eventTrigMag
       WGmp.with_wgds WGmp.set_day WGmp.set_events
       mbind result_bind fmap result_fmap].

#[local] Arguments WGmp.event_classes : simpl never.
#[local] Arguments WGmp.event_total : simpl never.
#[local] Arguments WGmp.any_event : simpl never.

(** The loop over the event classes only touches the event bookkeeping:
    the flag records whether some class fired, the total adds up the
    magnitudes of the classes that fired, and nothing changes at all when
    none did. *)
Lemma check_events_spec (cTime : datetime) (jJ : nat) (classes : list nat)
    (s s' : WGmp.state) :
  for_each classes (WGmp.check_event cTime jJ) s = Ok s' ->
  WGmp.wgds s' = WGmp.wgds s /\ WGmp.wgow s' = WGmp.wgow s /\
  WGmp.H0_REAL s' = WGmp.H0_REAL s /\
  WGmp.h0State s' = WGmp.h0State s /\ WGmp.h0remdur s' = WGmp.h0remdur s /\
  WGmp.EvTrigTimes s' = WGmp.EvTrigTimes s /\
  WGmp.EvTrigMags s' = WGmp.EvTrigMags s /\
  WGmp.eventTriggered s'
    = WGmp.eventTriggered s || WGmp.any_event jJ (WGmp.EvTrigTimes s) classes /\
  WGmp.eventTrigMag s'
    = WGmp.event_total jJ (WGmp.EvTrigTimes s) (WGmp.EvTrigMags s) classes
        (WGmp.eventTrigMag s) /\
  (WGmp.any_event jJ (WGmp.EvTrigTimes s) classes = false -> s' = s).
Proof.
  revert s. induction classes as [|eE classes IH]; intros s Hrun; simpl in Hrun.
  - injection Hrun as <-. simpl. rewrite orb_false_r. auto 12.
  - bind_inv Hrun. rename a into s1.
    destruct (IH s1 Hrun) as (I1 & I2 & I3 & I4 & I5 & I6 & I7 & I8 & I9 & I10).
    clear IH Hrun. unfold WGmp.check_event in Ha.
    bind_inv Ha. rename a into trig. apply getindex_Ok in Ha0.
    assert (Hf : WGmp.event_fires jJ (WGmp.EvTrigTimes s) eE
                 = Qltb trig (inject_Z (Z.of_nat jJ)))
      by (unfold WGmp.event_fires; rewrite Ha0; reflexivity).
    unfold WGmp.any_event, WGmp.event_total in *. cbn [existsb foldl]. rewrite Hf.
    destruct (Qltb trig (inject_Z (Z.of_nat jJ))) eqn:Efire.
    + bind_inv Ha. rename a into mag. apply getindex_Ok in Ha1.
      bind_inv Ha. injection Ha as <-. simpl in *.
      rewrite I1, I2, I3, I4, I5, I6, I7, I8, I9, Ha1. simpl.
      rewrite orb_true_r. repeat apply conj; try reflexivity. discriminate.
    + injection Ha as <-. simpl.
      rewrite I1, I2, I3, I4, I5, I6, I7, I8, I9.
      repeat apply conj; try reflexivity. exact I10.
Qed.

(** The spell bookkeeping of one day, case by case.  [p] is the
    precipitation written for the day. *)
Lemma check_state_spec (cTime : datetime) (jJ : nat) (curMonth : Z)
    (s s' : WGmp.state) :
  WGmp.eventTriggered s = false -> WGmp.eventTrigMag s = 0.0%Q ->
  WGmp.check_state cTime jJ curMonth s = Ok s' ->
  WGmp.wgds s' = WGmp.wgds s /\ WGmp.wgow s' = WGmp.wgow s /\
  WGmp.eventTriggered s' = false /\ WGmp.eventTrigMag s' = 0.0%Q /\
  exists p,
    setitem2 (WGmp.H0_REAL s) jJ WGHRR.PRE_IND (Finite p) = Ok (WGmp.H0_REAL s') /\
    match WGmp.h0State s, (WGmp.h0remdur s <=? 0)%Z with
    | WGI.WET_STATE, true =>
        WGmp.h0State s' = WGI.DRY_STATE /\
        WGDS.ST_DRYSPELL (WGmp.wgds s) !! curMonth = Some (WGmp.h0remdur s') /\
        p = 0.0%Q /\ WGmp.exev s' = WGmp.exev s
    | WGI.WET_STATE, false =>
        WGmp.h0State s' = WGI.WET_STATE /\
        WGmp.h0remdur s' = WGmp.h0remdur s /\
        if WGmp.any_event jJ (WGmp.EvTrigTimes s) WGmp.event_classes then
          p = WGmp.event_total jJ (WGmp.EvTrigTimes s) (WGmp.EvTrigMags s)
                WGmp.event_classes 0.0
        else
          WGDS.ST_PDEPTH (WGmp.wgds s) !! curMonth = Some p /\
          WGmp.exev s' = WGmp.exev s
    | WGI.DRY_STATE, true =>
        WGmp.h0State s' = WGI.WET_STATE /\
        WGDS.ST_WETSPELL (WGmp.wgds s) !! curMonth = Some (WGmp.h0remdur s') /\
        WGDS.ST_PDEPTH (WGmp.wgds s) !! curMonth = Some p /\
        WGmp.exev s' = WGmp.exev s /\
        WGmp.EvTrigTimes s' = WGmp.EvTrigTimes s /\
        WGmp.EvTrigMags s' = WGmp.EvTrigMags s
    | WGI.DRY_STATE, false =>
        WGmp.h0State s' = WGI.DRY_STATE /\
        WGmp.h0remdur s' = WGmp.h0remdur s /\
        p = 0.0%Q /\ WGmp.exev s' = WGmp.exev s
    end.
Proof.
  intros Htrig Hmag. unfold WGmp.check_state. intros Hrun.
  destruct (decide (WGmp.h0State s = WGI.WET_STATE)) as [Hwet|Hdry].
  - rewrite Hwet. destruct (WGmp.h0remdur s <=? 0)%Z.
    + bind_inv Hrun. apply getitem_Ok in Ha. bind_inv Hrun.
      injection Hrun as <-. simpl. repeat apply conj; auto.
      exists 0.0%Q. auto.
    + bind_inv Hrun. rename a into s1.
      destruct (check_events_spec _ _ _ _ _ Ha)
        as (I1 & I2 & I3 & I4 & I5 & I6 & I7 & I8 & I9 & I10).
      fold WGmp.event_classes in *. rewrite Htrig, orb_false_l in I8.
      rewrite Hmag in I9. bind_inv Hrun. destruct a as [pVal s2].
      bind_inv Hrun. injection Hrun as <-. simpl. rewrite I8 in Ha0.
      unfold WGHRR.assignWetDep in Ha1.
      destruct (WGmp.any_event jJ (WGmp.EvTrigTimes s) WGmp.event_classes).
      * bind_inv Ha0. bind_inv Ha0. injection Ha0 as <- <-. simpl in *.
        rewrite I3 in Ha1. repeat apply conj; try congruence.
        exists (WGmp.eventTrigMag s1). repeat apply conj; congruence.
      * rewrite (I10 eq_refl) in *. bind_inv Ha0. rename a0 into base.
        apply getitem_Ok in Ha2.
        injection Ha0 as <- <-. repeat apply conj; auto.
        exists base. auto.
  - assert (Hst : WGmp.h0State s = WGI.DRY_STATE)
      by (destruct (WGmp.h0State s); congruence).
    rewrite Hst. destruct (WGmp.h0remdur s <=? 0)%Z.
    + bind_inv Hrun. rename a into dur. apply getitem_Ok in Ha.
      bind_inv Hrun. rename a into base. apply getitem_Ok in Ha0.
      bind_inv Hrun. injection Hrun as <-. simpl.
      repeat apply conj; auto. exists base. auto 10.
    + bind_inv Hrun. injection Hrun as <-. simpl. repeat apply conj; auto.
      exists 0.0%Q. auto.
Qed.

Lemma sample_day_spec (curMonth : Z) (s s' : WGmp.state) :
  WGmp.sample_day curMonth s = Ok s' ->
  WGDS.sampleAll curMonth (WGmp.wgds s) = Ok (WGmp.wgds s') /\
  WGOW.updateTracker (WGmp.wgow s) = Ok (WGmp.wgow s') /\
  WGmp.exev s' = WGmp.exev s /\ WGmp.H0_REAL s' = WGmp.H0_REAL s /\
  WGmp.h0State s' = WGmp.h0State s /\ WGmp.h0remdur s' = WGmp.h0remdur s /\
  WGmp.EvTrigTimes s' = WGmp.EvTrigTimes s /\
  WGmp.EvTrigMags s' = WGmp.EvTrigMags s /\
  WGmp.eventTriggered s' = WGmp.eventTriggered s /\
  WGmp.eventTrigMag s' = WGmp.eventTrigMag s.
Proof.
  unfold WGmp.sample_day. intros Hrun. bind_inv Hrun. bind_inv Hrun.
  injection Hrun as <-. simpl. auto 12.
Qed.

(** Writing the temperatures of a day leaves every precipitation value of
    the buffer as it was. *)
Lemma calculateUpdate_keeps_precip (curIndex : nat) (DayOYear : Z)
    (st : WGI.wstate) (ow : WGOW.state) (H0 H0' : list (list npfloat)) (i : nat) :
  WGOW.calculateUpdate curIndex DayOYear st ow H0 = Ok H0' ->
  getitem2 H0' i WGHRR.PRE_IND = getitem2 H0 i WGHRR.PRE_IND.
Proof.
  unfold WGOW.calculateUpdate, WGHRR.assignTemp. intros Hrun.
  bind_inv Hrun. destruct a as [passMaxT passMinT]. bind_inv Hrun.
  rewrite (setitem2_get_ne _ _ _ _ i WGHRR.PRE_IND _ Hrun) by (right; discriminate).
  rewrite (setitem2_get_ne _ _ _ _ i WGHRR.PRE_IND _ Ha0) by (right; discriminate).
  reflexivity.
Qed.

Lemma finish_day_spec (jJ : nat) (curDayoYr : Z) (s s' : WGmp.state) :
  WGmp.finish_day jJ curDayoYr s = Ok s' ->
  WGOW.calculateUpdate jJ curDayoYr (WGmp.h0State s)
    (WGOW.calcCHI0 (WGmp.wgow s)) (WGmp.H0_REAL s) = Ok (WGmp.H0_REAL s') /\
  WGmp.wgds s' = WGmp.wgds s /\
  WGmp.wgow s' = WGOW.rollOverChis (WGOW.calcCHI0 (WGmp.wgow s)) /\
  WGmp.exev s' = WGmp.exev s /\
  WGmp.h0State s' = WGmp.h0State s /\
  WGmp.h0remdur s' = (WGmp.h0remdur s - 1)%Z /\
  WGmp.EvTrigTimes s' = WGmp.EvTrigTimes s /\
  WGmp.EvTrigMags s' = WGmp.EvTrigMags s /\
  WGmp.eventTriggered s' = WGmp.eventTriggered s /\
  WGmp.eventTrigMag s' = WGmp.eventTrigMag s.
Proof.
  unfold WGmp.finish_day. intros Hrun. bind_inv Hrun.
  injection Hrun as <-. simpl. auto 12.
Qed.

Lemma day_body_steps (TimesList : list datetime) (jJ : nat) (cTime : datetime)
    (s s' : WGmp.state) :
  TimesList !! jJ = Some cTime ->
  WGmp.day_body TimesList jJ s = Ok s' ->
  exists s1 s2,
    WGmp.sample_day (month cTime) s = Ok s1 /\
    WGmp.check_state cTime jJ (month cTime) s1 = Ok s2 /\
    WGmp.finish_day jJ (tm_yday cTime) s2 = Ok s'.
Proof.
  unfold WGmp.day_body. intros Ht Hrun. bind_inv Hrun.
  apply getindex_Ok in Ha. rewrite Ht in Ha. injection Ha as <-.
  bind_inv Hrun. bind_inv Hrun. eauto.
Qed.

(** What one iteration of the daily loop does to the weather state, the
    spell counter and the day's precipitation [p], case by case on the
    state and the counter the day starts with. *)
Lemma day_body_spec (TimesList : list datetime) (jJ : nat) (cTime : datetime)
    (s s' : WGmp.state) :
  WGmp.well_formed s ->
  TimesList !! jJ = Some cTime ->
  WGmp.day_body TimesList jJ s = Ok s' ->
  WGmp.well_formed s' /\
  WGDS.sampleAll (month cTime) (WGmp.wgds s) = Ok (WGmp.wgds s') /\
  exists p,
    WGmp.Precip_mm s' jJ = Ok (Finite p) /\
    match WGmp.h0State s, (WGmp.h0remdur s <=? 0)%Z with
    | WGI.WET_STATE, true =>
        WGmp.h0State s' = WGI.DRY_STATE /\
        (exists L, WGDS.ST_DRYSPELL (WGmp.wgds s') !! month cTime = Some L /\
                   WGmp.h0remdur s' = (L - 1)%Z) /\
        p = 0.0%Q /\ WGmp.exev s' = WGmp.exev s
    | WGI.WET_STATE, false =>
        WGmp.h0State s' = WGI.WET_STATE /\
        WGmp.h0remdur s' = (WGmp.h0remdur s - 1)%Z /\
        if WGmp.any_event jJ (WGmp.EvTrigTimes s) WGmp.event_classes then
          p = WGmp.event_total jJ (WGmp.EvTrigTimes s) (WGmp.EvTrigMags s)
                WGmp.event_classes 0.0
        else
          WGDS.ST_PDEPTH (WGmp.wgds s') !! month cTime = Some p /\
          WGmp.exev s' = WGmp.exev s
    | WGI.DRY_STATE, true =>
        WGmp.h0State s' = WGI.WET_STATE /\
        (exists L, WGDS.ST_WETSPELL (WGmp.wgds s') !! month cTime = Some L /\
                   WGmp.h0remdur s' = (L - 1)%Z) /\
        WGDS.ST_PDEPTH (WGmp.wgds s') !! month cTime = Some p /\
        WGmp.exev s' = WGmp.exev s /\
        WGmp.EvTrigTimes s' = WGmp.EvTrigTimes s /\
        WGmp.EvTrigMags s' = WGmp.EvTrigMags s
    | WGI.DRY_STATE, false =>
        WGmp.h0State s' = WGI.DRY_STATE /\
        WGmp.h0remdur s' = (WGmp.h0remdur s - 1)%Z /\
        p = 0.0%Q /\ WGmp.exev s' = WGmp.exev s
    end.
Proof.
  intros [W1 W2 W3 W4] Ht Hrun.
  destruct (day_body_steps _ _ _ _ _ Ht Hrun) as (s1 & s2 & Hs1 & Hs2 & Hs3).
  destruct (sample_day_spec _ _ _ Hs1)
    as (A1 & A2 & A3 & A4 & A5 & A6 & A7 & A8 & A9 & A10).
  destruct (check_state_spec _ _ _ _ _ (eq_trans A9 W1) (eq_trans A10 W2) Hs2)
    as (B1 & B2 & B3 & B4 & p & Bp & Bcase).
  destruct (finish_day_spec _ _ _ _ Hs3)
    as (C0 & C1 & C2 & C3 & C4 & C5 & C6 & C7 & C8 & C9).
  destruct (sampleAll_tracked _ _ _ A1 W3 W4) as [D1 D2].
  assert (Ew : WGmp.wgds s1 = WGmp.wgds s') by congruence.
  rewrite A5, A6, A7, A8, A3, Ew in Bcase.
  repeat apply conj.
  - constructor; congruence.
  - congruence.
  - exists p. split.
    + unfold WGmp.Precip_mm. rewrite (calculateUpdate_keeps_precip _ _ _ _ _ _ jJ C0).
      exact (setitem2_get_eq _ _ _ _ _ Bp).
    + rewrite C3, C4, C5, C6, C7.
      destruct (WGmp.h0State s), (WGmp.h0remdur s <=? 0)%Z.
      * destruct Bcase as (E1 & E2 & E3 & E4). repeat apply conj; eauto.
      * destruct Bcase as (E1 & E2 & E3). repeat apply conj; auto; try congruence.
      * destruct Bcase as (E1 & E2 & E3 & E4 & E5 & E6).
        repeat apply conj; eauto.
      * destruct Bcase as (E1 & E2 & E3 & E4). repeat apply conj; auto; congruence.
Qed.

(** ** Days of a realization *)

Lemma setup_well_formed (TimesList : list datetime) (s0 : WGmp.state) :
  WGmp.realization_begins TimesList s0 -> WGmp.well_formed s0.
Proof.
  intros (start_date & end_date & RealNum & SNSeed & PDSeed & WSLSeed & DSLSeed
          & EVRecurSeed & EVMagSeed & m & TOTAL_DAYS & _ & Hrun).
  unfold WGmp.setup in Hrun.
  bind_inv Hrun. rename a into ow.
  bind_inv Hrun. rename a into ds0.
  bind_inv Hrun. rename a into ds.
  bind_inv Hrun. rename a into ow'.
  bind_inv Hrun. rename a into ev0.
  bind_inv Hrun. rename a into ev.
  apply setDistributions_configured in Ha0.
  destruct (setTrackers_tracked _ _ _ Ha1 Ha0) as [Hc Ht].
  destruct (WGPD.getSingleVal _) as [TestVal StarterSamp].
  bind_inv Hrun. destruct a as [st dur].
  bind_inv Hrun. bind_inv Hrun.
  destruct (_ <? 0)%Z; [discriminate|].
  injection Hrun as _ _ <-. constructor; simpl; auto.
Qed.

Lemma daily_loop_S (TimesList : list datetime) (n : nat) (s0 : WGmp.state) :
  WGmp.daily_loop TimesList (S n) s0
    = WGmp.daily_loop TimesList n s0 ≫= WGmp.day_body TimesList n.
Proof.
  unfold WGmp.daily_loop. rewrite seq_S, for_each_app. simpl.
  destruct (for_each _ _ _) as [s|e]; simpl; [|reflexivity].
  destruct (WGmp.day_body TimesList n s); reflexivity.
Qed.

Lemma day_body_date (TimesList : list datetime) (jJ : nat) (s s' : WGmp.state) :
  WGmp.day_body TimesList jJ s = Ok s' -> exists cTime, TimesList !! jJ = Some cTime.
Proof.
  unfold WGmp.day_body. intros Hrun. bind_inv Hrun. apply getindex_Ok in Ha. eauto.
Qed.

(** Every day of a realization begins in a well-formed state. *)
Lemma daily_loop_well_formed (TimesList : list datetime) (n : nat)
    (s0 s : WGmp.state) :
  WGmp.well_formed s0 -> WGmp.daily_loop TimesList n s0 = Ok s ->
  WGmp.well_formed s.
Proof.
  intros Hwf. revert s. induction n as [|n IH]; intros s Hrun.
  - injection Hrun as <-. exact Hwf.
  - rewrite daily_loop_S in Hrun. bind_inv Hrun.
    destruct (day_body_date _ _ _ _ Hrun) as [cTime Ht].
    destruct (day_body_spec _ _ _ _ _ (IH a Ha) Ht Hrun) as [Hw _]. exact Hw.
Qed.

(** A day toggles the weather state exactly when it finds the spell
    counter exhausted; otherwise the counter goes down by one. *)
Lemma day_body_toggle (TimesList : list datetime) (jJ : nat) (s s' : WGmp.state) :
  WGmp.well_formed s ->
  WGmp.day_body TimesList jJ s = Ok s' ->
  ((WGmp.h0remdur s <= 0)%Z -> WGmp.h0State s' <> WGmp.h0State s) /\
  ((0 < WGmp.h0remdur s)%Z ->
     WGmp.h0State s' = WGmp.h0State s /\
     WGmp.h0remdur s' = (WGmp.h0remdur s - 1)%Z).
Proof.
  intros Hwf Hrun. destruct (day_body_date _ _ _ _ Hrun) as [cTime Ht].
  destruct (day_body_spec _ _ _ _ _ Hwf Ht Hrun) as (_ & _ & p & _ & Hcase).
  destruct (Z.leb_spec (WGmp.h0remdur s) 0), (WGmp.h0State s);
    split; intros Hdur; try lia;
    decompose [and] Hcase; try split; congruence.
Qed.

Lemma setitem2_other_row {V : Type} (arr arr' : list (list V)) (i j i' : nat) (v : V) :
  setitem2 arr i j v = Ok arr' -> i' <> i -> arr' !! i' = arr !! i'.
Proof.
  intros (row & Hrow & Hj & ->)%setitem2_Ok Hne.
  apply list_lookup_insert_ne. congruence.
Qed.

(** A day writes to its own row of the output buffer only. *)
Lemma day_body_other_rows (TimesList : list datetime) (jJ i : nat)
    (s s' : WGmp.state) :
  WGmp.well_formed s -> WGmp.day_body TimesList jJ s = Ok s' -> i <> jJ ->
  WGmp.H0_REAL s' !! i = WGmp.H0_REAL s !! i.
Proof.
  intros [W1 W2 W3 W4] Hrun Hne.
  destruct (day_body_date _ _ _ _ Hrun) as [cTime Ht].
  destruct (day_body_steps _ _ _ _ _ Ht Hrun) as (s1 & s2 & Hs1 & Hs2 & Hs3).
  destruct (sample_day_spec _ _ _ Hs1)
    as (A1 & A2 & A3 & A4 & A5 & A6 & A7 & A8 & A9 & A10).
  destruct (check_state_spec _ _ _ _ _ (eq_trans A9 W1) (eq_trans A10 W2) Hs2)
    as (B1 & B2 & B3 & B4 & p & Bp & Bcase).
  destruct (finish_day_spec _ _ _ _ Hs3) as (C0 & _).
  unfold WGOW.calculateUpdate, WGHRR.assignTemp in C0.
  bind_inv C0. destruct a as [passMaxT passMinT]. bind_inv C0.
  rewrite (setitem2_other_row _ _ _ _ _ _ C0 Hne).
  rewrite (setitem2_other_row _ _ _ _ _ _ Ha0 Hne).
  rewrite (setitem2_other_row _ _ _ _ _ _ Bp Hne). congruence.
Qed.

(** Once a day is over, its row stays as it is to the end of the loop. *)
Lemma daily_loop_keeps_row (TimesList : list datetime) (t n : nat)
    (s0 st' sn : WGmp.state) :
  WGmp.well_formed s0 ->
  WGmp.daily_loop TimesList (S t) s0 = Ok st' ->
  (t < n)%nat -> WGmp.daily_loop TimesList n s0 = Ok sn ->
  WGmp.H0_REAL sn !! t = WGmp.H0_REAL st' !! t.
Proof.
  intros Hwf Hst' Hlt. revert sn. induction Hlt as [|n Hle IH]; intros sn Hrun.
  - congruence.
  - rewrite daily_loop_S in Hrun. bind_inv Hrun.
    rewrite <- (IH a Ha).
    eapply day_body_other_rows; eauto; [|lia].
    eapply daily_loop_well_formed; eauto.
Qed.

Lemma getitem2_row {V : Type} (arr arr' : list (list V)) (i j : nat) :
  arr' !! i = arr !! i -> getitem2 arr' i j = getitem2 arr i j.
Proof. unfold getitem2, getindex. intros ->. reflexivity. Qed.

(** ** Precipitation of a day *)

(** C1, amended.  Every day of a realization returns, and: when the day's
    weather state is DRY the recorded precipitation is exactly 0; when it is WET
    and the day went through the event check (it began WET with spell days
    left) with at least one class due, the recorded precipitation is the
    sum of the magnitudes of the classes that fired, without the base
    depth; on every other WET day it is the base depth sampled for the
    day's month.  The record is final: no later day changes it. *)
Theorem day_precipitation (TimesList : list datetime) (s0 : WGmp.state)
    (t : nat) (cTime : datetime) (st : WGmp.state) :
  WGmp.realization_begins TimesList s0 ->
  WGmp.daily_loop TimesList t s0 = Ok st ->
  TimesList !! t = Some cTime ->
  exists st', WGmp.day_body TimesList t st = Ok st' /\
  let fired :=
    bool_decide (WGmp.h0State st = WGI.WET_STATE)
    && negb (WGmp.h0remdur st <=? 0)%Z
    && WGmp.any_event t (WGmp.EvTrigTimes st) WGmp.event_classes in
  (WGmp.h0State st' = WGI.DRY_STATE ->
     WGmp.Precip_mm st' t = Ok (Finite 0.0)) /\
  (WGmp.h0State st' = WGI.WET_STATE ->
     if fired then
       WGmp.Precip_mm st' t
         = Ok (Finite (WGmp.event_total t (WGmp.EvTrigTimes st)
                         (WGmp.EvTrigMags st) WGmp.event_classes 0.0))
     else
       exists base,
         WGDS.ST_PDEPTH (WGmp.wgds st') !! month cTime = Some base /\
         WGmp.Precip_mm st' t = Ok (Finite base)) /\
  (forall n sn, (t < n)%nat -> WGmp.daily_loop TimesList n s0 = Ok sn ->
     WGmp.Precip_mm sn t = WGmp.Precip_mm st' t).
Proof.
  intros Hbegin Hst Ht.
  destruct (day_returns _ _ _ _ _ Hbegin Hst Ht) as [st' Hday].
  exists st'. split; [exact Hday|]. intros fired.
  pose proof (setup_well_formed _ _ Hbegin) as Hwf0.
  pose proof (daily_loop_well_formed _ _ _ _ Hwf0 Hst) as Hwf.
  destruct (day_body_spec _ _ _ _ _ Hwf Ht Hday) as (_ & _ & p & Hp & Hcase).
  repeat apply conj.
  - intros Hdry. rewrite Hp. subst fired.
    destruct (WGmp.h0State st), (WGmp.h0remdur st <=? 0)%Z;
      decompose [and] Hcase; try congruence.
  - intros Hwet. subst fired.
    destruct (WGmp.h0State st), (WGmp.h0remdur st <=? 0)%Z; simpl;
      try (decompose [and] Hcase; congruence).
    + destruct Hcase as (_ & _ & Hev).
      destruct (WGmp.any_event t (WGmp.EvTrigTimes st) WGmp.event_classes).
      * congruence.
      * destruct Hev as [Hbase _]. eauto.
    + destruct Hcase as (_ & _ & Hbase & _). eauto.
  - intros n sn Hlt Hsn. unfold WGmp.Precip_mm. apply getitem2_row.
    assert (Hst' : WGmp.daily_loop TimesList (S t) s0 = Ok st')
      by (rewrite daily_loop_S, Hst; exact Hday).
    exact (daily_loop_keeps_row _ _ _ _ _ _ Hwf0 Hst' Hlt Hsn).
Qed.

(** C3.  A day of a realization that begins DRY with no spell days
    left returns, and on it the state becomes WET, the spell counter is set to the wet
    spell length sampled that day for the day's month (and counted down
    by one when the day ends), and the recorded precipitation is the
    depth sampled that day for the day's month, which is at least the
    wet/dry threshold and so never zero.  The event module and the
    trigger lists are left as they were: no class is checked, fired or
    re-armed. *)
Theorem dry_spell_end_day (TimesList : list datetime) (s0 : WGmp.state)
    (t : nat) (cTime : datetime) (st : WGmp.state) :
  WGmp.realization_begins TimesList s0 ->
  WGmp.daily_loop TimesList t s0 = Ok st ->
  TimesList !! t = Some cTime ->
  WGmp.h0State st = WGI.DRY_STATE ->
  (WGmp.h0remdur st <= 0)%Z ->
  exists (st' s1 s2 : WGmp.state) (L : Z) (base : Q),
    WGmp.day_body TimesList t st = Ok st' /\
    WGmp.sample_day (month cTime) st = Ok s1 /\
    WGDS.ST_WETSPELL (WGmp.wgds s1) !! month cTime = Some L /\
    WGDS.ST_PDEPTH (WGmp.wgds s1) !! month cTime = Some base /\
    WGmp.check_state cTime t (month cTime) s1 = Ok s2 /\
    WGmp.h0State s2 = WGI.WET_STATE /\ WGmp.h0remdur s2 = L /\
    WGmp.h0State st' = WGI.WET_STATE /\ WGmp.h0remdur st' = (L - 1)%Z /\
    WGmp.Precip_mm st' t = Ok (Finite base) /\
    (WGPD.WD_THRESH <= base)%Q /\ ~ (base == 0)%Q /\
    WGmp.exev st' = WGmp.exev st /\
    WGmp.EvTrigTimes st' = WGmp.EvTrigTimes st /\
    WGmp.EvTrigMags st' = WGmp.EvTrigMags st /\
    WGmp.eventTriggered st' = false.
Proof.
  intros Hbegin Hst Ht Hdry Hdur.
  destruct (day_returns _ _ _ _ _ Hbegin Hst Ht) as [st' Hday].
  exists st'.
  cut (exists (s1 s2 : WGmp.state) (L : Z) (base : Q),
    WGmp.sample_day (month cTime) st = Ok s1 /\
    WGDS.ST_WETSPELL (WGmp.wgds s1) !! month cTime = Some L /\
    WGDS.ST_PDEPTH (WGmp.wgds s1) !! month cTime = Some base /\
    WGmp.check_state cTime t (month cTime) s1 = Ok s2 /\
    WGmp.h0State s2 = WGI.WET_STATE /\ WGmp.h0remdur s2 = L /\
    WGmp.h0State st' = WGI.WET_STATE /\ WGmp.h0remdur st' = (L - 1)%Z /\
    WGmp.Precip_mm st' t = Ok (Finite base) /\
    (WGPD.WD_THRESH <= base)%Q /\ ~ (base == 0)%Q /\
    WGmp.exev st' = WGmp.exev st /\
    WGmp.EvTrigTimes st' = WGmp.EvTrigTimes st /\
    WGmp.EvTrigMags st' = WGmp.EvTrigMags st /\
    WGmp.eventTriggered st' = false).
  { intros (s1 & s2 & L & base & Hrest). exists s1, s2, L, base.
    split; [exact Hday|exact Hrest]. }
  pose proof (setup_well_formed _ _ Hbegin) as Hwf0.
  destruct (daily_loop_well_formed _ _ _ _ Hwf0 Hst) as [W1 W2 W3 W4].
  destruct (day_body_steps _ _ _ _ _ Ht Hday) as (s1 & s2 & Hs1 & Hs2 & Hs3).
  destruct (sample_day_spec _ _ _ Hs1)
    as (A1 & A2 & A3 & A4 & A5 & A6 & A7 & A8 & A9 & A10).
  destruct (check_state_spec _ _ _ _ _ (eq_trans A9 W1) (eq_trans A10 W2) Hs2)
    as (B1 & B2 & B3 & B4 & p & Bp & Bcase).
  destruct (finish_day_spec _ _ _ _ Hs3)
    as (C0 & C1 & C2 & C3 & C4 & C5 & C6 & C7 & C8 & C9).
  destruct (sampleAll_tracked _ _ _ A1 W3 W4) as [_ [_ _ Tdepth]].
  rewrite A5, A6, Hdry in Bcase.
  destruct (Z.leb_spec (WGmp.h0remdur st) 0) as [_|Hpos]; [|lia].
  destruct Bcase as (E1 & E2 & E3 & E4 & E5 & E6).
  pose proof (Tdepth _ _ E3) as Hbase.
  exists s1, s2, (WGmp.h0remdur s2), p. repeat apply conj; auto; try congruence.
  - unfold WGmp.Precip_mm.
    rewrite (calculateUpdate_keeps_precip _ _ _ _ _ _ t C0).
    exact (setitem2_get_eq _ _ _ _ _ Bp).
  - intros Hzero. rewrite Hzero in Hbase. unfold WGPD.WD_THRESH in Hbase.
    revert Hbase. apply Qlt_not_le. reflexivity.
Qed.

(** ** Spell lengths *)

(** After a spell of length [L] has begun on day [t], the state stays and
    the counter runs down day by day. *)
Lemma spell_countdown (TimesList : list datetime) (s0 st' : WGmp.state)
    (t : nat) (L : Z) :
  WGmp.well_formed s0 ->
  WGmp.daily_loop TimesList (S t) s0 = Ok st' ->
  WGmp.h0remdur st' = (L - 1)%Z ->
  forall k sk, (1 <= k)%nat -> (Z.of_nat k <= L)%Z ->
    WGmp.daily_loop TimesList (t + k) s0 = Ok sk ->
    WGmp.h0State sk = WGmp.h0State st' /\
    WGmp.h0remdur sk = (L - Z.of_nat k)%Z.
Proof.
  intros Hwf Hst' Hdur. induction k as [|k IH]; intros sk Hk HkL Hsk; [lia|].
  destruct (decide (k = 0%nat)) as [->|Hk0].
  - rewrite Nat.add_1_r, Hst' in Hsk. injection Hsk as <-. split; [reflexivity|lia].
  - rewrite Nat.add_succ_r, daily_loop_S in Hsk. bind_inv Hsk.
    destruct (IH a ltac:(lia) ltac:(lia) Ha) as [IHst IHdur].
    pose proof (daily_loop_well_formed _ _ _ _ Hwf Ha) as Hwfa.
    destruct (day_body_toggle _ _ _ _ Hwfa Hsk) as [_ Hstay].
    destruct Hstay as [E1 E2]; [lia|]. split; [congruence|lia].
Qed.

(** C4.  When day [t] of a realization toggles the weather state, the
    spell length [L] the bank tracks that day for the state entered and
    the day's month is one day or more, and the new state then lasts
    exactly [L] days: it holds on day [t], no toggle happens on the days
    [t + 1] to [t + L - 1], and day [t + L] toggles again. *)
Theorem spell_length_exact (TimesList : list datetime) (s0 : WGmp.state)
    (t : nat) (st st' : WGmp.state) :
  WGmp.realization_begins TimesList s0 ->
  WGmp.daily_loop TimesList t s0 = Ok st ->
  WGmp.day_body TimesList t st = Ok st' ->
  WGmp.h0State st' <> WGmp.h0State st ->
  exists (cTime : datetime) (L : Z),
    TimesList !! t = Some cTime /\
    WGmp.tracked_spell (WGmp.h0State st') (WGmp.wgds st') (month cTime) = Some L /\
    (1 <= L)%Z /\
    WGmp.h0remdur st' = (L - 1)%Z /\
    (forall k sk sk', (1 <= k)%nat -> (Z.of_nat k < L)%Z ->
       WGmp.daily_loop TimesList (t + k) s0 = Ok sk ->
       WGmp.day_body TimesList (t + k) sk = Ok sk' ->
       WGmp.h0State sk = WGmp.h0State st' /\
       WGmp.h0State sk' = WGmp.h0State st') /\
    (forall sL sL',
       WGmp.daily_loop TimesList (t + Z.to_nat L) s0 = Ok sL ->
       WGmp.day_body TimesList (t + Z.to_nat L) sL = Ok sL' ->
       WGmp.h0State sL = WGmp.h0State st' /\
       WGmp.h0State sL' <> WGmp.h0State st').
Proof.
  intros Hbegin Hst Hday Htoggle.
  pose proof (setup_well_formed _ _ Hbegin) as Hwf0.
  pose proof (daily_loop_well_formed _ _ _ _ Hwf0 Hst) as Hwf.
  destruct (day_body_date _ _ _ _ Hday) as [cTime Ht].
  destruct (day_body_spec _ _ _ _ _ Hwf Ht Hday) as ([_ _ _ Htr] & _ & p & _ & Hcase).
  destruct (day_body_toggle _ _ _ _ Hwf Hday) as [_ Hstay].
  assert (Hst' : WGmp.daily_loop TimesList (S t) s0 = Ok st')
    by (rewrite daily_loop_S, Hst; exact Hday).
  assert (HL : exists L,
             WGmp.tracked_spell (WGmp.h0State st') (WGmp.wgds st') (month cTime)
               = Some L /\ (1 <= L)%Z /\ WGmp.h0remdur st' = (L - 1)%Z).
  { destruct (Z.leb_spec (WGmp.h0remdur st) 0) as [_|Hpos].
    - destruct Htr as [Tdry Twet _]. destruct (WGmp.h0State st).
      + destruct Hcase as (E1 & (L & E2 & E3) & _). rewrite E1. simpl. eauto.
      + destruct Hcase as (E1 & (L & E2 & E3) & _). rewrite E1. simpl. eauto.
    - exfalso. apply Htoggle. apply Hstay. exact Hpos. }
  destruct HL as (L & HL1 & HL2 & HL3).
  exists cTime, L. repeat apply conj; auto.
  - intros k sk sk' Hk HkL Hsk Hsk'.
    destruct (spell_countdown _ _ _ _ _ Hwf0 Hst' HL3 k sk Hk ltac:(lia) Hsk)
      as [E1 E2].
    pose proof (daily_loop_well_formed _ _ _ _ Hwf0 Hsk) as Hwfk.
    destruct (day_body_toggle _ _ _ _ Hwfk Hsk') as [_ Hk'].
    destruct Hk' as [E3 _]; [lia|]. split; congruence.
  - intros sL sL' HsL HsL'.
    destruct (spell_countdown _ _ _ _ _ Hwf0 Hst' HL3 (Z.to_nat L) sL
                ltac:(lia) ltac:(lia) HsL) as [E1 E2].
    pose proof (daily_loop_well_formed _ _ _ _ Hwf0 HsL) as HwfL.
    destruct (day_body_toggle _ _ _ _ HwfL HsL') as [HL' _].
    split; [exact E1|]. rewrite <- E1. apply HL'. lia.
Qed.

(** ** Temperatures of a day *)



(** C7.  The minimum daily difference is lost in rounding.  On a wet day
    whose converted pair is 18.0 and 14.3 degrees the difference is below
    [MIN_DAILY_DELTA], so the maximum becomes the binary64 sum of 14.3 and
    4.0; stored in the binary32 buffer the pair reads 18.299999237060546875
    and 14.30000019073486328125.  The recorded difference is below
    [MIN_DAILY_DELTA] (4.0), and the recorded minimum is not the converted
    minimum. *)
Theorem calculateUpdate_records_below_delta :
  exists (umax umin tmax tmin : Q) (H0_REAL : list (list npfloat)),
    literal 18.0 = Finite umax /\ literal 14.3 = Finite umin /\
    WGOW.converted_pair 1 WGI.WET_STATE mild_weather
      = Ok (Finite umax, Finite umin) /\
    (umax - umin < WGOW.MIN_DAILY_DELTA)%Q /\
    WGOW.calculateUpdate 0 1 WGI.WET_STATE mild_weather
      (WGHRR.createSimStructures 1) = Ok H0_REAL /\
    getitem2 H0_REAL 0 WGHRR.TMAX_IND = Ok (Finite tmax) /\
    getitem2 H0_REAL 0 WGHRR.TMIN_IND = Ok (Finite tmin) /\
    (tmax == 18.299999237060546875)%Q /\
    (tmin == 14.30000019073486328125)%Q /\
    (tmax - tmin < WGOW.MIN_DAILY_DELTA)%Q /\
    (WGOW.MIN_DAILY_DELTA == 4)%Q /\
    ~ (tmin == umin)%Q.
Proof.
  eexists _, _, _, _, _.
  split; [vm_compute; reflexivity|].
  split; [vm_compute; reflexivity|].
  split; [vm_compute; reflexivity|].
  split; [vm_compute; reflexivity|].
  split; [vm_compute; reflexivity|].
  split; [vm_compute; reflexivity|].
  split; [vm_compute; reflexivity|].
  split; [vm_compute; reflexivity|].
  split; [vm_compute; reflexivity|].
  split; [vm_compute; reflexivity|].
  split; [vm_compute; reflexivity|].
  vm_compute. discriminate.
Qed.

(** ** Sampling every month every day *)

Lemma check_event_with_wgds (cTime : datetime) (jJ eE : nat) (s : WGmp.state)
    (ds : WGDS.state) :
  WGmp.check_event cTime jJ eE (WGmp.with_wgds s ds)
    = (fun r => WGmp.with_wgds r ds) <$> WGmp.check_event cTime jJ eE s.
Proof.
  unfold WGmp.check_event. simpl.
  destruct (getindex (WGmp.EvTrigTimes s) eE) as [trig|e]; [|reflexivity]. simpl.
  destruct (Qltb trig _); [|reflexivity].
  destruct (getindex (WGmp.EvTrigMags s) eE) as [mag|e]; [|reflexivity]. simpl.
  destruct (EXEV.updateTriggeredEvent _ _ _ _); reflexivity.
Qed.

Lemma check_events_with_wgds (cTime : datetime) (jJ : nat) (classes : list nat)
    (s : WGmp.state) (ds : WGDS.state) :
  for_each classes (WGmp.check_event cTime jJ) (WGmp.with_wgds s ds)
    = (fun r => WGmp.with_wgds r ds)
        <$> for_each classes (WGmp.check_event cTime jJ) s.
Proof.
  revert s. induction classes as [|eE classes IH]; intros s; [reflexivity|].
  simpl. rewrite check_event_with_wgds.
  destruct (WGmp.check_event cTime jJ eE s) as [s1|e]; [|reflexivity].
  simpl. apply IH.
Qed.

(** The spell bookkeeping reads the bank at the current month only. *)
Lemma check_state_with_wgds (cTime : datetime) (jJ : nat) (curMonth : Z)
    (s : WGmp.state) (ds : WGDS.state) :
  WGmp.same_tracked curMonth (WGmp.wgds s) ds ->
  WGmp.check_state cTime jJ curMonth (WGmp.with_wgds s ds)
    = (fun r => WGmp.with_wgds r ds) <$> WGmp.check_state cTime jJ curMonth s.
Proof.
  intros (Edry & Ewet & Edepth). unfold WGmp.check_state, getitem.
  change (seq 0 (length WGI.EVENT_KEYS)) with WGmp.event_classes.
  state_red.
  destruct (decide (WGmp.h0State s = WGI.WET_STATE)) as [Hwet|Hdry].
  - destruct (WGmp.h0remdur s <=? 0)%Z.
    + rewrite <- Edry. destruct (WGDS.ST_DRYSPELL (WGmp.wgds s) !! curMonth);
        [|reflexivity]. state_red.
      destruct (WGHRR.assignDryDep jJ (WGmp.H0_REAL s)); reflexivity.
    + rewrite check_events_with_wgds.
      destruct (for_each _ _ s) as [s1|err] eqn:Hloop; [|reflexivity]. state_red.
      destruct (WGmp.eventTriggered s1).
      * destruct (WGmp.next_times (WGmp.exev s1)); [|reflexivity]. state_red.
        destruct (WGmp.next_mags (WGmp.exev s1)); [|reflexivity]. state_red.
        destruct (WGHRR.assignWetDep _ _ _); reflexivity.
      * destruct (check_events_spec _ _ _ _ _ Hloop) as (I1 & _).
        rewrite I1, <- Edepth.
        destruct (WGDS.ST_PDEPTH (WGmp.wgds s) !! curMonth); [|reflexivity].
        state_red. destruct (WGHRR.assignWetDep _ _ _); reflexivity.
  - destruct (WGmp.h0remdur s <=? 0)%Z.
    + rewrite <- Ewet, <- Edepth.
      destruct (WGDS.ST_WETSPELL (WGmp.wgds s) !! curMonth); [|reflexivity].
      state_red. destruct (WGDS.ST_PDEPTH (WGmp.wgds s) !! curMonth); [|reflexivity].
      state_red. destruct (WGHRR.assignWetDep _ _ _); reflexivity.
    + destruct (WGHRR.assignDryDep jJ (WGmp.H0_REAL s)); reflexivity.
Qed.

Lemma finish_day_with_wgds (jJ : nat) (curDayoYr : Z) (s : WGmp.state)
    (ds : WGDS.state) :
  WGmp.finish_day jJ curDayoYr (WGmp.with_wgds s ds)
    = (fun r => WGmp.with_wgds r ds) <$> WGmp.finish_day jJ curDayoYr s.
Proof.
  unfold WGmp.finish_day. simpl.
  destruct (WGOW.calculateUpdate _ _ _ _ _); reflexivity.
Qed.

(** Once the day's values are sampled, the rest of the iteration reads
    the bank at the current month only: with any other bank that tracks
    the same values for that month the day ends in the same state. *)
Lemma rest_of_day_with_wgds (cTime : datetime) (jJ : nat) (s s' : WGmp.state)
    (ds : WGDS.state) :
  WGmp.same_tracked (month cTime) (WGmp.wgds s) ds ->
  WGmp.rest_of_day cTime jJ s = Ok s' ->
  WGmp.rest_of_day cTime jJ (WGmp.with_wgds s ds) = Ok (WGmp.with_wgds s' ds).
Proof.
  unfold WGmp.rest_of_day. intros Hsame Hrun. bind_inv Hrun.
  rewrite (check_state_with_wgds _ _ _ _ _ Hsame), Ha. simpl.
  rewrite finish_day_with_wgds, Hrun. reflexivity.
Qed.

(** C8.  Every day of a realization returns and, whatever the weather
    state and the month, its sampling step draws exactly once from each of the
    twelve dry-spell, the twelve wet-spell and the twelve depth
    distributions, and every one of the thirty-six streams ends the day
    one variate further; the rest of the day only reads the values
    tracked for the day's month: with the values of all other months
    replaced the day ends in the same state. *)
Theorem draw_every_day (TimesList : list datetime) (s0 : WGmp.state)
    (t : nat) (cTime : datetime) (st : WGmp.state) :
  WGmp.realization_begins TimesList s0 ->
  WGmp.daily_loop TimesList t s0 = Ok st ->
  TimesList !! t = Some cTime ->
  exists st', WGmp.day_body TimesList t st = Ok st' /\
  (forall jJ, (1 <= jJ <= 12)%Z ->
     WGDS.one_spell_draw jJ (WGmp.wgds st) (WGmp.wgds st') /\
     WGDS.one_depth_draw (month cTime) jJ (WGmp.wgds st) (WGmp.wgds st') /\
     (forall rstate, WGDS.DP_DEPTH_SAMP (WGmp.wgds st) !! jJ = Some rstate ->
        WGDS.DP_DEPTH_SAMP (WGmp.wgds st') !! jJ = Some (advance rstate))) /\
  exists s1,
    WGmp.sample_day (month cTime) st = Ok s1 /\
    WGmp.rest_of_day cTime t s1 = Ok st' /\
    forall ds, WGmp.same_tracked (month cTime) (WGmp.wgds s1) ds ->
      WGmp.rest_of_day cTime t (WGmp.with_wgds s1 ds)
        = Ok (WGmp.with_wgds st' ds).
Proof.
  intros Hbegin Hst Ht.
  destruct (day_returns _ _ _ _ _ Hbegin Hst Ht) as [st' Hday].
  exists st'. split; [exact Hday|].
  pose proof (setup_well_formed _ _ Hbegin) as Hwf0.
  destruct (daily_loop_well_formed _ _ _ _ Hwf0 Hst) as [_ _ [_ _ Hscale] _].
  destruct (day_body_steps _ _ _ _ _ Ht Hday) as (s1 & s2 & Hs1 & Hs2 & Hs3).
  assert (Hrest : WGmp.rest_of_day cTime t s1 = Ok st')
    by (unfold WGmp.rest_of_day; rewrite Hs2; exact Hs3).
  destruct (day_body_spec _ _ _ _ _ (daily_loop_well_formed _ _ _ _ Hwf0 Hst) Ht Hday)
    as (_ & Hsample & _).
  destruct (sampleAll_spec _ _ _ Hsample) as (_ & _ & _ & Hdraws).
  split.
  - intros jJ HjJ. destruct (Hdraws jJ (proj2 (MonthInts_elem jJ) HjJ)) as [Hsp Hdp].
    repeat apply conj; auto.
    intros rstate Hrs.
    destruct Hdp as (pd & prs & pv & prs' & G1 & G2 & G3 & G4).
    rewrite G2 in Hrs. injection Hrs as <-.
    destruct (Gamma2PCont_ranval1_spec _ _ _ _ _ _ _ G3) as (_ & _ & Hadv).
    rewrite <- (Hadv (Hscale _ _ G1)).
    unfold WGDS.depth_entry in G4. congruence.
  - exists s1. repeat apply conj; auto.
    intros ds Hsame. apply rest_of_day_with_wgds; assumption.
Qed.

End DailyLoop.

(** * Further properties of the modules *)

(** ** Spell-length distributions *)




(** ** Array draws *)











(** ** Extreme events *)









(** ** Rows of the output buffer *)


(** ** The temperature residuals *)

Section Residuals.
Context {variates : Variates} {climatology : WGI.Climatology}.












End Residuals.

(** ** The sampler bank, month by month *)











(** ** Realizations *)

Section Realizations.
Context {variates : Variates} {climatology : WGI.Climatology}.










End Realizations.

(** ** The event log *)

Section EventLog.
Context {variates : Variates} {climatology : WGI.Climatology}.







End EventLog.

(** ** Realizations that share a process *)

Section SharedProcess.
Context {variates : Variates} {climatology : WGI.Climatology}.




















End SharedProcess.

(** * Runs on concrete inputs *)

Lemma Gamma2PCont_ranval1_clamped_witness :
  returns (@WGPD.ranval1 demo_variates demo_gamma (RandomState_new 21343) 1
             WGI.MON_MAX_PP WGPD.WD_THRESH) /\
  exists x cap,
    @WGPD.gengamma_rvs demo_variates demo_gamma (RandomState_new 21343)
      = Ok (x, advance (RandomState_new 21343)) /\
    WGI.MON_MAX_PP !! 1%Z = Some cap /\
    (WGPD.WD_THRESH <= 23.5)%Q /\ (23.5 <= cap)%Q /\
    ((x < WGPD.WD_THRESH)%Q -> 23.5%Q = WGPD.WD_THRESH) /\
    ((cap < x)%Q -> 23.5%Q = cap).
Proof.
  destruct (@Gamma2PCont_ranval1_clamped demo_variates demo_gamma
              (RandomState_new 21343) 1) as [Hret Hclamp].
  split.
  - apply (Hret (PyFloat 0.7837115409758860) (PyFloat 1.347633111170500)
             0.255%Q 5.610609853852632%Q "Precip depth, Month 1"%string).
    + reflexivity.
    + vm_compute. discriminate.
    + lia.
  - apply (Hclamp 23.5%Q (advance (RandomState_new 21343))).
    vm_compute. reflexivity.
Defined.

Lemma updateTriggeredEvent_rearms_witness :
  returns (@EXEV.updateTriggeredEvent demo_variates 0 (mkDatetime 2024 1 6 0 0) 5
             demo_events) /\
  exists key ev recSamp magSamp,
    WGI.EVENT_KEYS !! 0%nat = Some key /\
    EXEV.ACT_EVENT_DICT demo_events !! key = Some (ev, recSamp, magSamp) /\
    EXEV.ACT_EVENT_DICT demo_events_rearmed !! key
      = Some (ev, advance recSamp, advance magSamp) /\
    let years := @poisson_variate demo_variates (EXEV.poisson_mu ev) recSamp in
    let interarrival := (inject_Z (Z.of_nat years) * 365.25)%Q in
    (0 <= interarrival)%Q /\
    fst <$> EXEV.NEXT_EVENT_DICT demo_events_rearmed !! key
      = Some (inject_Z 5 + interarrival)%Q /\
    (inject_Z 5 <= inject_Z 5 + interarrival)%Q.
Proof.
  destruct (@updateTriggeredEvent_rearms demo_variates 0 (mkDatetime 2024 1 6 0 0) 5
              demo_events) as [Hret Hrearm].
  split.
  - apply Hret.
    + apply (@EXEV_setTrackers_ready demo_variates demo_events_configured).
      vm_compute. reflexivity.
    + vm_compute. lia.
  - apply (Hrearm demo_events_rearmed). vm_compute. reflexivity.
Defined.

Lemma updateTracker_channels_equal_witness :
  (forall seed s0,
     drop (length (WGOW.EPS_NORM_SAMP s0))
          (WGOW.EPS_NORM_SAMP (WGOW.setupDistsSamples seed s0))
       = [WGOW.ErrorTSampler seed; WGOW.ErrorTSampler seed]) /\
  returns (@WGOW.updateTracker demo_variates demo_weather) /\
  (exists rstate,
     WGOW.EPS_NORM_SAMP demo_weather !! 0%nat = Some rstate /\
     WGOW.EPS_NORM_SAMP demo_weather !! 1%nat = Some rstate) /\
  (WGOW.EPSI_2 demo_weather_updated).1 = (WGOW.EPSI_2 demo_weather_updated).2.
Proof.
  destruct (@updateTracker_channels_equal demo_variates demo_climatology
              demo_weather) as (Hseed & Hret & Hequal).
  - change (@WGOW.reachable demo_variates demo_climatology
              (WGOW.setupDistsSamples 31345 WGOW.setAllBegin)).
    apply WGOW.reach_setup, WGOW.reach_begin.
  - split; [exact Hseed|]. split.
    + apply Hret.
      change (WGOW.ready (WGOW.setupDistsSamples 31345 WGOW.setAllBegin)).
      apply setupDistsSamples_ready. repeat split; reflexivity.
    + apply (Hequal demo_weather_updated). vm_compute. reflexivity.
Defined.


Section DemoRealization.
#[local] Existing Instance demo_variates.
#[local] Existing Instance demo_climatology.

Lemma demo_realization_begins : WGmp.realization_begins demo_TimesList demo_s0.
Proof.
  exists demo_start, demo_end, 1%Z, 31344%Z, 21342%Z, 41446%Z, 51548%Z,
         62379%Z, 73871%Z, WGmp.fresh_modules, 6%nat.
  split; [vm_compute; intuition discriminate|].
  vm_compute. reflexivity.
Qed.

(** The second day of the demo realization is a wet day on which all six
    event classes fire: the record is their total alone. *)
Lemma day_precipitation_witness :
  exists st', WGmp.day_body demo_TimesList 1 demo_day1 = Ok st' /\
  let fired :=
    bool_decide (WGmp.h0State demo_day1 = WGI.WET_STATE)
    && negb (WGmp.h0remdur demo_day1 <=? 0)%Z
    && WGmp.any_event 1 (WGmp.EvTrigTimes demo_day1) WGmp.event_classes in
  (WGmp.h0State st' = WGI.DRY_STATE ->
     WGmp.Precip_mm st' 1 = Ok (Finite 0.0)) /\
  (WGmp.h0State st' = WGI.WET_STATE ->
     if fired then
       WGmp.Precip_mm st' 1
         = Ok (Finite (WGmp.event_total 1 (WGmp.EvTrigTimes demo_day1)
                         (WGmp.EvTrigMags demo_day1) WGmp.event_classes 0.0))
     else
       exists base,
         WGDS.ST_PDEPTH (WGmp.wgds st') !! month (mkDatetime 2024 1 2 0 0)
           = Some base /\
         WGmp.Precip_mm st' 1 = Ok (Finite base)) /\
  (forall n sn, (1 < n)%nat -> WGmp.daily_loop demo_TimesList n demo_s0 = Ok sn ->
     WGmp.Precip_mm sn 1 = WGmp.Precip_mm st' 1).
Proof.
  apply (day_precipitation demo_TimesList demo_s0 1 (mkDatetime 2024 1 2 0 0)
           demo_day1).
  - exact demo_realization_begins.
  - vm_compute. reflexivity.
  - reflexivity.
Defined.

(** C1 as stated fails: on that day the state is WET, a base depth of
    23.5 mm was sampled for the month and events with a positive total
    fired, yet the record is the total, not the base depth plus the
    total. *)
Lemma wet_day_precipitation_not_additive :
  WGmp.realization_begins demo_TimesList demo_s0 /\
  WGmp.daily_loop demo_TimesList 1 demo_s0 = Ok demo_day1 /\
  WGmp.day_body demo_TimesList 1 demo_day1 = Ok demo_day2 /\
  WGmp.h0State demo_day2 = WGI.WET_STATE /\
  exists p base total : Q,
    WGmp.Precip_mm demo_day2 1 = Ok (Finite p) /\
    WGDS.ST_PDEPTH (WGmp.wgds demo_day2) !! 1%Z = Some base /\
    total = WGmp.event_total 1 (WGmp.EvTrigTimes demo_day1)
              (WGmp.EvTrigMags demo_day1) WGmp.event_classes 0.0 /\
    (p == total)%Q /\ (0 < base)%Q /\ ~ (p == base + total)%Q.
Proof.
  split; [exact demo_realization_begins|].
  split; [vm_compute; reflexivity|].
  split; [vm_compute; reflexivity|].
  split; [reflexivity|].
  eexists _, _, _. split; [vm_compute; reflexivity|].
  split; [vm_compute; reflexivity|].
  split; [reflexivity|].
  split; [vm_compute; reflexivity|].
  split; [vm_compute; reflexivity|].
  vm_compute. discriminate.
Qed.

Lemma draw_every_day_witness :
  exists st', WGmp.day_body demo_TimesList 1 demo_day1 = Ok st' /\
  (forall jJ, (1 <= jJ <= 12)%Z ->
     WGDS.one_spell_draw jJ (WGmp.wgds demo_day1) (WGmp.wgds st') /\
     WGDS.one_depth_draw (month (mkDatetime 2024 1 2 0 0)) jJ
       (WGmp.wgds demo_day1) (WGmp.wgds st') /\
     (forall rstate,
        WGDS.DP_DEPTH_SAMP (WGmp.wgds demo_day1) !! jJ = Some rstate ->
        WGDS.DP_DEPTH_SAMP (WGmp.wgds st') !! jJ = Some (advance rstate))) /\
  exists s1,
    WGmp.sample_day (month (mkDatetime 2024 1 2 0 0)) demo_day1 = Ok s1 /\
    WGmp.rest_of_day (mkDatetime 2024 1 2 0 0) 1 s1 = Ok st' /\
    forall ds,
      WGmp.same_tracked (month (mkDatetime 2024 1 2 0 0)) (WGmp.wgds s1) ds ->
      WGmp.rest_of_day (mkDatetime 2024 1 2 0 0) 1 (WGmp.with_wgds s1 ds)
        = Ok (WGmp.with_wgds st' ds).
Proof.
  apply (draw_every_day demo_TimesList demo_s0 1 (mkDatetime 2024 1 2 0 0)
           demo_day1).
  - exact demo_realization_begins.
  - vm_compute. reflexivity.
  - reflexivity.
Defined.

End DemoRealization.

Section ShortRealization.
#[local] Existing Instance short_variates.
#[local] Existing Instance demo_climatology.

Lemma short_realization_begins : WGmp.realization_begins short_TimesList short_s0.
Proof.
  exists demo_start, demo_end, 1%Z, 31344%Z, 21342%Z, 41446%Z, 51548%Z,
         62379%Z, 73871%Z, WGmp.fresh_modules, 6%nat.
  split; [vm_compute; intuition discriminate|].
  vm_compute. reflexivity.
Qed.

(** The third day of the short realization begins DRY with the counter
    at zero. *)
Lemma dry_spell_end_day_witness :
  exists (st' s1 s2 : WGmp.state) (L : Z) (base : Q),
    WGmp.day_body short_TimesList 2 short_day2 = Ok st' /\
    WGmp.sample_day (month (mkDatetime 2024 1 3 0 0)) short_day2 = Ok s1 /\
    WGDS.ST_WETSPELL (WGmp.wgds s1) !! month (mkDatetime 2024 1 3 0 0) = Some L /\
    WGDS.ST_PDEPTH (WGmp.wgds s1) !! month (mkDatetime 2024 1 3 0 0) = Some base /\
    WGmp.check_state (mkDatetime 2024 1 3 0 0) 2
      (month (mkDatetime 2024 1 3 0 0)) s1 = Ok s2 /\
    WGmp.h0State s2 = WGI.WET_STATE /\ WGmp.h0remdur s2 = L /\
    WGmp.h0State st' = WGI.WET_STATE /\
    WGmp.h0remdur st' = (L - 1)%Z /\
    WGmp.Precip_mm st' 2 = Ok (Finite base) /\
    (WGPD.WD_THRESH <= base)%Q /\ ~ (base == 0)%Q /\
    WGmp.exev st' = WGmp.exev short_day2 /\
    WGmp.EvTrigTimes st' = WGmp.EvTrigTimes short_day2 /\
    WGmp.EvTrigMags st' = WGmp.EvTrigMags short_day2 /\
    WGmp.eventTriggered st' = false.
Proof.
  apply (dry_spell_end_day short_TimesList short_s0 2 (mkDatetime 2024 1 3 0 0)
           short_day2).
  - exact short_realization_begins.
  - vm_compute. reflexivity.
  - reflexivity.
  - reflexivity.
  - vm_compute. discriminate.
Defined.

(** The fourth day of the short realization toggles to DRY. *)
Lemma spell_length_exact_witness :
  exists (cTime : datetime) (L : Z),
    short_TimesList !! 3%nat = Some cTime /\
    WGmp.tracked_spell (WGmp.h0State short_day4) (WGmp.wgds short_day4)
      (month cTime) = Some L /\
    (1 <= L)%Z /\
    WGmp.h0remdur short_day4 = (L - 1)%Z /\
    (forall k sk sk', (1 <= k)%nat -> (Z.of_nat k < L)%Z ->
       WGmp.daily_loop short_TimesList (3 + k) short_s0 = Ok sk ->
       WGmp.day_body short_TimesList (3 + k) sk = Ok sk' ->
       WGmp.h0State sk = WGmp.h0State short_day4 /\
       WGmp.h0State sk' = WGmp.h0State short_day4) /\
    (forall sL sL',
       WGmp.daily_loop short_TimesList (3 + Z.to_nat L) short_s0 = Ok sL ->
       WGmp.day_body short_TimesList (3 + Z.to_nat L) sL = Ok sL' ->
       WGmp.h0State sL = WGmp.h0State short_day4 /\
       WGmp.h0State sL' <> WGmp.h0State short_day4).
Proof.
  apply (spell_length_exact short_TimesList short_s0 3 short_day3 short_day4).
  - exact short_realization_begins.
  - vm_compute. reflexivity.
  - vm_compute. reflexivity.
  - vm_compute. discriminate.
Defined.

End ShortRealization.

(** ** Runs for the further properties *)












Section DemoExtras.
#[local] Existing Instance demo_variates.
#[local] Existing Instance demo_climatology.
















End DemoExtras.
